(** * YAN agents: bounded pagination, de-duplication and posting-time analysis

    A shallow embedding of the algorithmic core of three of the TypeScript
    agents of the repository:

    - the cast-timing analyst ([fetchAllUserCasts], [farcasterEpochToDate],
      [analyzeOptimalPostingTimesUTC] and the capability
      [analyzeOptimalPostingTime]);
    - the follower analyst ([fetchUserFollowers], [fetchBulkUsers] and the
      capability [getTrueAudienceProfile]: its follower pagination, its
      [new Set] de-duplication, its hydration of the profiles and its
      reports, short of [analyzeFollowerSegments]);
    - the Farcaster pulse analyzer ([makeNeynarRequest], [makeXaiRequest],
      [fetchCastRepliesUsingParentUrl],
      [summarizeFarcasterDiscussionOrXReactions], [getRecentXEventsContext]
      and the capability [analyzeFarcasterPulseWithXContext]).

    JavaScript values are modelled as follows.  Integral [number]s are [Z]
    (array lengths and counters, which never go negative, are [nat]); strings
    are [string], one character for one UTF-16 code unit, which is what the
    source has on ASCII text ([Js.isAscii]), so the equations that give a
    text cut by [Js.prefix] are stated for ASCII text;
    [undefined]/[null]/absent fields are [None]; a plain object
    used as a dictionary is a [JsObject.t], an association list kept in the
    order in which [Object.entries] enumerates it; a [Date] is its time value,
    [None] standing for the NaN of an invalid date.  The HTTP backends are
    scripts: the list of answers the server gives to the successive requests
    of one run. *)

From Stdlib Require Import List String Ascii ZArith NArith Lia Bool Arith.
From Stdlib Require Import DecimalString.
From Stdlib Require QArith_base.
Import ListNotations.

Set Implicit Arguments.

Open Scope string_scope.
Open Scope list_scope.
Open Scope nat_scope.

(** String concatenation, the [+] and the template literals of the source. *)
Infix "+++" := String.append (right associativity, at level 60) : string_scope.

(** ** JavaScript strings and truthiness *)

Module Js.

(** The double-quote character, for use inside templates. *)
Definition dquote : string := String (ascii_of_nat 34) EmptyString.

(** Line feed, as in the escape [\n]. *)
Definition lf : string := String (ascii_of_nat 10) EmptyString.

(** [ToBoolean] of a possibly absent string: [undefined], [null] and the
    empty string are falsy. *)
Definition truthy (s : option string) : bool :=
  match s with
  | Some s => negb (s =? "")%string
  | None => false
  end.

(** [a || b] where [a] is a possibly absent string. *)
Definition orElse (a : option string) (b : string) : string :=
  match a with
  | Some s => if (s =? "")%string then b else s
  | None => b
  end.

(** Template substitution of a possibly undefined string. *)
Definition show (a : option string) : string :=
  match a with
  | Some s => s
  | None => "undefined"
  end.

(** [Number.prototype.toString] on an integral number. *)
Definition intToString (z : Z) : string :=
  NilZero.string_of_int (Z.to_int z).

Definition natToString (n : nat) : string := intToString (Z.of_nat n).

(** [Number.prototype.toString] where [None] is NaN. *)
Definition numberToString (z : option Z) : string :=
  match z with
  | Some z => intToString z
  | None => "NaN"
  end.

(** [n] characters read cyclically from [pad], continuing at [cur]. *)
Fixpoint fill (n : nat) (pad cur : string) : string :=
  match n with
  | O => ""
  | S n' =>
      match cur with
      | String c cur' => String c (fill n' pad cur')
      | EmptyString =>
          match pad with
          | String c pad' => String c (fill n' pad pad')
          | EmptyString => ""
          end
      end
  end.

(** [String.prototype.padStart]. *)
Definition padStart (targetLength : nat) (padString s : string) : string :=
  fill (targetLength - String.length s) padString padString +++ s.

(** A text of ASCII characters: each is one UTF-16 code unit of the source's
    string, and one character here. *)
Definition isAscii (s : string) : bool :=
  forallb (fun c => (nat_of_ascii c <? 128)%nat) (list_ascii_of_string s).

(** [s.substring(0, n)]: the first [n] code units, which are the first [n]
    characters of an ASCII text. *)
Definition prefix (n : nat) (s : string) : string := substring 0 n s.

(** [String.prototype.includes]. *)
Fixpoint includes (s needle : string) : bool :=
  String.prefix needle s ||
  match s with
  | EmptyString => false
  | String _ s' => includes s' needle
  end.

(** [String.prototype.toLowerCase], on the ASCII letters. *)
Definition lowerAscii (c : ascii) : ascii :=
  let n := nat_of_ascii c in
  if (65 <=? n)%nat && (n <=? 90)%nat then ascii_of_nat (n + 32) else c.

Fixpoint toLowerCase (s : string) : string :=
  match s with
  | EmptyString => EmptyString
  | String c s' => String (lowerAscii c) (toLowerCase s')
  end.

(** White space as [String.prototype.trim] sees it, on ASCII: TAB, LF, VT,
    FF, CR and space. *)
Definition isSpace (c : ascii) : bool :=
  let n := nat_of_ascii c in
  ((9 <=? n)%nat && (n <=? 13)%nat) || (n =? 32)%nat.

Fixpoint trimStart (s : string) : string :=
  match s with
  | String c s' => if isSpace c then trimStart s' else s
  | EmptyString => EmptyString
  end.

Fixpoint trimEnd (s : string) : string :=
  match s with
  | EmptyString => EmptyString
  | String c s' =>
      match trimEnd s' with
      | EmptyString => if isSpace c then EmptyString else String c EmptyString
      | t => String c t
      end
  end.

Definition trim (s : string) : string := trimEnd (trimStart s).

(** [Array.prototype.join]. *)
Definition join (sep : string) (l : list string) : string :=
  String.concat sep l.

(** The decimal value of a string made of digits only; the basis of
    [parseInt] and of the array-index test on property keys. *)
Definition digit (c : ascii) : option N :=
  let n := N_of_ascii c in
  if (48 <=? n)%N && (n <=? 57)%N then Some (n - 48)%N else None.

Fixpoint digitsFrom (acc : N) (s : string) : option N :=
  match s with
  | EmptyString => Some acc
  | String c s' =>
      match digit c with
      | Some d => digitsFrom (10 * acc + d)%N s'
      | None => None
      end
  end.

Definition digits (s : string) : option N :=
  match s with
  | EmptyString => None
  | _ => digitsFrom 0%N s
  end.

(** The longest prefix of [s] made of decimal digits. *)
Fixpoint digitPrefix (s : string) : string :=
  match s with
  | String c s' =>
      match digit c with
      | Some _ => String c (digitPrefix s')
      | None => EmptyString
      end
  | EmptyString => EmptyString
  end.

(** [parseInt(s)] for an unsigned decimal: the value of the leading digits,
    NaN ([None]) when there are none.  The keys it is applied to carry
    neither white space, sign nor radix prefix. *)
Definition parseInt (s : string) : option N := digits (digitPrefix s).

End Js.

(** ** Plain objects used as dictionaries

    [Object.entries] enumerates the own string keys of an ordinary object
    with the array indices first, in ascending numeric order, and the other
    keys after them in the order of their creation.  A [JsObject.t] is kept
    in that order. *)

Module JsObject.

Definition t (V : Type) : Type := list (string * V).

Definition empty {V : Type} : t V := [].

(** A key is an array index when it is the canonical decimal form of an
    integer below [2^32 - 1]. *)
Definition arrayIndex (k : string) : option N :=
  match Js.digits k with
  | Some n =>
      if (Js.intToString (Z.of_N n) =? k)%string && (n <? 4294967295)%N
      then Some n else None
  | None => None
  end.

Fixpoint get {V : Type} (o : t V) (k : string) : option V :=
  match o with
  | [] => None
  | (k', v) :: o' => if (k =? k')%string then Some v else get o' k
  end.

(** Assignment to an existing property: the value changes, the position
    does not. *)
Fixpoint update {V : Type} (o : t V) (k : string) (v : V) : t V :=
  match o with
  | [] => []
  | (k', v') :: o' =>
      if (k =? k')%string then (k', v) :: o'
    else (k', v') :: update o' k v
  end.

(** Creation of an array-index property [k] of value [i]: it goes after
    the smaller indices and before everything else. *)
Fixpoint insertIndex {V : Type} (o : t V) (i : N) (k : string) (v : V) : t V :=
  match o with
  | [] => [(k, v)]
  | (k', v') :: o' =>
      match arrayIndex k' with
      | Some j =>
          if (j <? i)%N then (k', v') :: insertIndex o' i k v
          else (k, v) :: o
      | None => (k, v) :: o
      end
  end.

(** [o[k] = v]. *)
Definition set {V : Type} (o : t V) (k : string) (v : V) : t V :=
  match get o k with
  | Some _ => update o k v
  | None =>
      match arrayIndex k with
      | Some i => insertIndex o i k v
      | None => o ++ [(k, v)]
      end
  end.

(** [Object.entries(o)] and [Object.keys(o)]. *)
Definition entries {V : Type} (o : t V) : list (string * V) := o.

Definition keys {V : Type} (o : t V) : list string := map fst o.

(** [Object.fromEntries]. *)
Definition fromEntries {V : Type} (l : list (string * V)) : t V :=
  fold_left (fun o kv => set o (fst kv) (snd kv)) l empty.

End JsObject.

(** ** Dates

    The time value of a [Date] is a number of milliseconds since the Unix
    epoch, or NaN.  The day and hour arithmetic is that of the ECMAScript
    specification; [Z.div] and [Z.modulo] round towards minus infinity as
    [floor] and [modulo] do there. *)

Module JsDate.

Open Scope Z_scope.

(** [None] is the invalid date. *)
Definition t : Type := option Z.

Definition msPerDay : Z := 86400000.
Definition msPerHour : Z := 3600000.
Definition msPerMinute : Z := 60000.
Definition msPerSecond : Z := 1000.

Definition maxTime : Z := 8640000000000000.

(** [TimeClip]: a time value beyond 100,000,000 days from the epoch is
    NaN. *)
Definition TimeClip (v : Z) : t :=
  if Z.abs v <=? maxTime then Some v else None.

(** [new Date(v)] for a number [v]. *)
Definition ofNumber (v : Z) : t := TimeClip v.

Definition Day (tv : Z) : Z := tv / msPerDay.
Definition TimeWithinDay (tv : Z) : Z := tv mod msPerDay.
Definition HourFromTime (tv : Z) : Z := (tv / msPerHour) mod 24.
Definition MinFromTime (tv : Z) : Z := (tv / msPerMinute) mod 60.
Definition SecFromTime (tv : Z) : Z := (tv / msPerSecond) mod 60.
Definition msFromTime (tv : Z) : Z := tv mod msPerSecond.
Definition WeekDay (tv : Z) : Z := (Day tv + 4) mod 7.

Definition DayFromYear (y : Z) : Z :=
  365 * (y - 1970) + (y - 1969) / 4 - (y - 1901) / 100 + (y - 1601) / 400.
Definition TimeFromYear (y : Z) : Z := msPerDay * DayFromYear y.

(** [getUTCHours] and [getUTCDay]; NaN on the invalid date. *)
Definition getUTCHours (d : t) : option Z := option_map HourFromTime d.
Definition getUTCDay (d : t) : option Z := option_map WeekDay d.

End JsDate.


(** ** HTTP calls

    A call through [axios] either resolves with the body of the response or
    rejects with an error, of which the agents read
    [response.data.error.message], [response.data.message] and [message]. *)

Module Http.

Record AxiosError : Type := {
  response_data_error_message : option string;
  response_data_message : option string;
  message : string
}.

Inductive Axios (A : Type) : Type :=
| Resolved (data : A)
| Rejected (err : AxiosError).

Arguments Resolved {A} data.
Arguments Rejected {A} err.

(** [err.response?.data?.message || err.message] *)
Definition errorText (err : AxiosError) : string :=
  Js.orElse (response_data_message err) (message err).

End Http.

(** ** The cast-timing analyst *)

Module CastTiming.

Import Http.

Definition MAX_CASTS_TO_FETCH_FOR_POST_TIME_ANALYSIS : nat := 500.
Definition CAST_FETCH_PAGE_SIZE : nat := 100.

Record CastAddBody : Type := { text : option string }.

Record MessageData : Type := {
  type : string;
  fid : Z;
  timestamp : Z;
  network : string;
  castAddBody : option CastAddBody
}.

Record FarcasterMessage : Type := {
  data : MessageData;
  hash : string
}.

(** The body of a [castsByFid] response; its [error] field is never
    read. *)
Record FetchCastsByFidResponse : Type := {
  messages : option (list FarcasterMessage);
  nextPageToken : option string
}.

(** The query of one [castsByFid] request. *)
Record Request : Type := {
  req_fid : string;
  req_pageSize : nat;
  req_pageToken : option string
}.

Definition Exchange : Type := Request * Axios FetchCastsByFidResponse.

(** What [fetchAllUserCasts] returns, with the requests it made and the
    answers it got. *)
Record Fetched : Type := {
  casts : list FarcasterMessage;
  error : option string;
  exchanges : list Exchange
}.

Definition FARCASTER_EPOCH_MS : Z := 1609459200000.

Definition farcasterEpochToDate (fcTimestamp : Z) : JsDate.t :=
  JsDate.ofNumber (FARCASTER_EPOCH_MS + fcTimestamp * 1000).

(** The predicate of [messages.filter]:
    [msg.data?.type === "MESSAGE_TYPE_CAST_ADD" && msg.data.castAddBody]. *)
Definition isCastAdd (msg : FarcasterMessage) : bool :=
  (type (data msg) =? "MESSAGE_TYPE_CAST_ADD")%string &&
  match castAddBody (data msg) with Some _ => true | None => false end.

(** [response.data.messages || []] filtered. *)
Definition castAddMessages (response : FetchCastsByFidResponse)
  : list FarcasterMessage :=
  filter isCastAdd (match messages response with Some m => m | None => [] end).

Definition errorString (err : AxiosError) : string :=
  "Neynar Hub API error (castsByFid): " +++ errorText err.

Definition logged (x : Exchange) (r : option Fetched) : option Fetched :=
  option_map
    (fun f => {| casts := casts f; error := error f;
                 exchanges := x :: exchanges f |}) r.

(** The [do ... while (nextPageToken)] loop, entered with the accumulator
    [allCasts] and the token [nextPageToken]; [script] holds the answers of
    the hub to the requests still to come, and the loop has no result when
    the script ends before the loop does. *)
Fixpoint fetchLoop (maxItems pageSize : nat) (fid : string)
  (script : list (Axios FetchCastsByFidResponse))
  (allCasts : list FarcasterMessage) (nextPageToken : option string)
  : option Fetched :=
  match script with
  | [] => None
  | answer :: script' =>
      let request :=
        {| req_fid := fid; req_pageSize := pageSize;
           req_pageToken :=
             if Js.truthy nextPageToken then nextPageToken else None |} in
      match answer with
      | Resolved response =>
          let allCasts := allCasts ++ castAddMessages response in
          let nextPageToken := CastTiming.nextPageToken response in
          if maxItems <=? List.length allCasts then
            Some {| casts := firstn maxItems allCasts; error := None;
                    exchanges := [(request, answer)] |}
          else if Js.truthy nextPageToken then
            logged (request, answer)
              (fetchLoop maxItems pageSize fid script' allCasts nextPageToken)
          else
            Some {| casts := allCasts; error := None;
                    exchanges := [(request, answer)] |}
      | Rejected err =>
          Some {| casts := allCasts; error := Some (errorString err);
                  exchanges := [(request, answer)] |}
      end
  end.

(** [fetchAllUserCasts] for a cap and a page size. *)
Definition collect (maxItems pageSize : nat) (fid : string)
  (script : list (Axios FetchCastsByFidResponse)) : option Fetched :=
  fetchLoop maxItems pageSize fid script [] None.

Definition fetchAllUserCasts (fid : string)
  (script : list (Axios FetchCastsByFidResponse)) : option Fetched :=
  collect MAX_CASTS_TO_FETCH_FOR_POST_TIME_ANALYSIS CAST_FETCH_PAGE_SIZE
    fid script.

(** *** [analyzeOptimalPostingTimesUTC] *)

(** A tally entry, [{ cast_count: number }]. *)
Record Activity : Type := { cast_count : nat }.

Definition Tally : Type := JsObject.t Activity.

(** [(tally[key]?.cast_count || 0) + 1] *)
Definition bump (tally : Tally) (key : string) : Tally :=
  JsObject.set tally key
    {| cast_count :=
         match JsObject.get tally key with
         | Some a => cast_count a
         | None => 0
         end + 1 |}.

Definition hourKeyOf (cast : FarcasterMessage) : string :=
  Js.padStart 2 "0"
    (Js.numberToString
       (JsDate.getUTCHours (farcasterEpochToDate (timestamp (data cast))))).

Definition dayKeyOf (cast : FarcasterMessage) : string :=
  Js.numberToString
    (JsDate.getUTCDay (farcasterEpochToDate (timestamp (data cast)))).

(** The body of [for (const cast of casts)], on the pair
    [(hourlyActivity, dailyActivity)]. *)
Definition tallyCast (acc : Tally * Tally) (cast : FarcasterMessage)
  : Tally * Tally :=
  if (type (data cast) =? "MESSAGE_TYPE_CAST_ADD")%string then
    (bump (fst acc) (hourKeyOf cast), bump (snd acc) (dayKeyOf cast))
  else acc.

(** The two tallies after the loop over the casts. *)
Definition bucketize (casts : list FarcasterMessage) : Tally * Tally :=
  fold_left tallyCast casts (JsObject.empty, JsObject.empty).

Definition daysOfWeek : list string :=
  ["Sunday"; "Monday"; "Tuesday"; "Wednesday"; "Thursday"; "Friday";
   "Saturday"].

(** [daysOfWeek[parseInt(dayIndex)]], [undefined] out of range or on NaN. *)
Definition dayName (dayIndex : string) : option string :=
  match Js.parseInt dayIndex with
  | Some i => nth_error daysOfWeek (N.to_nat i)
  | None => None
  end.

(** One step of the peak search, on [(peaks, max)]: a strictly greater count
    restarts the peaks, an equal count joins them. *)
Definition peakStep {L : Type} (label : string -> L)
  (st : list L * nat) (entry : string * Activity) : list L * nat :=
  if snd st <? cast_count (snd entry) then
    ([label (fst entry)], cast_count (snd entry))
  else if cast_count (snd entry) =? snd st then
    (fst st ++ [label (fst entry)], snd st)
  else st.

(** [Object.entries(tally).forEach(...)] from [peaks = []; max = 0]; the
    hourly search keeps the key, the daily one the name of the day. *)
Definition findPeaks {L : Type} (label : string -> L) (tally : Tally)
  : list L * nat :=
  fold_left (peakStep label) (JsObject.entries tally) ([], 0).

Definition formatHourly (hourlyActivity : Tally) : Tally :=
  JsObject.fromEntries
    (map (fun e => (fst e +++ ":00-" +++ fst e +++ ":59 UTC", snd e))
         (JsObject.entries hourlyActivity)).

Definition formatDaily (dailyActivity : Tally) : Tally :=
  JsObject.fromEntries
    (map (fun e => (Js.show (dayName (fst e)) +++ " (UTC)", snd e))
         (JsObject.entries dailyActivity)).

(** The object [analyzeOptimalPostingTimesUTC] returns: three fields when
    there is no cast, seven otherwise. *)
Inductive Analysis : Type :=
| NoData (summary : string) (hourly_activity_utc daily_activity_utc : Tally)
| Report (summary : string) (reference_timezone : string)
    (peak_posting_hours_utc : list string)
    (peak_posting_days_utc : list (option string))
    (hourly_activity_utc daily_activity_utc : Tally)
    (total_casts_analyzed : nat).

Definition summaryOf (a : Analysis) : string :=
  match a with
  | NoData s _ _ => s
  | Report s _ _ _ _ _ _ => s
  end.

Definition summaryNote : string :=
  " (Note: This analysis is based on the user's own posting frequency in UTC. Convert to local timezone (e.g., IST is UTC+5:30) for local insights. True optimal times would correlate this with audience engagement.)".

Definition analyzeOptimalPostingTimesUTC (casts : list FarcasterMessage)
  : Analysis :=
  if List.length casts =? 0 then
    NoData "No cast data available to analyze posting times."
      JsObject.empty JsObject.empty
  else
    let (hourlyActivity, dailyActivity) := bucketize casts in
    let (peakHoursUTC, maxCastsInHour) :=
      findPeaks (fun h => h) hourlyActivity in
    let (peakDaysUTC, maxCastsInDay) := findPeaks dayName dailyActivity in
    let summary :=
      "Based on " +++ Js.natToString (List.length casts) +++
      " of their recent casts (up to " +++
      Js.natToString MAX_CASTS_TO_FETCH_FOR_POST_TIME_ANALYSIS +++
      " analyzed), times reported in UTC: " in
    let summary :=
      if (0 <? List.length peakDaysUTC) && (0 <? List.length peakHoursUTC) then
        summary +++ "This user most frequently posts on " +++
        Js.join ", " (map (fun d => match d with Some s => s | None => "" end)
                          peakDaysUTC) +++
        " (UTC), particularly around " +++
        Js.join ", " (map (fun h => h +++ ":00") peakHoursUTC) +++ " UTC. "
      else
        summary +++
        "Could not determine clear peak posting times from the available cast data." in
    let summary := summary +++ summaryNote in
    Report summary "UTC"
      (map (fun h => h +++ ":00 UTC") peakHoursUTC)
      peakDaysUTC
      (formatHourly hourlyActivity) (formatDaily dailyActivity)
      (List.length casts).

End CastTiming.


(** ** Sets of numbers

    [new Set(array)] keeps the first occurrence of every value, in the order
    of insertion, and spreading the set enumerates it in that order.  On
    integral numbers the SameValueZero comparison of [Set] is equality. *)

Module JsSet.

Definition t : Type := list Z.

Definition has (s : t) (x : Z) : bool := existsb (Z.eqb x) s.

Definition add (s : t) (x : Z) : t := if has s x then s else s ++ [x].

Definition ofArray (l : list Z) : t := fold_left add l [].

Definition toArray (s : t) : list Z := s.

End JsSet.

(** ** The follower analyst *)

Module FollowerAnalyst.

Import Http.

Definition MAX_FOLLOWERS_TO_PROCESS : nat := 150.
Definition FOLLOWER_FETCH_BATCH_SIZE : nat := 50.

Record NeynarUserProfile : Type := {
  fid : Z;
  username : option string;
  display_name : option string;
  follower_count : option Z;
  power_badge : option bool
}.

Record NeynarFollower : Type := {
  object : string;
  user : NeynarUserProfile
}.

(** [{ cursor?: string | null }] *)
Record Next : Type := { cursor : option string }.

(** The body of a [followers] response, of which [fetchUserFollowers] reads
    [users] and [next]. *)
Record FollowersBody : Type := {
  body_users : option (list NeynarFollower);
  body_next : option Next
}.

Record FetchFollowersResponse : Type := {
  users : option (list NeynarFollower);
  next : option Next;
  error : option string
}.

Record Request : Type := {
  req_fid : string;
  req_limit : nat;
  req_cursor : option string
}.

Definition Exchange : Type := Request * Axios FollowersBody.

(** The query [fetchUserFollowers] sends: the cursor goes into the URL only
    when it is truthy. *)
Definition requestOf (fid : string) (limit : nat) (cursor : option string)
  : Request :=
  {| req_fid := fid; req_limit := limit;
     req_cursor := if Js.truthy cursor then cursor else None |}.

(** [fetchUserFollowers], given the answer of the server to its request. *)
Definition fetchUserFollowers (answer : Axios FollowersBody)
  : FetchFollowersResponse :=
  match answer with
  | Resolved body =>
      {| users := body_users body; next := body_next body; error := None |}
  | Rejected err =>
      {| users := None; next := None;
         error := Some ("Neynar API error (followers): " +++ errorText err) |}
  end.

(** The FIDs one page pushes: [follow.user && follow.user.fid] holds when the
    FID is not zero, the [user] being there by its type. *)
Definition pushedFids (page : list NeynarFollower) : list Z :=
  map (fun follow => fid (user follow))
      (filter (fun follow => negb (fid (user follow) =? 0)%Z) page).

(** The state of the pagination when it stops, with the requests made. *)
Record Collected : Type := {
  allFollowerFids : list Z;
  fetchedFollowersCount : nat;
  fetchError : option string;
  exchanges : list Exchange
}.

Definition logged (x : Exchange) (r : option Collected) : option Collected :=
  option_map
    (fun c => {| allFollowerFids := allFollowerFids c;
                 fetchedFollowersCount := fetchedFollowersCount c;
                 fetchError := fetchError c;
                 exchanges := x :: exchanges c |}) r.

(** The loop [while (fetchedFollowersCount < MAX_FOLLOWERS_TO_PROCESS)], for
    a cap [maxItems] and a batch size [batchSize], entered with the FIDs and
    the count collected so far and the cursor of the last page.  An absent
    or empty [users] pushes nothing and adds nothing to the count, as does
    the branch the source skips in that case. *)
Fixpoint followerLoop (maxItems batchSize : nat) (fid : string)
  (script : list (Axios FollowersBody))
  (allFollowerFids : list Z) (fetchedFollowersCount : nat)
  (cursor : option string) : option Collected :=
  let stop (fids : list Z) (count : nat) (err : option string)
           (xs : list Exchange) :=
    Some {| allFollowerFids := fids; fetchedFollowersCount := count;
            fetchError := err; exchanges := xs |} in
  if fetchedFollowersCount <? maxItems then
    let limit := Nat.min batchSize (maxItems - fetchedFollowersCount) in
    if limit <=? 0 then stop allFollowerFids fetchedFollowersCount None []
    else
      match script with
      | [] => None
      | answer :: script' =>
          let x := (requestOf fid limit cursor, answer) in
          let followersResponse := fetchUserFollowers answer in
          if Js.truthy (error followersResponse) then
            stop allFollowerFids fetchedFollowersCount
                 (error followersResponse) [x]
          else
            let page :=
              match users followersResponse with
              | Some us => us
              | None => []
              end in
            let allFollowerFids := allFollowerFids ++ pushedFids page in
            let fetchedFollowersCount :=
              fetchedFollowersCount + List.length page in
            let cursor :=
              match next followersResponse with
              | Some n => FollowerAnalyst.cursor n
              | None => None
              end in
            if negb (Js.truthy cursor) then
              stop allFollowerFids fetchedFollowersCount None [x]
            else if maxItems <=? fetchedFollowersCount then
              stop allFollowerFids fetchedFollowersCount None [x]
            else
              logged x
                (followerLoop maxItems batchSize fid script'
                   allFollowerFids fetchedFollowersCount cursor)
      end
  else stop allFollowerFids fetchedFollowersCount None [].

Definition collect (maxItems batchSize : nat) (fid : string)
  (script : list (Axios FollowersBody)) : option Collected :=
  followerLoop maxItems batchSize fid script [] 0 None.

(** The pagination of [getTrueAudienceProfile]. *)
Definition collectFollowers (fid : string)
  (script : list (Axios FollowersBody)) : option Collected :=
  collect MAX_FOLLOWERS_TO_PROCESS FOLLOWER_FETCH_BATCH_SIZE fid script.

(** [[...new Set(allFollowerFids)]] *)
Definition dedupe (allFollowerFids : list Z) : list Z :=
  JsSet.toArray (JsSet.ofArray allFollowerFids).

(** The unique FIDs [getTrueAudienceProfile] goes on with, and the error of
    the pagination, if any. *)
Definition uniqueFollowerFids (fid : string)
  (script : list (Axios FollowersBody)) : option (list Z * option string) :=
  option_map (fun c => (dedupe (allFollowerFids c), fetchError c))
    (collectFollowers fid script).

End FollowerAnalyst.



(** ** The Farcaster pulse analyzer *)

Module Pulse.

Import Http.

Definition XAI_SUMMARY_MAX_TOKENS : nat := 250.

Record NeynarUser : Type := {
  fid : Z;
  username : option string;
  display_name : option string;
  power_badge : option bool
}.

Record NeynarCast : Type := {
  hash : string;
  author : NeynarUser;
  text : option string;
  timestamp : string
}.

Record Choice : Type := { message_content : string }.

Record XaiSearchResponse : Type := {
  choices : option (list Choice);
  citations : option (list string)
}.

(** [{ mode: "on", sources: [{ "type": "x" }] }] and the like. *)
Record SearchParameters : Type := {
  mode : string;
  sources : list string
}.

Record ChatMessage : Type := { role : string; content : string }.

(** The body [makeXaiRequest] posts to [/chat/completions]. *)
Record Payload : Type := {
  model : string;
  messages : list ChatMessage;
  max_tokens : nat;
  temperature : QArith_base.Q;
  search_parameters : option SearchParameters
}.

(** What [makeXaiRequest] resolves to. *)
Record XaiResult : Type := {
  result_content : option string;
  result_citations : option (list string);
  result_error : option string
}.

(** [error.response?.data?.error?.message || error.response?.data?.message
    || error.message] *)
Definition xaiErrorText (err : AxiosError) : string :=
  Js.orElse (response_data_error_message err) (errorText err).

(** [makeXaiRequest]: the payload it posts, and its result for the answer
    [xai] gives to that payload. *)
Definition makeXaiRequest (xai : Payload -> Axios XaiSearchResponse)
  (prompt : string) (searchParams : option SearchParameters)
  (maxTokens : nat) (temperature : QArith_base.Q) : XaiResult * list Payload :=
  let payload :=
    {| model := "grok-3-latest";
       messages := [{| role := "user"; content := prompt |}];
       max_tokens := maxTokens; temperature := temperature;
       search_parameters := searchParams |} in
  (match xai payload with
   | Resolved response =>
       match choices response with
       | Some (first :: _) =>
           {| result_content := Some (Js.trim (message_content first));
              result_citations := citations response;
              result_error := None |}
       | _ =>
           {| result_content := None; result_citations := None;
              result_error :=
                Some "xAI response structure invalid or no content." |}
       end
   | Rejected err =>
       {| result_content := None; result_citations := None;
          result_error := Some ("xAI API error: " +++ xaiErrorText err) |}
   end, [payload]).

Definition xSearch : SearchParameters := {| mode := "on"; sources := ["x"] |}.

(** [user.username || `fid:${user.fid}`] *)
Definition handle (u : NeynarUser) : string :=
  Js.orElse (username u) ("fid:" +++ Js.intToString (fid u)).

Definition spaces (n : nat) : string := Js.fill n " " " ".

(** [summarizeFarcasterDiscussionOrXReactions]: the summary, and the
    payloads posted to xAI on the way, in order. *)
Definition summarizeFarcasterDiscussionOrXReactions
  (xai : Payload -> Axios XaiSearchResponse)
  (catalystCast : NeynarCast) (directReplies : list NeynarCast)
  : string * list Payload :=
  let catalystText := Js.orElse (text catalystCast) "a cast with no text" in
  if 0 <? List.length directReplies then
    let repliesText :=
      Js.join (Js.lf +++ "---" +++ Js.lf)
        (firstn 7
           (map (fun r => "@" +++ handle (author r) +++ ": " +++
                          Js.show (text r))
                directReplies)) in
    let prompt :=
      Js.lf +++ spaces 12 +++ "Catalyst Farcaster Cast by @" +++
      handle (author catalystCast) +++ ": " +++ Js.dquote +++ catalystText +++
      Js.dquote +++ Js.lf +++ spaces 12 +++
      "Recent Replies on Farcaster (sample):" +++ Js.lf +++ spaces 12 +++
      repliesText +++ Js.lf +++ spaces 12 +++
      "Based on these, what is the main topic of the catalyst cast and what are the 2-3 primary themes or sentiments in the Farcaster replies? Be concise." in
    let (result, posted) :=
      makeXaiRequest xai prompt None XAI_SUMMARY_MAX_TOKENS
        (QArith_base.Qmake 3 10) in
    (Js.orElse (result_content result)
       ("Error summarizing Farcaster replies: " +++
        Js.show (result_error result)),
     posted)
  else
    let prompt :=
      "The following Farcaster cast is gaining attention: " +++ Js.dquote +++
      "@" +++ handle (author catalystCast) +++ ": " +++ catalystText +++
      Js.dquote +++ Js.lf +++ spaces 8 +++
      "Scan X (Twitter) for discussions, reactions, or context related to the topic of this cast that have occurred in the last 24 hours." +++
      Js.lf +++ spaces 8 +++
      "Summarize the general sentiment or key points from X regarding this topic." in
    let (result, posted) :=
      makeXaiRequest xai prompt (Some xSearch) XAI_SUMMARY_MAX_TOKENS
        (QArith_base.Qmake 5 10) in
    let usable :=
      match result_content result with
      | Some c =>
          negb (c =? "")%string &&
          negb (Js.includes (Js.toLowerCase c) "error") &&
          negb (Js.includes (Js.toLowerCase c) "could not find")
      | None => false
      end in
    (if usable then
       "No direct Farcaster replies were available for analysis. However, related discussions on X (Twitter) in the last 24 hours about " +++
       Js.dquote +++ Js.prefix 50 catalystText +++ "..." +++ Js.dquote +++
       " show: " +++ Js.show (result_content result)
     else
       "No direct Farcaster replies were available for analysis, and could not fetch significant related X discussions for " +++
       Js.dquote +++ Js.prefix 50 catalystText +++ "..." +++ Js.dquote +++
       ". The catalyst cast's topic itself is the primary focus.",
     posted).

(** A payload asks for an external search when it carries search
    parameters; the summary of the direct replies carries none and quotes
    the replies. *)
Definition isExternalSearch (p : Payload) : bool :=
  match search_parameters p with
  | Some sp => (mode sp =? "on")%string
  | None => false
  end.

Definition isLocalSummary (p : Payload) : bool :=
  match search_parameters p with
  | Some _ => false
  | None =>
      existsb (fun m => Js.includes (content m)
                          "Recent Replies on Farcaster (sample):")
              (messages p)
  end.

(** The two states of the fallback, as the specification names them, and
    its guard: is there at least one direct reply? *)
Inductive FallbackState : Type := LOCAL_SUFFICIENT | LOCAL_SPARSE.

Definition fallbackState (directReplies : list NeynarCast) : FallbackState :=
  match directReplies with
  | [] => LOCAL_SPARSE
  | _ :: _ => LOCAL_SUFFICIENT
  end.

End Pulse.


(** ** Reference notions

    The vocabulary in which the properties below are stated. *)

Module Reference.

Import CastTiming.

(** The greatest count of a tally, 0 for the empty one. *)
Definition maxCount (tally : Tally) : nat :=
  fold_right Nat.max 0 (map (fun e => cast_count (snd e)) tally).

(** The labels of the entries whose count is [m], in the order of the
    tally. *)
Definition labelsAt {L : Type} (label : string -> L) (m : nat) (tally : Tally)
  : list L :=
  map (fun e => label (fst e))
      (filter (fun e => cast_count (snd e) =? m) tally).

(** The sum of the counts of a tally. *)
Definition total (tally : Tally) : nat :=
  list_sum (map (fun e => cast_count (snd e)) tally).

(** The keys of the hours 0 to 23 and of the week days 0 to 6. *)
Definition hourKey (h : Z) : string := Js.padStart 2 "0" (Js.intToString h).
Definition dayKey (d : Z) : string := Js.intToString d.

Definition hourKeys : list string :=
  map (fun h => hourKey (Z.of_nat h)) (seq 0 24).
Definition dayKeys : list string :=
  map (fun d => dayKey (Z.of_nat d)) (seq 0 7).

(** The instant a raw timestamp stands for, in milliseconds since the Unix
    epoch, and the raw timestamps of which [Date] can hold the instant. *)
Definition instant (fcTimestamp : Z) : Z :=
  (FARCASTER_EPOCH_MS + fcTimestamp * 1000)%Z.

Definition representable (fcTimestamp : Z) : Prop :=
  (Z.abs (instant fcTimestamp) <= JsDate.maxTime)%Z.

(** The test of the tallying loop, [cast.data.type ===
    "MESSAGE_TYPE_CAST_ADD"]. *)
Definition hasCastAddType (cast : FarcasterMessage) : bool :=
  (type (data cast) =? "MESSAGE_TYPE_CAST_ADD")%string.

(** [ceil(a / b)] *)
Definition ceilDiv (a b : nat) : nat := (a + b - 1) / b.

(** An answer after which [fetchAllUserCasts] asks for nothing more,
    whatever it has collected: a failure, or a page without a truthy
    continuation token. *)
Definition lastCastsAnswer (a : Http.Axios FetchCastsByFidResponse) : bool :=
  match a with
  | Http.Resolved r => negb (Js.truthy (nextPageToken r))
  | Http.Rejected _ => true
  end.

(** A page of casts is full when, if it comes with a continuation token, it
    brings at least as many cast-add messages as the request asked
    messages for. *)
Definition fullCastsPage (x : CastTiming.Exchange) : Prop :=
  match snd x with
  | Http.Resolved r =>
      Js.truthy (nextPageToken r) = true ->
      req_pageSize (fst x) <= List.length (castAddMessages r)
  | Http.Rejected _ => True
  end.

(** The followers and the cursor of a page of followers. *)
Definition followersOf (b : FollowerAnalyst.FollowersBody)
  : list FollowerAnalyst.NeynarFollower :=
  match FollowerAnalyst.body_users b with
  | Some us => us
  | None => []
  end.

Definition cursorOf (b : FollowerAnalyst.FollowersBody) : option string :=
  match FollowerAnalyst.body_next b with
  | Some n => FollowerAnalyst.cursor n
  | None => None
  end.

Definition lastFollowersAnswer (a : Http.Axios FollowerAnalyst.FollowersBody)
  : bool :=
  match a with
  | Http.Resolved b => negb (Js.truthy (cursorOf b))
  | Http.Rejected _ => true
  end.

(** A page of followers honours the limit of its request when it brings no
    more followers than the request allowed. *)
Definition withinLimit (x : FollowerAnalyst.Exchange) : Prop :=
  match snd x with
  | Http.Resolved b =>
      List.length (followersOf b) <= FollowerAnalyst.req_limit (fst x)
  | Http.Rejected _ => True
  end.

(** A page of followers is full when, if it comes with a cursor, it brings
    at least as many followers as the request allowed. *)
Definition fullFollowersPage (x : FollowerAnalyst.Exchange) : Prop :=
  match snd x with
  | Http.Resolved b =>
      Js.truthy (cursorOf b) = true ->
      FollowerAnalyst.req_limit (fst x) <= List.length (followersOf b)
  | Http.Rejected _ => True
  end.

(** What the last answer of a run of [fetchAllUserCasts] contributes: the
    cast-add messages of a page, and the error of a failure. *)
Definition lastCasts (a : Http.Axios FetchCastsByFidResponse)
  : list FarcasterMessage :=
  match a with
  | Http.Resolved r => castAddMessages r
  | Http.Rejected _ => []
  end.

Definition lastCastsError (a : Http.Axios FetchCastsByFidResponse)
  : option string :=
  match a with
  | Http.Resolved _ => None
  | Http.Rejected err => Some (errorString err)
  end.

(** The same for the follower pagination. *)
Definition lastFollowers (a : Http.Axios FollowerAnalyst.FollowersBody)
  : list FollowerAnalyst.NeynarFollower :=
  match a with
  | Http.Resolved b => followersOf b
  | Http.Rejected _ => []
  end.

Definition lastFollowersError (a : Http.Axios FollowerAnalyst.FollowersBody)
  : option string :=
  match a with
  | Http.Resolved _ => None
  | Http.Rejected err =>
      Some ("Neynar API error (followers): " +++ Http.errorText err)
  end.

(** The FIDs that qualify among the followers of some pages: those the
    pagination pushes when it reads the page. *)
Definition qualifyingFids (pages : list FollowerAnalyst.FollowersBody)
  : list Z :=
  List.concat (map (fun b => FollowerAnalyst.pushedFids (followersOf b)) pages).

(** The pages a script serves, failures left out. *)
Definition servedPages
  (script : list (Http.Axios FollowerAnalyst.FollowersBody))
  : list FollowerAnalyst.FollowersBody :=
  flat_map (fun a => match a with
                     | Http.Resolved b => [b]
                     | Http.Rejected _ => []
                     end) script.

End Reference.

(** ** Concrete inputs *)

Module Examples.

Import Http.

(** The hour tally [{9: 3, 14: 3, 20: 1}], under the keys the analyst gives
    to the hours. *)
Definition hourTally : CastTiming.Tally :=
  JsObject.fromEntries
    [("09", {| CastTiming.cast_count := 3 |});
     ("14", {| CastTiming.cast_count := 3 |});
     ("20", {| CastTiming.cast_count := 1 |})].

(** A cast-add message sent at the raw timestamp [t]. *)
Definition castAt (t : Z) : CastTiming.FarcasterMessage :=
  {| CastTiming.data :=
       {| CastTiming.type := "MESSAGE_TYPE_CAST_ADD";
          CastTiming.fid := 942471;
          CastTiming.timestamp := t;
          CastTiming.network := "FARCASTER_NETWORK_MAINNET";
          CastTiming.castAddBody :=
            Some {| CastTiming.text := Some "gm" |} |};
     CastTiming.hash := "0x00" |}.

(** A follower of FID [n]. *)
Definition follower (n : Z) : FollowerAnalyst.NeynarFollower :=
  {| FollowerAnalyst.object := "follow";
     FollowerAnalyst.user :=
       {| FollowerAnalyst.fid := n;
          FollowerAnalyst.username := None;
          FollowerAnalyst.display_name := None;
          FollowerAnalyst.follower_count := None;
          FollowerAnalyst.power_badge := None |} |}.

(** The followers of FIDs [first] to [first + count - 1]. *)
Definition followers (first count : nat)
  : list FollowerAnalyst.NeynarFollower :=
  map (fun n => follower (Z.of_nat n)) (seq first count).

(** A page of followers, with its cursor. *)
Definition followersPage (us : list FollowerAnalyst.NeynarFollower)
  (cursor : option string) : Axios FollowerAnalyst.FollowersBody :=
  Resolved
    {| FollowerAnalyst.body_users := Some us;
       FollowerAnalyst.body_next :=
         Some {| FollowerAnalyst.cursor := cursor |} |}.

(** A server that answers the first request, which allows 50 followers,
    with 151 followers and no cursor. *)
Definition overlongPage : list (Axios FollowerAnalyst.FollowersBody) :=
  [followersPage (followers 1 151) None].

(** A page of casts, with its continuation token. *)
Definition castsPage (ms : list CastTiming.FarcasterMessage)
  (token : option string) : Axios CastTiming.FetchCastsByFidResponse :=
  Resolved
    {| CastTiming.messages := Some ms; CastTiming.nextPageToken := token |}.

(** A message that is not a cast-add: the removal of a cast. *)
Definition castRemove : CastTiming.FarcasterMessage :=
  {| CastTiming.data :=
       {| CastTiming.type := "MESSAGE_TYPE_CAST_REMOVE";
          CastTiming.fid := 942471;
          CastTiming.timestamp := 0;
          CastTiming.network := "FARCASTER_NETWORK_MAINNET";
          CastTiming.castAddBody := None |};
     CastTiming.hash := "0x01" |}.

(** A hub that serves six pages of cast removals, each with a continuation
    token, and then an empty last page. *)
Definition filteredPages : list (Axios CastTiming.FetchCastsByFidResponse) :=
  repeat (castsPage [castRemove] (Some "next")) 6 ++ [castsPage [] None].

(** A server that serves one follower per page. *)
Definition thinPages : list (Axios FollowerAnalyst.FollowersBody) :=
  map (fun n => followersPage [follower (Z.of_nat n)] (Some "next")) (seq 1 5)
  ++ [followersPage [] None].

(** A server that serves three pages of 50 entries whose FID is 0, then a
    last page with the follower of FID 7. *)
Definition zeroFidPages : list (Axios FollowerAnalyst.FollowersBody) :=
  repeat (followersPage (repeat (follower 0) 50) (Some "next")) 3
  ++ [followersPage [follower 7] None].

(** A trending cast, a reply to it, and an xAI endpoint that is down. *)
Definition catalyst : Pulse.NeynarCast :=
  {| Pulse.hash := "0xabc";
     Pulse.author :=
       {| Pulse.fid := 3; Pulse.username := Some "dwr";
          Pulse.display_name := None; Pulse.power_badge := Some true |};
     Pulse.text := Some "Frames are live";
     Pulse.timestamp := "2024-01-26T00:00:00.000Z" |}.

Definition reply : Pulse.NeynarCast :=
  {| Pulse.hash := "0xdef";
     Pulse.author :=
       {| Pulse.fid := 5650; Pulse.username := None;
          Pulse.display_name := None; Pulse.power_badge := None |};
     Pulse.text := Some "gm";
     Pulse.timestamp := "2024-01-26T00:01:00.000Z" |}.

Definition xaiDown (p : Pulse.Payload) : Axios Pulse.XaiSearchResponse :=
  Rejected {| response_data_error_message := None;
              response_data_message := None;
              message := "connect ECONNREFUSED" |}.

End Examples.


(** ** Runs of the collectors

    What a well-formed run of each pagination looks like, request by
    request. *)

Module Traces.

Import Http.

(** The token a request carries after a page whose continuation token was
    [prev]: a falsy token is not sent. *)
Definition sent (prev : option string) : option string :=
  if Js.truthy prev then prev else None.

(** The exchanges of [fetchAllUserCasts] follow the tokens: every request
    is for [fid] with the page size [pageSize] and carries the token of the
    page before it, the first none; a page is followed by a request only if
    it brought a truthy token, and a failure by nothing. *)
Fixpoint followsTokens (fid : string) (pageSize : nat) (prev : option string)
  (xs : list CastTiming.Exchange) : Prop :=
  match xs with
  | [] => True
  | (request, answer) :: xs' =>
      request = {| CastTiming.req_fid := fid;
                   CastTiming.req_pageSize := pageSize;
                   CastTiming.req_pageToken := sent prev |}
      /\ match answer with
         | Resolved page =>
             (xs' <> [] -> Js.truthy (CastTiming.nextPageToken page) = true)
             /\ followsTokens fid pageSize (CastTiming.nextPageToken page) xs'
         | Rejected _ => xs' = []
         end
  end.

(** The exchanges of the follower pagination follow the cursors: with
    [count] followers fetched so far, the request asks for the smaller of
    the batch size and the room left under the cap, which is not zero, with
    the cursor of the page before it. *)
Fixpoint followsCursors (maxItems batchSize : nat) (fid : string)
  (count : nat) (prev : option string)
  (xs : list FollowerAnalyst.Exchange) : Prop :=
  match xs with
  | [] => True
  | (request, answer) :: xs' =>
      request = FollowerAnalyst.requestOf fid
                  (Nat.min batchSize (maxItems - count)) prev
      /\ 0 < Nat.min batchSize (maxItems - count)
      /\ match answer with
         | Resolved body =>
             (xs' <> [] -> Js.truthy (Reference.cursorOf body) = true)
             /\ followsCursors maxItems batchSize fid
                  (count + List.length (Reference.followersOf body))
                  (Reference.cursorOf body) xs'
         | Rejected _ => xs' = []
         end
  end.

End Traces.


(** ** Buckets and labels *)

Module Buckets.

Import CastTiming.

(** The count a tally holds for a key, 0 when it has no entry for it. *)
Definition countOf (tally : Tally) (key : string) : nat :=
  match JsObject.get tally key with
  | Some a => cast_count a
  | None => 0
  end.

(** The casts the tallying loop counts under an hour key, and under a day
    key. *)
Definition inHourBucket (key : string) (cast : FarcasterMessage) : bool :=
  Reference.hasCastAddType cast && (hourKeyOf cast =? key)%string.

Definition inDayBucket (key : string) (cast : FarcasterMessage) : bool :=
  Reference.hasCastAddType cast && (dayKeyOf cast =? key)%string.

(** The labels of the formatted tallies. *)
Definition hourLabel (hour : string) : string :=
  hour +++ ":00-" +++ hour +++ ":59 UTC".

Definition dayLabel (dayIndex : string) : string :=
  Js.show (dayName dayIndex) +++ " (UTC)".

(** The keys a day can be tallied under: the seven days, and NaN. *)
Definition possibleDayKeys : list string := Reference.dayKeys ++ ["NaN"].

(** The peaks that name an hour of the day, [00:00 UTC] to [23:00 UTC], and
    those that name a day of the week. *)
Definition hourPeaks : list string :=
  map (fun key => key +++ ":00 UTC") Reference.hourKeys.

Definition dayPeaks : list (option string) := map Some daysOfWeek.

(** [Date] can hold the instant of every message of type cast-add. *)
Definition validDates (casts : list FarcasterMessage) : Prop :=
  forall cast, In cast casts -> Reference.hasCastAddType cast = true ->
               Reference.representable (timestamp (data cast)).

(** The same of every message of type cast-add that a hub serves. *)
Definition validPages (script : list (Http.Axios FetchCastsByFidResponse))
  : Prop :=
  forall page, In (Http.Resolved page) script ->
               validDates (castAddMessages page).

End Buckets.

(** ** The capability of the cast-timing analyst *)

Module CastTimingAgent.

Import CastTiming.

(** The object [run] serializes: the failure of the fetch, with
    [analysis: null]; the answer for a user without casts; or the analysis
    with the FID of the user. *)
Inductive RunResult : Type :=
| FetchFailed (error : string) (target_fid : string)
    (reference_timezone : string)
| NoCasts (summary : string) (target_fid : string)
    (reference_timezone : string)
    (hourly_activity_utc daily_activity_utc : Tally)
    (total_casts_analyzed : nat)
| Analyzed (target_fid : string) (analysisResult : Analysis).

(** [run] of the capability [analyzeOptimalPostingTime], up to
    [JSON.stringify]. *)
Definition run (fid : string)
  (script : list (Http.Axios FetchCastsByFidResponse)) : option RunResult :=
  match fetchAllUserCasts fid script with
  | None => None
  | Some fetched =>
      let casts := CastTiming.casts fetched in
      let fetchCastsError := CastTiming.error fetched in
      Some
        (if Js.truthy fetchCastsError then
           FetchFailed ("Failed to fetch casts: " +++ Js.show fetchCastsError)
             fid "UTC"
         else if List.length casts =? 0 then
           NoCasts ("No casts found for FID " +++ fid +++ " to analyze.")
             fid "UTC" JsObject.empty JsObject.empty 0
         else Analyzed fid (analyzeOptimalPostingTimesUTC casts))
  end.

End CastTimingAgent.


(** ** The capability of the follower analyst *)

Module FollowerAgent.

Import Http FollowerAnalyst.

(** The body of a [user/bulk] response, of which [fetchBulkUsers] reads
    [users]. *)
Record BulkBody : Type := { bulk_users : option (list NeynarUserProfile) }.

Record BulkUsersResponse : Type := {
  users : option (list NeynarUserProfile);
  error : option string
}.

(** A [user/bulk] request is for the FIDs joined in its URL. *)
Definition BulkRequest : Type := list Z.

Definition fidsToFetch (fids : BulkRequest) : string :=
  Js.join "," (map Js.intToString fids).

(** [fetchBulkUsers]: its result, the requests it made and what is left of
    the script.  For no FID it answers at once, without a request. *)
Definition fetchBulkUsers (fids : list Z) (script : list (Axios BulkBody))
  : option (BulkUsersResponse * list BulkRequest * list (Axios BulkBody)) :=
  if List.length fids =? 0 then
    Some ({| users := Some []; error := None |}, [], script)
  else
    match script with
    | [] => None
    | Resolved body :: script' =>
        Some ({| users := bulk_users body; error := None |}, [fids], script')
    | Rejected err :: script' =>
        Some ({| users := None;
                 error := Some ("Neynar API error (bulk users): "
                                +++ errorText err) |},
              [fids], script')
    end.

(** The state of the hydration when its loop ends, with the requests
    made. *)
Record Hydrated : Type := {
  followerProfilesToAnalyze : list NeynarUserProfile;
  bulkFetchError : option string;
  requests : list BulkRequest
}.

(** The loop [for (let i = 0; i < allFollowerFids.length; i += chunkSize)],
    entered at [i]; [fuel] bounds the number of its turns. *)
Fixpoint hydrateLoop (fuel chunkSize : nat) (allFollowerFids : list Z)
  (i : nat) (script : list (Axios BulkBody))
  (followerProfilesToAnalyze : list NeynarUserProfile)
  (bulkFetchError : option string) (requests : list BulkRequest)
  : option Hydrated :=
  if i <? List.length allFollowerFids then
    match fuel with
    | O => None
    | S fuel' =>
        let chunk := firstn chunkSize (skipn i allFollowerFids) in
        if 0 <? List.length chunk then
          match fetchBulkUsers chunk script with
          | None => None
          | Some (bulkUsersData, made, script') =>
              let bulkFetchError :=
                if Js.truthy (error bulkUsersData) then
                  Some (Js.orElse bulkFetchError "" +++ "Chunk " +++
                        Js.natToString (i / chunkSize + 1) +++ " error: " +++
                        Js.show (error bulkUsersData) +++ "; ")
                else bulkFetchError in
              let followerProfilesToAnalyze :=
                match users bulkUsersData with
                | Some us => followerProfilesToAnalyze ++ us
                | None => followerProfilesToAnalyze
                end in
              hydrateLoop fuel' chunkSize allFollowerFids (i + chunkSize)
                script' followerProfilesToAnalyze bulkFetchError
                (requests ++ made)
          end
        else
          hydrateLoop fuel' chunkSize allFollowerFids (i + chunkSize)
            script followerProfilesToAnalyze bulkFetchError requests
    end
  else
    Some {| followerProfilesToAnalyze := followerProfilesToAnalyze;
            bulkFetchError := bulkFetchError;
            requests := requests |}.

(** The hydration of the unique FIDs, in chunks of [chunkSize]. *)
Definition hydrate (chunkSize : nat) (allFollowerFids : list Z)
  (script : list (Axios BulkBody)) : option Hydrated :=
  hydrateLoop (List.length allFollowerFids) chunkSize allFollowerFids 0
    script [] None [].

Definition BULK_USER_FETCH_CHUNK_SIZE : nat := 100.

(** The report of a completed run; [analyzed] holds the profiles handed to
    [analyzeFollowerSegments], whose result is the field [segments], and
    [total_followers_analyzed], which that function sets to their number,
    is the count in the summary. *)
Record Report : Type := {
  target_fid : string;
  analysis_summary : string;
  analyzed : list NeynarUserProfile;
  initial_follower_fetch_error : option string;
  bulk_profile_fetch_error : option string;
  report_error : option string
}.

(** What [run] serializes: an early answer, whose segments are those of no
    follower, or the report. *)
Inductive RunResult : Type :=
| Aborted (target_fid error analysis_summary : string)
| Completed (report : Report).

(** [run] of the capability [getTrueAudienceProfile], up to
    [analyzeFollowerSegments] and [JSON.stringify]; the two scripts hold
    the answers to the [followers] requests and to the [user/bulk]
    requests. *)
Definition run (fid : string) (followers : list (Axios FollowersBody))
  (bulk : list (Axios BulkBody)) : option RunResult :=
  match collectFollowers fid followers with
  | None => None
  | Some collected =>
      let fetchError := FollowerAnalyst.fetchError collected in
      let allFollowerFids := dedupe (FollowerAnalyst.allFollowerFids collected) in
      if List.length allFollowerFids =? 0 then
        Some (Aborted fid
                (if Js.truthy fetchError
                 then "Could not fetch followers: " +++ Js.show fetchError
                 else "No followers found for FID " +++ fid +++ ".")
                "Analysis cannot proceed without follower data.")
      else
        match hydrate BULK_USER_FETCH_CHUNK_SIZE allFollowerFids bulk with
        | None => None
        | Some hydrated =>
            let profiles := followerProfilesToAnalyze hydrated in
            let bulkFetchError := FollowerAgent.bulkFetchError hydrated in
            if (List.length profiles =? 0) && negb (Js.truthy bulkFetchError)
            then
              Some (Aborted fid
                      (if Js.truthy fetchError
                       then "Follower FIDs collected, but failed to hydrate profiles. Initial fetch error: "
                            +++ Js.show fetchError
                       else "Follower FIDs collected, but failed to hydrate any profiles.")
                      "Analysis aborted due to inability to hydrate follower profiles.")
            else
              Some (Completed
                      {| target_fid := fid;
                         analysis_summary :=
                           "Analyzed " +++
                           Js.natToString (List.length profiles) +++
                           " followers (from " +++
                           Js.natToString (List.length allFollowerFids) +++
                           " collected FIDs, up to " +++
                           Js.natToString MAX_FOLLOWERS_TO_PROCESS +++
                           " processed).";
                         analyzed := profiles;
                         initial_follower_fetch_error := fetchError;
                         bulk_profile_fetch_error := bulkFetchError;
                         report_error :=
                           if Js.truthy fetchError || Js.truthy bulkFetchError
                           then Some "There were errors during data fetching. Results might be incomplete."
                           else None |})
        end
  end.

(** What the bulk answers bring, and the errors they report, chunk by
    chunk from chunk number [n]. *)
Definition bulkUsersOf (answer : Axios BulkBody) : list NeynarUserProfile :=
  match answer with
  | Resolved body =>
      match bulk_users body with
      | Some us => us
      | None => []
      end
  | Rejected _ => []
  end.

Fixpoint chunkErrors (n : nat) (answers : list (Axios BulkBody))
  : list string :=
  match answers with
  | [] => []
  | Resolved _ :: rest => chunkErrors (S n) rest
  | Rejected err :: rest =>
      ("Chunk " +++ Js.natToString n +++
       " error: Neynar API error (bulk users): " +++ errorText err +++ "; ")
      :: chunkErrors (S n) rest
  end.

(** The chunks of a list: [chunkSize] items each, the last one what is
    left. *)
Fixpoint chunks (fuel chunkSize : nat) (l : list Z) : list (list Z) :=
  match fuel with
  | O => []
  | S fuel' =>
      match l with
      | [] => []
      | _ => firstn chunkSize l :: chunks fuel' chunkSize (skipn chunkSize l)
      end
  end.

End FollowerAgent.


(** ** The capability of the pulse analyzer *)

Module PulseAgent.

Import Http Pulse.

Definition TRENDING_FEED_LIMIT : nat := 5.
Definition TRENDING_TIME_WINDOW : string := "7d".
Definition CATALYST_CAST_REPLIES_LIMIT : nat := 10.
Definition XAI_X_SEARCH_MAX_TOKENS : nat := 400.
Definition XAI_FINAL_SYNTHESIS_MAX_TOKENS : nat := 500.

(** A cast of a feed: what [Pulse.NeynarCast] holds, with the reactions and
    the channel the capability reads. *)
Record Reactions : Type := {
  likes_count : option Z;
  recasts_count : option Z
}.

Record Channel : Type := { channel_id : string; channel_name : string }.

Record FeedCast : Type := {
  cast : NeynarCast;
  reactions : option Reactions;
  channel : option Channel
}.

(** The body of a feed response, [{ casts: NeynarCast[] }]. *)
Record FeedBody : Type := { casts : option (list FeedCast) }.

(** A GET request to Neynar: the endpoint and the query parameters, in the
    order appended. *)
Record NeynarRequest : Type := {
  endpoint : string;
  params : list (string * string)
}.

Record NeynarResult : Type := {
  data : option FeedBody;
  error : option string
}.

(** [url.pathname] for an endpoint under [/v2/farcaster]. *)
Definition pathname (endpoint : string) : string := "/v2/farcaster" +++ endpoint.

(** [makeNeynarRequest], for parameters that are all defined: its result
    and the request it made. *)
Definition makeNeynarRequest (neynar : NeynarRequest -> Axios FeedBody)
  (endpoint : string) (params : list (string * string))
  : NeynarResult * list NeynarRequest :=
  let request := {| endpoint := endpoint; params := params |} in
  (match neynar request with
   | Resolved body => {| data := Some body; error := None |}
   | Rejected err =>
       {| data := None;
          error := Some ("Neynar API error for " +++ pathname endpoint +++
                         ": " +++ errorText err) |}
   end, [request]).

(** [fetchCastRepliesUsingParentUrl] *)
Definition fetchCastRepliesUsingParentUrl
  (neynar : NeynarRequest -> Axios FeedBody)
  (parentCast : NeynarCast) (viewerFid : string)
  : NeynarResult * list NeynarRequest :=
  if negb (Js.truthy (username (author parentCast)))
     || (hash parentCast =? "")%string then
    ({| data := None;
        error := Some "Parent cast author username or hash is missing, cannot construct parent_url for replies." |},
     [])
  else
    let parentUrl :=
      "https://warpcast.com/" +++ Js.show (username (author parentCast)) +++
      "/" +++ hash parentCast in
    makeNeynarRequest neynar "/feed"
      [("feed_type", "filter");
       ("filter_type", "parent_url");
       ("parent_url", parentUrl);
       ("with_recasts", "false");
       ("with_replies", "true");
       ("limit", Js.natToString CATALYST_CAST_REPLIES_LIMIT);
       ("viewer_fid", viewerFid)].

(** [getRecentXEventsContext] *)
Definition getRecentXEventsContext (xai : Payload -> Axios XaiSearchResponse)
  (topic : string) : string * list Payload :=
  let prompt :=
    "What specific events, news, product launches, or significant discussions happened on X (Twitter) in the *last 24 hours* that directly relate to the topic: " +++
    Js.dquote +++ topic +++ Js.dquote +++ "?" +++ Js.lf +++ spaces 4 +++
    "Focus on concrete happenings that could explain why this topic is currently relevant or being discussed. Provide 1-2 brief summaries." +++
    Js.lf +++ spaces 4 +++
    "If nothing highly specific in the last 24h, state that no major X events were found for this topic in that timeframe." in
  let (result, posted) :=
    makeXaiRequest xai prompt (Some xSearch) XAI_X_SEARCH_MAX_TOKENS
      (QArith_base.Qmake 5 10) in
  (Js.orElse (result_content result)
     ("Error fetching recent X events context: " +++
      Js.show (result_error result)),
   posted).

(** [s.replace(/\n/g, " ")] *)
Fixpoint replaceNewlines (s : string) : string :=
  match s with
  | EmptyString => EmptyString
  | String c s' =>
      String (if (nat_of_ascii c =? 10)%nat then " "%char else c)
             (replaceNewlines s')
  end.

(** Template substitution of a possibly undefined number. *)
Definition showNumber (n : option Z) : string :=
  Js.show (option_map Js.intToString n).

(** [user.username || `FID ${user.fid}`] *)
Definition displayName (u : NeynarUser) : string :=
  Js.orElse (username u) ("FID " +++ Js.intToString (fid u)).

Record Overview : Type := {
  overview_hash : string;
  overview_author : string;
  text_snippet : string
}.

Record CatalystDetails : Type := {
  details_hash : string;
  author_fid : Z;
  author_username : string;
  details_text : option string;
  details_channel : string;
  likes : option Z;
  recasts : option Z;
  details_timestamp : string
}.

Record ReplySample : Type := {
  sample_author : string;
  sample_text : option string
}.

(** [channel || 'general'] *)
Definition orGeneral (channel : string) : string :=
  Js.orElse (Some channel) "general".

Definition synthesisPrompt (details : CatalystDetails)
  (discussionSummary mainTopicForSearch xEventsContext : string) : string :=
  Js.lf +++ spaces 8 +++
      "Analyze the current top conversation on Farcaster, providing context from recent X (Twitter) events." +++
      Js.lf +++ spaces 8 +++ Js.lf +++ spaces 8 +++
      "Catalyst Farcaster Cast by @" +++ author_username details +++ ": " +++
      Js.lf +++ spaces 8 +++ Js.dquote +++
      Js.show (option_map (fun t => replaceNewlines (Js.prefix 250 t)) (details_text details)) +++
      "..." +++ Js.dquote +++ " " +++ Js.lf +++ spaces 8 +++
      "(Likes: " +++ showNumber (likes details) +++ ", Recasts: " +++
      showNumber (recasts details) +++ ")" +++ Js.lf +++ spaces 8 +++
      "Channel: /" +++ orGeneral (details_channel details) +++ "." +++
      Js.lf +++ spaces 8 +++ Js.lf +++ spaces 8 +++
      "Summary of Discussion (this may be from direct Farcaster replies or related X chatter if no direct replies were found):" +++
      Js.lf +++ spaces 8 +++ discussionSummary +++ Js.lf +++ Js.lf +++
      spaces 8 +++
      "Context from X (Twitter) - Specific Events/News in the LAST 24 HOURS related to " +++
      Js.dquote +++ mainTopicForSearch +++ Js.dquote +++ ":" +++ Js.lf +++
      spaces 8 +++ xEventsContext +++ Js.lf +++ Js.lf +++
      spaces 8 +++
      "Based on ALL the above, provide a concise answer to: " +++
      Js.dquote +++
      "What's the big conversation on Farcaster today (focusing on the catalyst cast), and what very recent X events (last 24h) might be fueling or contextualizing it?" +++
      Js.dquote +++ Js.lf +++ spaces 8 +++ "Structure your answer:" +++
      Js.lf +++ spaces 8 +++
      "1. The Conversation on Farcaster: Briefly state the main topic of the catalyst cast and who initiated it." +++
      Js.lf +++ spaces 8 +++
      "2. Current Buzz/Sentiment (from FC replies or X context): Summarize the nature of the discussion around the catalyst." +++
      Js.lf +++ spaces 8 +++ "3. The " +++ Js.dquote +++ "Why Now" +++
      Js.dquote +++
      " (from recent X Events): Explain the likely reasons this topic is relevant *today/this week* based *specifically* on the identified recent X events or lack thereof. If X events provide strong context, highlight it. If not, acknowledge that the Farcaster conversation might be self-contained or driven by other factors not immediately apparent on X." +++
      Js.lf +++ spaces 8 +++
      "4. Actionable Insight/Takeaway: Suggest how one might engage with or build upon this conversation on Farcaster, perhaps by referencing the X context if relevant." +++
      Js.lf +++ spaces 8 +++ Js.lf +++ spaces 8 +++
      "Be analytical and insightful. If the discussion summary indicates it's based on X chatter due to lack of Farcaster replies, frame it accordingly." +++
      Js.lf +++ spaces 8.

(** The report of a run that found a conversation; all six flags of its
    [steps] are set. *)
Record Report : Type := {
  requesting_fid : string;
  analysis_timestamp : string;
  errors : list string;
  trending_casts_overview_sample : list Overview;
  catalyst_cast_details : CatalystDetails;
  replies_sample : list ReplySample;
  discussion_summary : string;
  derived_main_topic_for_search : string;
  recent_x_events_context : string;
  final_summary : string
}.

(** What [run] serializes: the early answer, whose [steps] and
    [focused_catalyst_analysis] are empty, or the report. *)
Inductive RunResult : Type :=
| NoConversation (requesting_fid analysis_timestamp : string)
    (errors : list string) (final_summary : string)
| Analysed (report : Report).

(** What a run did: its result, the requests sent to Neynar and the
    payloads posted to xAI, in order. *)
Record Run : Type := {
  result : RunResult;
  neynarRequests : list NeynarRequest;
  xaiPayloads : list Payload
}.

(** [run] of the capability [analyzeFarcasterPulseWithXContext], up to
    [JSON.stringify]; [now] is [new Date().toISOString()], and [neynar n]
    and [xai n] answer the request of rank [n] to each service. *)
Definition run (now : string)
  (neynar : nat -> NeynarRequest -> Axios FeedBody)
  (xai : nat -> Payload -> Axios XaiSearchResponse)
  (viewerFid : string) : Run :=
  let (trendingFeedResult, sent1) :=
    makeNeynarRequest (neynar 0) "/feed/trending"
      [("limit", Js.natToString TRENDING_FEED_LIMIT);
       ("time_window", TRENDING_TIME_WINDOW);
       ("provider", "neynar");
       ("viewer_fid", viewerFid)] in
  let trending :=
    match data trendingFeedResult with
    | Some body =>
        match casts body with
        | Some cs => cs
        | None => []
        end
    | None => []
    end in
  match (if Js.truthy (error trendingFeedResult) then [] else trending) with
  | [] =>
      {| result :=
           NoConversation viewerFid now
             ["TrendingFeed: " +++
              Js.orElse (error trendingFeedResult) "No trending casts found."]
             "Could not identify a strong trending Farcaster conversation at this moment.";
         neynarRequests := sent1;
         xaiPayloads := [] |}
  | catalyst :: _ =>
      let catalystCast := cast catalyst in
      let details :=
        {| details_hash := hash catalystCast;
           author_fid := fid (author catalystCast);
           author_username := displayName (author catalystCast);
           details_text := text catalystCast;
           details_channel :=
             Js.orElse (option_map channel_name (channel catalyst)) "N/A";
           likes :=
             match reactions catalyst with
             | Some r => likes_count r
             | None => None
             end;
           recasts :=
             match reactions catalyst with
             | Some r => recasts_count r
             | None => None
             end;
           details_timestamp := timestamp catalystCast |} in
      let (repliesData, sent2) :=
        fetchCastRepliesUsingParentUrl (neynar 1) catalystCast viewerFid in
      let replies :=
        match data repliesData with
        | Some body =>
            match casts body with
            | Some cs => map cast cs
            | None => []
            end
        | None => []
        end in
      let (discussionSummary, posted1) :=
        summarizeFarcasterDiscussionOrXReactions (xai 0) catalystCast replies in
      let mainTopicForSearch :=
        Js.orElse
          (option_map (fun t => replaceNewlines (Js.prefix 70 t))
             (text catalystCast))
          "current Farcaster topics" in
      let (xEventsContext, posted2) :=
        getRecentXEventsContext (xai 1) mainTopicForSearch in
      let (finalSummaryResult, posted3) :=
        makeXaiRequest (xai 2)
          (synthesisPrompt details discussionSummary mainTopicForSearch
             xEventsContext)
          None XAI_FINAL_SYNTHESIS_MAX_TOKENS (QArith_base.Qmake 6 10) in
      {| result :=
           Analysed
             {| requesting_fid := viewerFid;
                analysis_timestamp := now;
                errors :=
                  if Js.truthy (error repliesData)
                  then ["CatalystReplies: " +++ Js.show (error repliesData)]
                  else [];
                trending_casts_overview_sample :=
                  map (fun c =>
                         {| overview_hash := hash (cast c);
                            overview_author := displayName (author (cast c));
                            text_snippet :=
                              Js.show (option_map (Js.prefix 70)
                                         (text (cast c))) +++ "..." |})
                      (firstn 3 trending);
                catalyst_cast_details := details;
                replies_sample :=
                  if Js.truthy (error repliesData) then []
                  else
                    firstn 5
                      (map (fun r =>
                              {| sample_author := displayName (author r);
                                 sample_text := text r |})
                           replies);
                discussion_summary := discussionSummary;
                derived_main_topic_for_search := mainTopicForSearch;
                recent_x_events_context := xEventsContext;
                final_summary :=
                  Js.orElse (result_content finalSummaryResult)
                    ("Error in final synthesis: " +++
                     Js.show (result_error finalSummaryResult)) |};
         neynarRequests := sent1 ++ sent2;
         xaiPayloads := posted1 ++ posted2 ++ posted3 |}
  end.

End PulseAgent.


(** ** Runs of the pulse analyzer *)

Module PulseTrace.

Import Http Pulse PulseAgent.

(** The request [run] makes for the trending feed. *)
Definition trendingRequest (viewerFid : string) : NeynarRequest :=
  {| endpoint := "/feed/trending";
     params := [("limit", "5"); ("time_window", "7d"); ("provider", "neynar");
                ("viewer_fid", viewerFid)] |}.

(** The casts an answer to it brings: none when the request failed or the
    body has no [casts]. *)
Definition trendingCasts (answer : Axios FeedBody) : list FeedCast :=
  match answer with
  | Resolved body =>
      match casts body with
      | Some cs => cs
      | None => []
      end
  | Rejected _ => []
  end.

(** Why an answer brought no cast. *)
Definition trendingFailure (answer : Axios FeedBody) : string :=
  match answer with
  | Rejected err =>
      "Neynar API error for /v2/farcaster/feed/trending: " +++ errorText err
  | Resolved _ => "No trending casts found."
  end.

(** The [errors] of the object a run serializes. *)
Definition errorsOf (r : RunResult) : list string :=
  match r with
  | NoConversation _ _ errors _ => errors
  | Analysed report => errors report
  end.

(** A Neynar whose trending feed holds one cast and whose other requests
    fail, and an xAI that answers every prompt. *)
Definition repliesDown (n : nat) (request : NeynarRequest) : Axios FeedBody :=
  match n with
  | O =>
      Resolved
        {| casts := Some [{| cast := Examples.catalyst;
                             reactions := None; channel := None |}] |}
  | S _ =>
      Rejected {| response_data_error_message := None;
                  response_data_message := Some "Too Many Requests";
                  message := "Request failed with status code 429" |}
  end.

Definition neynarDown (n : nat) (request : NeynarRequest) : Axios FeedBody :=
  Rejected {| response_data_error_message := None;
              response_data_message := None;
              message := "timeout of 1000ms exceeded" |}.

Definition xaiUp (n : nat) (p : Payload) : Axios XaiSearchResponse :=
  Resolved {| choices := Some [{| message_content := " A summary. " |}];
              citations := None |}.

(** An xAI whose third answer, to the synthesis, is a failure. *)
Definition synthesisDown (n : nat) (p : Payload) : Axios XaiSearchResponse :=
  match n with
  | 2 =>
      Rejected {| response_data_error_message :=
                    Some "context length exceeded";
                  response_data_message := None;
                  message := "Request failed with status code 400" |}
  | _ => xaiUp n p
  end.

End PulseTrace.


(** * Properties *)

(** ** De-duplication *)

Section Dedupe.

Import JsSet.

Lemma has_In (s : t) (x : Z) : has s x = true <-> In x s.
Proof.
  unfold has. rewrite existsb_exists. split.
  - intros [y [Hy Heq]]. apply Z.eqb_eq in Heq. now subst.
  - intro H. exists x. split; [assumption | apply Z.eqb_refl].
Qed.

Lemma has_not_In (s : t) (x : Z) : has s x = false <-> ~ In x s.
Proof.
  rewrite <- has_In. destruct (has s x); split; congruence.
Qed.

Lemma add_In (s : t) (x y : Z) : In y (add s x) <-> In y s \/ y = x.
Proof.
  unfold add. destruct (has s x) eqn:E.
  - apply has_In in E. split; [tauto | intros [H | ->]; assumption].
  - rewrite in_app_iff. simpl. intuition.
Qed.

Lemma add_NoDup (s : t) (x : Z) : NoDup s -> NoDup (add s x).
Proof.
  intro H. unfold add. destruct (has s x) eqn:E; [assumption |].
  apply has_not_In in E.
  apply NoDup_app; [assumption | repeat constructor; intros [] | ].
  intros y Hy [<- | []]. contradiction.
Qed.

Lemma fold_add_In (l : list Z) (s : t) (y : Z) :
  In y (fold_left add l s) <-> In y s \/ In y l.
Proof.
  revert s. induction l as [| x l IH]; intro s; simpl.
  - tauto.
  - rewrite IH, add_In. intuition.
Qed.

Lemma fold_add_NoDup (l : list Z) (s : t) :
  NoDup s -> NoDup (fold_left add l s).
Proof.
  revert s. induction l as [| x l IH]; intros s H; simpl.
  - assumption.
  - apply IH, add_NoDup, H.
Qed.

(** Adding values that are all new, and different from each other, appends
    them. *)
Lemma fold_add_fresh (l : list Z) (s : t) :
  NoDup (s ++ l) -> fold_left add l s = s ++ l.
Proof.
  revert s. induction l as [| x l IH]; intros s H; simpl.
  - now rewrite app_nil_r.
  - assert (Hx : has s x = false).
    { apply has_not_In. intro Hin.
      apply NoDup_remove_2 in H. apply H. apply in_app_iff. now left. }
    unfold add at 2. rewrite Hx.
    replace (s ++ x :: l) with ((s ++ [x]) ++ l) in *
      by (rewrite <- app_assoc; reflexivity).
    apply IH, H.
Qed.

End Dedupe.

(** C8.  De-duplication is idempotent: de-duplicating the FIDs a second time
    changes nothing.  It removes exact duplicates only: the result has no
    value twice, and a FID is in the result if and only if it is in the
    input. *)
Theorem dedupe_idempotent (x : list Z) :
  FollowerAnalyst.dedupe (FollowerAnalyst.dedupe x) = FollowerAnalyst.dedupe x
  /\ NoDup (FollowerAnalyst.dedupe x)
  /\ forall i, In i (FollowerAnalyst.dedupe x) <-> In i x.
Proof.
  unfold FollowerAnalyst.dedupe, JsSet.toArray, JsSet.ofArray.
  assert (Hnd : NoDup (fold_left JsSet.add x [])).
  { apply fold_add_NoDup. constructor. }
  repeat split.
  - apply (fold_add_fresh (fold_left JsSet.add x []) []). exact Hnd.
  - exact Hnd.
  - intro H. apply fold_add_In in H. destruct H as [[] | H]. exact H.
  - intro H. apply fold_add_In. now right.
Qed.

(** ** The peak search *)

Section Peaks.

Import CastTiming Reference.

Variable L : Type.
Variable label : string -> L.

Lemma labelsAt_nil_below (m : nat) (tally : Tally) :
  maxCount tally < m -> labelsAt label m tally = [].
Proof.
  unfold labelsAt, maxCount.
  induction tally as [| e tally IH]; simpl; intro H; [reflexivity |].
  destruct (Nat.eqb_spec (cast_count (snd e)) m) as [E | E]; [lia |].
  apply IH. lia.
Qed.

(** The search from any state: the running maximum ends as the greatest
    count seen, and the peaks found so far survive only if their count is
    still the greatest. *)
Lemma peaks_from (tally : Tally) (peaks : list L) (m : nat) :
  fold_left (peakStep label) tally (peaks, m) =
  ((if Nat.max m (maxCount tally) =? m then peaks else []) ++
   labelsAt label (Nat.max m (maxCount tally)) tally,
   Nat.max m (maxCount tally)).
Proof.
  revert peaks m.
  induction tally as [| [k [c]] tally IH]; intros peaks m.
  - simpl. rewrite Nat.max_0_r, Nat.eqb_refl, app_nil_r. reflexivity.
  - cbn [fold_left]. unfold peakStep at 2. cbn [fst snd cast_count].
    change (maxCount ((k, {| cast_count := c |}) :: tally))
      with (Nat.max c (maxCount tally)).
    unfold labelsAt. cbn [filter map fst snd cast_count].
    fold (labelsAt label (Nat.max m (Nat.max c (maxCount tally))) tally).
    destruct (Nat.ltb_spec m c) as [Hlt | Hge].
    + rewrite IH.
      replace (Nat.max m (Nat.max c (maxCount tally)))
        with (Nat.max c (maxCount tally)) by lia.
      destruct (Nat.eqb_spec (Nat.max c (maxCount tally)) m) as [E | E];
        [lia |].
      destruct (Nat.eqb_spec (Nat.max c (maxCount tally)) c) as [E1 | E1];
        destruct (Nat.eqb_spec c (Nat.max c (maxCount tally))) as [E2 | E2];
        try lia; reflexivity.
    + destruct (Nat.eqb_spec c m) as [Heq | Hne].
      * subst c. rewrite IH.
        replace (Nat.max m (Nat.max m (maxCount tally)))
          with (Nat.max m (maxCount tally)) by lia.
        destruct (Nat.eqb_spec (Nat.max m (maxCount tally)) m) as [E | E];
          destruct (Nat.eqb_spec m (Nat.max m (maxCount tally))) as [E2 | E2];
          try lia; cbn [map]; [| reflexivity].
        rewrite <- app_assoc. reflexivity.
      * rewrite IH.
        replace (Nat.max m (Nat.max c (maxCount tally)))
          with (Nat.max m (maxCount tally)) by lia.
        destruct (Nat.eqb_spec c (Nat.max m (maxCount tally))) as [E2 | E2];
          [lia | reflexivity].
Qed.

Lemma findPeaks_spec (tally : Tally) :
  findPeaks label tally =
  (labelsAt label (maxCount tally) tally, maxCount tally).
Proof.
  unfold findPeaks, JsObject.entries. rewrite peaks_from.
  rewrite Nat.max_0_l. destruct (maxCount tally =? 0); reflexivity.
Qed.

Lemma findPeaks_snoc (tally : Tally) (e : string * Activity) :
  findPeaks label (tally ++ [e]) = peakStep label (findPeaks label tally) e.
Proof.
  unfold findPeaks, JsObject.entries. rewrite fold_left_app. reflexivity.
Qed.

End Peaks.

(** C4.  For every tally the peak search returns the keys whose count is the
    greatest count, in the order in which the tally enumerates them, and that
    greatest count as the peak value.  It goes through the tally once: after
    one more entry, a strictly greater count makes that entry the only peak,
    an equal count appends it to the peaks, a smaller one changes nothing.
    On the hour tally [{9: 3, 14: 3, 20: 1}] the peaks are the keys of 9 and
    14 and the peak value is 3. *)
Theorem findPeaks_all_maxima :
  (forall (L : Type) (label : string -> L) (tally : CastTiming.Tally),
      CastTiming.findPeaks label tally =
      (Reference.labelsAt label (Reference.maxCount tally) tally,
       Reference.maxCount tally))
  /\ (forall (L : Type) (label : string -> L) (tally : CastTiming.Tally)
             (key : string) (count : nat),
         CastTiming.findPeaks label
           (tally ++ [(key, {| CastTiming.cast_count := count |})]) =
         let (peaks, peak) := CastTiming.findPeaks label tally in
         match Nat.compare count peak with
         | Gt => ([label key], count)
         | Eq => (peaks ++ [label key], peak)
         | Lt => (peaks, peak)
         end)
  /\ CastTiming.findPeaks (fun h => h)
       [("09", {| CastTiming.cast_count := 3 |});
        ("14", {| CastTiming.cast_count := 3 |});
        ("20", {| CastTiming.cast_count := 1 |})] = (["09"; "14"], 3)
  /\ CastTiming.findPeaks (fun h => h) Examples.hourTally = (["14"; "09"], 3)
  /\ (forall k,
         In k (fst (CastTiming.findPeaks (fun h => h) Examples.hourTally))
         <-> k = "09" \/ k = "14").
Proof.
  split; [| split; [| split; [| split]]].
  - intros. apply findPeaks_spec.
  - intros. rewrite findPeaks_snoc.
    destruct (CastTiming.findPeaks label tally) as [peaks peak].
    unfold CastTiming.peakStep. cbn [fst snd CastTiming.cast_count].
    destruct (Nat.compare_spec count peak) as [E | E | E].
    + subst. rewrite Nat.ltb_irrefl, Nat.eqb_refl. reflexivity.
    + destruct (Nat.ltb_spec peak count); [lia |].
      destruct (Nat.eqb_spec count peak); [lia | reflexivity].
    + destruct (Nat.ltb_spec peak count); [reflexivity | lia].
  - reflexivity.
  - reflexivity.
  - intro k. change (fst (CastTiming.findPeaks (fun h => h) Examples.hourTally))
      with ["14"; "09"]. simpl. intuition.
Qed.


(** ** Objects as dictionaries *)

Section ObjectFacts.

Import JsObject.

Variable V : Type.

Lemma set_empty (k : string) (v : V) : set empty k v = [(k, v)].
Proof.
  unfold set, empty. simpl. destruct (arrayIndex k); reflexivity.
Qed.

Lemma get_None_keys (o : t V) (k : string) :
  get o k = None <-> ~ In k (keys o).
Proof.
  induction o as [| [k' v'] o IH]; simpl.
  - tauto.
  - destruct (String.eqb_spec k k') as [E | E].
    + split; [discriminate | intro H; exfalso; apply H; now left].
    + rewrite IH. intuition congruence.
Qed.

Lemma keys_update (o : t V) (k : string) (v : V) :
  keys (update o k v) = keys o.
Proof.
  induction o as [| [k' v'] o IH]; simpl; [reflexivity |].
  destruct (k =? k')%string; simpl; [reflexivity | now rewrite IH].
Qed.

Lemma keys_insertIndex (o : t V) (i : N) (k : string) (v : V) :
  exists before after,
    keys o = before ++ after /\
    keys (insertIndex o i k v) = before ++ k :: after.
Proof.
  induction o as [| [k' v'] o IH]; simpl.
  - exists [], []. split; reflexivity.
  - destruct (arrayIndex k') as [j |].
    + destruct (j <? i)%N.
      * destruct IH as [b [a [H1 H2]]]. exists (k' :: b), a.
        simpl. rewrite H1, H2. split; reflexivity.
      * exists [], (k' :: keys o). split; reflexivity.
    + exists [], (k' :: keys o). split; reflexivity.
Qed.

(** Assignment to a new key adds that key and nothing else; assignment to
    an old one leaves the keys as they are. *)
Lemma keys_set (o : t V) (k : string) (v : V) :
  (get o k <> None /\ keys (set o k v) = keys o) \/
  (get o k = None /\ exists before after,
      keys o = before ++ after /\ keys (set o k v) = before ++ k :: after).
Proof.
  unfold set. destruct (get o k) eqn:G.
  - left. split; [discriminate | apply keys_update].
  - right. split; [reflexivity |]. destruct (arrayIndex k).
    + apply keys_insertIndex.
    + exists (keys o), []. unfold keys. rewrite map_app, app_nil_r.
      split; reflexivity.
Qed.

Lemma keys_set_In (o : t V) (k x : string) (v : V) :
  In x (keys (set o k v)) -> x = k \/ In x (keys o).
Proof.
  destruct (keys_set o k v) as [[_ E] | [_ [b [a [E1 E2]]]]].
  - rewrite E. tauto.
  - rewrite E1, E2, !in_app_iff. simpl. intuition.
Qed.

Lemma keys_set_NoDup (o : t V) (k : string) (v : V) :
  NoDup (keys o) -> NoDup (keys (set o k v)).
Proof.
  intro H. destruct (keys_set o k v) as [[_ E] | [G [b [a [E1 E2]]]]].
  - now rewrite E.
  - rewrite E2. apply (NoDup_Add (Add_app k b a)). rewrite <- E1.
    split; [assumption | now apply get_None_keys].
Qed.

End ObjectFacts.

(** ** The tallies *)

Section Tallies.

Import CastTiming Reference.

Lemma total_update (o : Tally) (k : string) (a v : Activity) :
  JsObject.get o k = Some a ->
  total (JsObject.update o k v) + cast_count a = total o + cast_count v.
Proof.
  unfold total.
  induction o as [| [k' v'] o IH]; simpl; [discriminate |].
  destruct (k =? k')%string; simpl.
  - intro H. injection H as ->. lia.
  - intro H. specialize (IH H). lia.
Qed.

Lemma total_insertIndex (o : Tally) (i : N) (k : string) (v : Activity) :
  total (JsObject.insertIndex o i k v) = total o + cast_count v.
Proof.
  unfold total.
  induction o as [| [k' v'] o IH]; simpl; [lia |].
  destruct (JsObject.arrayIndex k') as [j |]; [| simpl; lia].
  destruct (j <? i)%N; simpl; lia.
Qed.

Lemma total_bump (tally : Tally) (k : string) :
  total (bump tally k) = total tally + 1.
Proof.
  unfold bump, JsObject.set. destruct (JsObject.get tally k) as [a |] eqn:G.
  - pose proof (total_update tally k {| cast_count := cast_count a + 1 |} G)
      as H. simpl in H. lia.
  - destruct (JsObject.arrayIndex k).
    + rewrite total_insertIndex. reflexivity.
    + unfold total. rewrite map_app, list_sum_app. simpl. lia.
Qed.

Lemma hourKey_In (h : Z) : (0 <= h <= 23)%Z -> In (hourKey h) hourKeys.
Proof.
  intro H. unfold hourKeys.
  replace h with (Z.of_nat (Z.to_nat h)) by lia.
  apply (in_map (fun h => hourKey (Z.of_nat h))). apply in_seq. lia.
Qed.

Lemma dayKey_In (d : Z) : (0 <= d <= 6)%Z -> In (dayKey d) dayKeys.
Proof.
  intro H. unfold dayKeys.
  replace d with (Z.of_nat (Z.to_nat d)) by lia.
  apply (in_map (fun d => dayKey (Z.of_nat d))). apply in_seq. lia.
Qed.

Lemma farcasterEpochToDate_representable (t : Z) :
  representable t -> farcasterEpochToDate t = Some (instant t).
Proof.
  unfold representable, farcasterEpochToDate, JsDate.ofNumber, JsDate.TimeClip.
  fold (instant t). intro H.
  destruct (Z.leb_spec (Z.abs (instant t)) JsDate.maxTime); [reflexivity | lia].
Qed.

Lemma HourFromTime_range (tv : Z) : (0 <= JsDate.HourFromTime tv <= 23)%Z.
Proof.
  unfold JsDate.HourFromTime.
  pose proof (Z.mod_pos_bound (tv / JsDate.msPerHour) 24). lia.
Qed.

Lemma WeekDay_range (tv : Z) : (0 <= JsDate.WeekDay tv <= 6)%Z.
Proof.
  unfold JsDate.WeekDay.
  pose proof (Z.mod_pos_bound (JsDate.Day tv + 4) 7). lia.
Qed.

(** The hour of [HourFromTime] is the number of whole hours into the day. *)
Lemma HourFromTime_within_day (tv : Z) :
  exists r, (tv = JsDate.msPerDay * JsDate.Day tv
                  + JsDate.msPerHour * JsDate.HourFromTime tv + r
             /\ 0 <= r < JsDate.msPerHour)%Z.
Proof.
  exists (tv mod JsDate.msPerHour)%Z.
  unfold JsDate.Day, JsDate.HourFromTime, JsDate.msPerDay, JsDate.msPerHour.
  split.
  - replace 86400000%Z with (3600000 * 24)%Z by reflexivity.
    rewrite <- Z.div_div by lia.
    pose proof (Z.div_mod (tv / 3600000) 24).
    pose proof (Z.div_mod tv 3600000). lia.
  - apply Z.mod_pos_bound. lia.
Qed.

Lemma hourKeyOf_representable (cast : FarcasterMessage) :
  representable (timestamp (data cast)) ->
  hourKeyOf cast =
  hourKey (JsDate.HourFromTime (instant (timestamp (data cast)))).
Proof.
  intro H. unfold hourKeyOf.
  rewrite (farcasterEpochToDate_representable H). reflexivity.
Qed.

Lemma dayKeyOf_representable (cast : FarcasterMessage) :
  representable (timestamp (data cast)) ->
  dayKeyOf cast = dayKey (JsDate.WeekDay (instant (timestamp (data cast)))).
Proof.
  intro H. unfold dayKeyOf.
  rewrite (farcasterEpochToDate_representable H). reflexivity.
Qed.

End Tallies.

Section Bucketize.

Import CastTiming Reference.

Lemma tallyCast_total (acc : Tally * Tally) (cast : FarcasterMessage) :
  total (fst (tallyCast acc cast)) =
    total (fst acc) + (if hasCastAddType cast then 1 else 0)
  /\ total (snd (tallyCast acc cast)) =
    total (snd acc) + (if hasCastAddType cast then 1 else 0).
Proof.
  unfold tallyCast, hasCastAddType.
  destruct (type (data cast) =? "MESSAGE_TYPE_CAST_ADD")%string; simpl.
  - rewrite !total_bump. split; reflexivity.
  - split; lia.
Qed.

Lemma fold_tallyCast_total (casts : list FarcasterMessage)
  (acc : Tally * Tally) :
  total (fst (fold_left tallyCast casts acc)) =
    total (fst acc) + List.length (filter hasCastAddType casts)
  /\ total (snd (fold_left tallyCast casts acc)) =
    total (snd acc) + List.length (filter hasCastAddType casts).
Proof.
  revert acc. induction casts as [| cast casts IH]; intro acc; simpl.
  - split; lia.
  - destruct (IH (tallyCast acc cast)) as [H1 H2].
    destruct (tallyCast_total acc cast) as [T1 T2].
    rewrite H1, H2, T1, T2.
    destruct (hasCastAddType cast); simpl; split; lia.
Qed.

Lemma fold_tallyCast_NoDup (casts : list FarcasterMessage)
  (acc : Tally * Tally) :
  NoDup (JsObject.keys (fst acc)) -> NoDup (JsObject.keys (snd acc)) ->
  NoDup (JsObject.keys (fst (fold_left tallyCast casts acc)))
  /\ NoDup (JsObject.keys (snd (fold_left tallyCast casts acc))).
Proof.
  revert acc. induction casts as [| cast casts IH]; intros acc H1 H2; simpl.
  - split; assumption.
  - apply IH; unfold tallyCast;
      destruct (type (data cast) =? "MESSAGE_TYPE_CAST_ADD")%string; simpl;
      try assumption; unfold bump; now apply keys_set_NoDup.
Qed.

Lemma fold_tallyCast_keys (casts : list FarcasterMessage)
  (acc : Tally * Tally) :
  (forall cast, In cast casts -> hasCastAddType cast = true ->
                representable (timestamp (data cast))) ->
  Forall (fun k => In k hourKeys) (JsObject.keys (fst acc)) ->
  Forall (fun k => In k dayKeys) (JsObject.keys (snd acc)) ->
  Forall (fun k => In k hourKeys)
         (JsObject.keys (fst (fold_left tallyCast casts acc)))
  /\ Forall (fun k => In k dayKeys)
            (JsObject.keys (snd (fold_left tallyCast casts acc))).
Proof.
  revert acc. induction casts as [| cast casts IH]; intros acc Hv H1 H2; simpl.
  - split; assumption.
  - assert (Hv' : forall c, In c casts -> hasCastAddType c = true ->
                            representable (timestamp (data c)))
      by (intros c Hc; apply Hv; now right).
    specialize (Hv cast (or_introl eq_refl)).
    unfold tallyCast. unfold hasCastAddType in Hv.
    destruct (type (data cast) =? "MESSAGE_TYPE_CAST_ADD")%string.
    + specialize (Hv eq_refl). apply IH; [exact Hv' | |]; simpl;
        apply Forall_forall; intros k Hk; unfold bump in Hk;
        apply keys_set_In in Hk; destruct Hk as [-> | Hk].
      * rewrite (hourKeyOf_representable _ Hv).
        apply hourKey_In, HourFromTime_range.
      * revert k Hk. now apply Forall_forall.
      * rewrite (dayKeyOf_representable _ Hv).
        apply dayKey_In, WeekDay_range.
      * revert k Hk. now apply Forall_forall.
    + now apply IH.
Qed.

End Bucketize.

(** X26.  The raw timestamp 0 converts to the instant 1609459200000 ms, the
    first millisecond of the year 2021 in UTC; its UTC hour is 0 and its UTC
    day of the week is 5, Friday, and a cast sent then is tallied under the
    hour key 00 and the day key 5.  A single cast-add message is tallied
    once under the key of [getUTCHours] of its date and once under the key
    of its [getUTCDay].  When [Date] can hold the instant of the raw
    timestamp [t], the date is that of [FARCASTER_EPOCH_MS + t * 1000]
    milliseconds, its hour is the number between 0 and 23 of whole hours
    into the UTC day of the instant, and its day of the week is between 0
    and 6 with Thursday 1 January 1970 as 4, so Sunday as 0. *)
Theorem farcaster_epoch_buckets :
  (CastTiming.farcasterEpochToDate 0 = Some 1609459200000%Z
   /\ JsDate.TimeFromYear 2021 = 1609459200000%Z
   /\ JsDate.TimeWithinDay 1609459200000 = 0%Z
   /\ JsDate.getUTCHours (CastTiming.farcasterEpochToDate 0) = Some 0%Z
   /\ JsDate.getUTCDay (CastTiming.farcasterEpochToDate 0) = Some 5%Z
   /\ nth_error CastTiming.daysOfWeek 5 = Some "Friday"
   /\ nth_error CastTiming.daysOfWeek 0 = Some "Sunday"
   /\ CastTiming.bucketize [Examples.castAt 0] =
        ([("00", {| CastTiming.cast_count := 1 |})],
         [("5", {| CastTiming.cast_count := 1 |})]))
  /\ (forall cast : CastTiming.FarcasterMessage,
         CastTiming.type (CastTiming.data cast) = "MESSAGE_TYPE_CAST_ADD" ->
         let date :=
           CastTiming.farcasterEpochToDate
             (CastTiming.timestamp (CastTiming.data cast)) in
         CastTiming.bucketize [cast] =
           ([(Js.padStart 2 "0" (Js.numberToString (JsDate.getUTCHours date)),
              {| CastTiming.cast_count := 1 |})],
            [(Js.numberToString (JsDate.getUTCDay date),
              {| CastTiming.cast_count := 1 |})]))
  /\ (forall t : Z,
         Reference.representable t ->
         let ms := (CastTiming.FARCASTER_EPOCH_MS + t * 1000)%Z in
         CastTiming.farcasterEpochToDate t = Some ms
         /\ JsDate.getUTCHours (CastTiming.farcasterEpochToDate t)
            = Some (JsDate.HourFromTime ms)
         /\ JsDate.getUTCDay (CastTiming.farcasterEpochToDate t)
            = Some (JsDate.WeekDay ms)
         /\ (0 <= JsDate.HourFromTime ms <= 23)%Z
         /\ (exists r, ms = JsDate.msPerDay * JsDate.Day ms
                            + JsDate.msPerHour * JsDate.HourFromTime ms + r
                       /\ 0 <= r < JsDate.msPerHour)%Z
         /\ (0 <= JsDate.WeekDay ms <= 6)%Z
         /\ JsDate.WeekDay ms = ((JsDate.Day ms + 4) mod 7)%Z).
Proof.
  split; [| split].
  - repeat split; reflexivity.
  - intros cast Htype date.
    unfold CastTiming.bucketize, CastTiming.tallyCast. cbn [fold_left].
    rewrite Htype.
    replace (("MESSAGE_TYPE_CAST_ADD" =? "MESSAGE_TYPE_CAST_ADD")%string)
      with true by reflexivity.
    cbn [fst snd]. unfold CastTiming.bump. rewrite !set_empty. reflexivity.
  - intros t Hrep ms.
    pose proof (farcasterEpochToDate_representable Hrep) as Hdate.
    change (Reference.instant t) with ms in Hdate. rewrite Hdate.
    split; [reflexivity |]. split; [reflexivity |]. split; [reflexivity |].
    split; [apply HourFromTime_range |].
    split; [apply HourFromTime_within_day |].
    split; [apply WeekDay_range | reflexivity].
Qed.

(** A cast sent on Monday 4 January 2021 at 05:00:07 UTC is tallied under
    the hour key 05 and the day key 1. *)
Lemma farcaster_epoch_buckets_witness :
  CastTiming.bucketize [Examples.castAt 277207] =
    ([("05", {| CastTiming.cast_count := 1 |})],
     [("1", {| CastTiming.cast_count := 1 |})])
  /\ JsDate.getUTCHours (CastTiming.farcasterEpochToDate 277207) = Some 5%Z
  /\ JsDate.getUTCDay (CastTiming.farcasterEpochToDate 277207) = Some 1%Z.
Proof.
  split.
  - apply (proj1 (proj2 farcaster_epoch_buckets) (Examples.castAt 277207)).
    reflexivity.
  - assert (H : Reference.representable 277207)
      by (unfold Reference.representable; vm_compute; discriminate).
    destruct (proj2 (proj2 farcaster_epoch_buckets) 277207%Z H)
      as [_ [Hh [Hd _]]].
    split; [exact Hh | exact Hd].
Defined.

(** C3.  The conversion does not check that [Date] can hold the instant it
    computes.  The raw timestamp 8638390540800 stands for the last instant
    of [Date], 8.64e15 ms, and is converted to it.  One second later, at
    8638390540801, the instant [FARCASTER_EPOCH_MS + t * 1000] is
    8640000000001000 ms, but [farcasterEpochToDate] returns the invalid date:
    its UTC hour and its UTC day of the week are NaN, no number between 0
    and 23 or between 0 and 6, and a cast-add message sent then is tallied
    under the key NaN in both tallies, which is the key of no hour and of no
    day. *)
Theorem farcaster_epoch_beyond_date_range :
  CastTiming.farcasterEpochToDate 8638390540800 = Some 8640000000000000%Z
  /\ Reference.instant 8638390540801 = 8640000000001000%Z
  /\ CastTiming.farcasterEpochToDate 8638390540801 = None
  /\ CastTiming.farcasterEpochToDate 8638390540801
     <> Some (Reference.instant 8638390540801)
  /\ JsDate.getUTCHours (CastTiming.farcasterEpochToDate 8638390540801) = None
  /\ JsDate.getUTCDay (CastTiming.farcasterEpochToDate 8638390540801) = None
  /\ CastTiming.bucketize [Examples.castAt 8638390540801] =
       ([("NaN", {| CastTiming.cast_count := 1 |})],
        [("NaN", {| CastTiming.cast_count := 1 |})])
  /\ ~ In "NaN" Reference.hourKeys
  /\ ~ In "NaN" Reference.dayKeys.
Proof.
  split; [reflexivity |]. split; [reflexivity |]. split; [reflexivity |].
  split; [discriminate |]. split; [reflexivity |]. split; [reflexivity |].
  split; [reflexivity |].
  split; intro H; vm_compute in H;
    repeat (destruct H as [H | H]; [discriminate H |]); exact H.
Qed.

(** C9.  With no cast at all the two tallies are empty, the peak search on
    an empty tally finds no peak and the peak value 0, and the analysis is
    the three-field answer whose summary says that no cast data is
    available: it names no hour and no day. *)
Theorem empty_input_no_data :
  CastTiming.bucketize [] = (JsObject.empty, JsObject.empty)
  /\ (forall (L : Type) (label : string -> L),
         CastTiming.findPeaks label JsObject.empty = ([], 0))
  /\ CastTiming.analyzeOptimalPostingTimesUTC [] =
       CastTiming.NoData "No cast data available to analyze posting times."
         JsObject.empty JsObject.empty
  /\ Js.includes
       (CastTiming.summaryOf (CastTiming.analyzeOptimalPostingTimesUTC []))
       "No cast data available" = true
  /\ Js.includes
       (CastTiming.summaryOf (CastTiming.analyzeOptimalPostingTimesUTC []))
       ":00" = false
  /\ Js.includes
       (CastTiming.summaryOf (CastTiming.analyzeOptimalPostingTimesUTC []))
       "most frequently posts" = false.
Proof.
  repeat split; reflexivity.
Qed.

(** X25.  Every message of type cast-add is counted once in the hourly
    tally and once in the daily tally: the counts of each tally add up to
    the number of such messages, which is the number of casts when they all
    are of that type, and no key occurs twice in a tally.  When
    [Date] can hold the instant of every such message, every key of the
    hourly tally is the key of an hour from 0 to 23 and every key of the
    daily tally the key of a day from 0 to 6. *)
Theorem bucketize_totals_and_keys (casts : list CastTiming.FarcasterMessage) :
  Reference.total (fst (CastTiming.bucketize casts)) =
    List.length (filter Reference.hasCastAddType casts)
  /\ Reference.total (snd (CastTiming.bucketize casts)) =
    List.length (filter Reference.hasCastAddType casts)
  /\ (forallb Reference.hasCastAddType casts = true ->
      Reference.total (fst (CastTiming.bucketize casts)) = List.length casts
      /\ Reference.total (snd (CastTiming.bucketize casts)) = List.length casts)
  /\ NoDup (JsObject.keys (fst (CastTiming.bucketize casts)))
  /\ NoDup (JsObject.keys (snd (CastTiming.bucketize casts)))
  /\ ((forall cast, In cast casts -> Reference.hasCastAddType cast = true ->
         Reference.representable (CastTiming.timestamp (CastTiming.data cast))) ->
      Forall (fun k => In k Reference.hourKeys)
             (JsObject.keys (fst (CastTiming.bucketize casts)))
      /\ Forall (fun k => In k Reference.dayKeys)
                (JsObject.keys (snd (CastTiming.bucketize casts)))).
Proof.
  unfold CastTiming.bucketize.
  destruct (fold_tallyCast_total casts (JsObject.empty, JsObject.empty))
    as [T1 T2].
  change (Reference.total (fst (@JsObject.empty CastTiming.Activity,
                                @JsObject.empty CastTiming.Activity)))
    with 0 in T1.
  change (Reference.total (snd (@JsObject.empty CastTiming.Activity,
                                @JsObject.empty CastTiming.Activity)))
    with 0 in T2.
  simpl in T1, T2.
  split; [exact T1 |]. split; [exact T2 |]. split.
  - intro Hall. rewrite T1, T2.
    assert (E : filter Reference.hasCastAddType casts = casts).
    { clear T1 T2. induction casts as [| c casts IH]; [reflexivity |].
      simpl in Hall |- *. apply andb_prop in Hall. destruct Hall as [Hc Hr].
      rewrite Hc. f_equal. now apply IH. }
    rewrite E. split; reflexivity.
  - assert (N : NoDup (@JsObject.keys CastTiming.Activity JsObject.empty))
      by constructor.
    destruct (@fold_tallyCast_NoDup casts (JsObject.empty, JsObject.empty) N N)
      as [N1 N2].
    split; [exact N1 |]. split; [exact N2 |].
    intro Hv. apply fold_tallyCast_keys; [exact Hv | constructor | constructor].
Qed.

Lemma bucketize_totals_and_keys_witness :
  Forall (fun k => In k Reference.hourKeys)
    (JsObject.keys
       (fst (CastTiming.bucketize [Examples.castAt 0; Examples.castAt 277207])))
  /\ Forall (fun k => In k Reference.dayKeys)
       (JsObject.keys
          (snd (CastTiming.bucketize [Examples.castAt 0; Examples.castAt 277207]))).
Proof.
  apply (bucketize_totals_and_keys [Examples.castAt 0; Examples.castAt 277207]).
  intros cast [<- | [<- | []]] _; unfold Reference.representable; vm_compute;
    discriminate.
Defined.

(** C10.  The tallying loop does not check the date it gets.  A message of
    type cast-add whose timestamp is 10^13 seconds lies beyond the range of
    [Date]: its hour and its day are NaN, and it is tallied under the key
    NaN in both tallies, which is the key of no hour from 0 to 23 and of no
    day from 0 to 6. *)
Lemma invalid_date_key_out_of_range :
  JsObject.keys (fst (CastTiming.bucketize [Examples.castAt 10000000000000]))
    = ["NaN"]
  /\ JsObject.keys (snd (CastTiming.bucketize [Examples.castAt 10000000000000]))
    = ["NaN"]
  /\ ~ Forall (fun k => In k Reference.hourKeys)
         (JsObject.keys
            (fst (CastTiming.bucketize [Examples.castAt 10000000000000])))
  /\ ~ Forall (fun k => In k Reference.dayKeys)
         (JsObject.keys
            (snd (CastTiming.bucketize [Examples.castAt 10000000000000]))).
Proof.
  split; [reflexivity |]. split; [reflexivity |].
  split; intro H; apply Forall_inv in H; vm_compute in H;
    repeat (destruct H as [H | H]; [discriminate H |]); exact H.
Qed.

(** ** The collectors *)

Section CastCollector.

Import Http CastTiming Reference.

Variables (maxItems pageSize : nat) (fid : string).

Lemma logged_Some (x : CastTiming.Exchange) (o : option Fetched) (r : Fetched) :
  logged x o = Some r ->
  exists r', o = Some r' /\ casts r = casts r' /\ error r = error r'
             /\ exchanges r = x :: exchanges r'.
Proof.
  destruct o as [r' |]; simpl; [| discriminate].
  intro H. injection H as <-. exists r'. repeat split.
Qed.

(** The accumulator never outgrows the cap. *)
Lemma fetchLoop_bounded script allCasts token r :
  List.length allCasts <= maxItems ->
  fetchLoop maxItems pageSize fid script allCasts token = Some r ->
  List.length (casts r) <= maxItems.
Proof.
  revert allCasts token r.
  induction script as [| answer script IH]; intros allCasts token r Hacc;
    simpl; [discriminate |].
  destruct answer as [response | err].
  - destruct (Nat.leb_spec maxItems
                (List.length (allCasts ++ castAddMessages response)))
      as [Hfull | Hroom].
    + intro H. injection H as <-. simpl. apply firstn_le_length.
    + destruct (Js.truthy (nextPageToken response)).
      * intro H. apply logged_Some in H.
        destruct H as [r' [H [Hc _]]]. rewrite Hc.
        apply (IH _ _ _ (Nat.lt_le_incl _ _ Hroom) H).
      * intro H. injection H as <-. simpl. lia.
  - intro H. injection H as <-. simpl. exact Hacc.
Qed.

(** The loop returns as soon as the script holds a last answer. *)
Lemma fetchLoop_returns script allCasts token :
  existsb lastCastsAnswer script = true ->
  fetchLoop maxItems pageSize fid script allCasts token <> None.
Proof.
  revert allCasts token.
  induction script as [| answer script IH]; intros allCasts token; simpl;
    [discriminate |].
  destruct answer as [response | err]; simpl; [| discriminate].
  destruct (maxItems <=? List.length (allCasts ++ castAddMessages response));
    [discriminate |].
  destruct (Js.truthy (nextPageToken response)); simpl; [| discriminate].
  intro H. specialize (IH (allCasts ++ castAddMessages response)
                          (nextPageToken response) H).
  destruct (fetchLoop maxItems pageSize fid script
              (allCasts ++ castAddMessages response) (nextPageToken response));
    [discriminate | contradiction].
Qed.

(** Every continued page being full, each request but the last brings the
    accumulator [pageSize] nearer to the cap. *)
Lemma fetchLoop_requests script allCasts token r :
  List.length allCasts <= maxItems ->
  fetchLoop maxItems pageSize fid script allCasts token = Some r ->
  Forall fullCastsPage (exchanges r) ->
  List.length (exchanges r) * pageSize + List.length allCasts
  <= maxItems + pageSize.
Proof.
  revert allCasts token r.
  induction script as [| answer script IH]; intros allCasts token r Hacc;
    simpl; [discriminate |].
  destruct answer as [response | err].
  - destruct (Nat.leb_spec maxItems
                (List.length (allCasts ++ castAddMessages response)))
      as [Hfull | Hroom].
    + intro H. injection H as <-. simpl. lia.
    + destruct (Js.truthy (nextPageToken response)) eqn:Htok.
      * intro H. apply logged_Some in H.
        destruct H as [r' [H [_ [_ Hx]]]]. rewrite Hx. intro Hall.
        inversion Hall as [| x xs Hhead Htail]; subst.
        unfold fullCastsPage in Hhead. simpl in Hhead.
        specialize (Hhead Htok).
        specialize (IH _ _ _ (Nat.lt_le_incl _ _ Hroom) H Htail).
        rewrite length_app in IH. simpl. lia.
      * intro H. injection H as <-. simpl. lia.
  - intro H. injection H as <-. simpl. lia.
Qed.

(** Pages with continuation tokens that leave room under the cap are all
    read, and the loop stops at the first last answer: it returns what the
    pages brought, with the error of the last answer if it is a failure, and
    it has used the answers up to that one and no other. *)
Lemma fetchLoop_stops_at pages final rest allCasts token :
  Forall (fun p => Js.truthy (nextPageToken p) = true) pages ->
  lastCastsAnswer final = true ->
  List.length
    (allCasts ++ List.concat (map castAddMessages pages) ++ lastCasts final)
  < maxItems ->
  exists r,
    fetchLoop maxItems pageSize fid (map Resolved pages ++ final :: rest)
      allCasts token = Some r
    /\ casts r =
       allCasts ++ List.concat (map castAddMessages pages) ++ lastCasts final
    /\ error r = lastCastsError final
    /\ map snd (exchanges r) = map Resolved pages ++ [final].
Proof.
  intros Hpages Hfinal. revert allCasts token.
  induction Hpages as [| page pages Htok _ IH]; intros allCasts token Hroom.
  - cbn [map app List.concat] in *. cbn [fetchLoop].
    destruct final as [response | err].
    + cbn [lastCasts lastCastsAnswer] in *.
      destruct (Nat.leb_spec maxItems
                  (List.length (allCasts ++ castAddMessages response)));
        [lia |].
      apply negb_true_iff in Hfinal. rewrite Hfinal.
      eexists. repeat split.
    + eexists. split; [reflexivity |]. cbn [lastCasts casts].
      rewrite app_nil_r. repeat split.
  - cbn [map app List.concat] in *. cbn [fetchLoop].
    rewrite !length_app in Hroom.
    destruct (Nat.leb_spec maxItems
                (List.length (allCasts ++ castAddMessages page)));
      [rewrite length_app in *; lia |].
    rewrite Htok.
    destruct (IH (allCasts ++ castAddMessages page) (nextPageToken page))
      as [r [Hr [Hc [He Hx]]]].
    { rewrite !length_app. lia. }
    rewrite Hr. cbn [logged option_map]. eexists. split; [reflexivity |].
    cbn [casts error exchanges map snd]. rewrite Hc, He, Hx.
    rewrite <- !app_assoc. repeat split.
Qed.

End CastCollector.

Lemma requests_le_ceilDiv (n maxItems pageSize : nat) :
  0 < pageSize ->
  n * pageSize <= maxItems + pageSize ->
  n <= Reference.ceilDiv maxItems pageSize + 1.
Proof.
  intros Hp H. unfold Reference.ceilDiv.
  assert (Hn : n <= (maxItems + pageSize) / pageSize).
  { apply Nat.div_le_lower_bound; lia. }
  replace (maxItems + pageSize) with (maxItems + 1 * pageSize) in Hn by lia.
  rewrite Nat.div_add in Hn by lia.
  assert (maxItems / pageSize <= (maxItems + pageSize - 1) / pageSize).
  { apply Nat.Div0.div_le_mono. lia. }
  lia.
Qed.

Section FollowerCollector.

Import Http FollowerAnalyst Reference.

Variables (maxItems batchSize : nat) (fid : string).

Lemma logged_Some_followers (x : FollowerAnalyst.Exchange)
  (o : option Collected) (c : Collected) :
  FollowerAnalyst.logged x o = Some c ->
  exists c', o = Some c' /\ allFollowerFids c = allFollowerFids c'
             /\ fetchedFollowersCount c = fetchedFollowersCount c'
             /\ fetchError c = fetchError c'
             /\ FollowerAnalyst.exchanges c = x :: FollowerAnalyst.exchanges c'.
Proof.
  destruct o as [c' |]; simpl; [| discriminate].
  intro H. injection H as <-. exists c'. repeat split.
Qed.

Lemma pushedFids_length (page : list NeynarFollower) :
  List.length (pushedFids page) <= List.length page.
Proof.
  unfold pushedFids. rewrite length_map. apply filter_length_le.
Qed.

(** The error [fetchUserFollowers] reports is never the empty string. *)
Lemma fetchUserFollowers_error (answer : Axios FollowersBody) :
  Js.truthy (FollowerAnalyst.error (fetchUserFollowers answer)) =
  match answer with Resolved _ => false | Rejected _ => true end.
Proof.
  destruct answer; reflexivity.
Qed.

Lemma fetchUserFollowers_page (body : FollowersBody) :
  match users (fetchUserFollowers (Resolved body)) with
  | Some us => us
  | None => []
  end = followersOf body
  /\ match next (fetchUserFollowers (Resolved body)) with
     | Some n => cursor n
     | None => None
     end = cursorOf body.
Proof.
  split; reflexivity.
Qed.

(** When every page honours the limit of its request, the count of fetched
    followers never passes the cap, and there are no more FIDs than fetched
    followers. *)
Lemma followerLoop_bounded script fids count cur c :
  List.length fids <= count -> count <= maxItems ->
  followerLoop maxItems batchSize fid script fids count cur = Some c ->
  Forall withinLimit (FollowerAnalyst.exchanges c) ->
  List.length (allFollowerFids c) <= fetchedFollowersCount c
  /\ fetchedFollowersCount c <= maxItems.
Proof.
  revert fids count cur c.
  induction script as [| answer script IH]; intros fids count cur c Hf Hc;
    cbn [followerLoop]; cbv zeta;
    destruct (Nat.ltb_spec count maxItems) as [Hlt | Hge];
    try (intro H; injection H as <-; simpl; split; assumption);
    destruct (Nat.leb_spec (Nat.min batchSize (maxItems - count)) 0)
      as [Hz | Hpos];
    try (intro H; injection H as <-; simpl; split; assumption);
    [discriminate |].
  rewrite fetchUserFollowers_error.
  destruct answer as [body | err];
    [| intro H; injection H as <-; simpl; split; assumption].
  destruct (fetchUserFollowers_page body) as [-> ->].
  pose proof (pushedFids_length (followersOf body)) as Hpush.
  assert (Hstop :
    withinLimit (requestOf fid (Nat.min batchSize (maxItems - count)) cur,
                 Resolved body) ->
    List.length (fids ++ pushedFids (followersOf body))
      <= count + List.length (followersOf body)
    /\ count + List.length (followersOf body) <= maxItems).
  { intro Hw. unfold withinLimit in Hw. simpl in Hw.
    rewrite length_app. lia. }
  destruct (Js.truthy (cursorOf body)); cbn [negb].
  - destruct (Nat.leb_spec maxItems (count + List.length (followersOf body)))
      as [Hcap | Hroom].
    + intros H Hall. injection H as <-. simpl in *.
      apply Hstop. now inversion Hall.
    + intros H Hall. apply logged_Some_followers in H.
      destruct H as [c' [H [E1 [E2 [_ Hx]]]]]. rewrite Hx in Hall.
      inversion Hall as [| x xs Hhead Htail]; subst.
      destruct (Hstop Hhead) as [B1 B2].
      rewrite E1, E2. apply (IH _ _ _ _ B1 B2 H Htail).
  - intros H Hall. injection H as <-. simpl in *.
    apply Hstop. now inversion Hall.
Qed.

(** The loop returns as soon as the script holds a last answer. *)
Lemma followerLoop_returns script fids count cur :
  existsb lastFollowersAnswer script = true ->
  followerLoop maxItems batchSize fid script fids count cur <> None.
Proof.
  revert fids count cur.
  induction script as [| answer script IH]; intros fids count cur;
    [discriminate |].
  cbn [followerLoop existsb]; cbv zeta.
  destruct (count <? maxItems); [| discriminate].
  destruct (Nat.min batchSize (maxItems - count) <=? 0); [discriminate |].
  rewrite fetchUserFollowers_error.
  destruct answer as [body | err]; [| discriminate].
  destruct (fetchUserFollowers_page body) as [-> ->].
  unfold lastFollowersAnswer at 1.
  destruct (Js.truthy (cursorOf body)); cbn [negb orb]; [| discriminate].
  destruct (maxItems <=? count + List.length (followersOf body));
    [discriminate |].
  intro H.
  specialize (IH (fids ++ pushedFids (followersOf body))
                 (count + List.length (followersOf body)) (cursorOf body) H).
  destruct (followerLoop maxItems batchSize fid script
              (fids ++ pushedFids (followersOf body))
              (count + List.length (followersOf body)) (cursorOf body));
    [discriminate | contradiction].
Qed.

(** Every continued page being full, each request but the last brings the
    count [batchSize] nearer to the cap. *)
Lemma followerLoop_requests script fids count cur c :
  count <= maxItems ->
  followerLoop maxItems batchSize fid script fids count cur = Some c ->
  Forall fullFollowersPage (FollowerAnalyst.exchanges c) ->
  List.length (FollowerAnalyst.exchanges c) * batchSize + count
  <= maxItems + batchSize.
Proof.
  revert fids count cur c.
  induction script as [| answer script IH]; intros fids count cur c Hc;
    cbn [followerLoop]; cbv zeta;
    destruct (Nat.ltb_spec count maxItems) as [Hlt | Hge];
    try (intro H; injection H as <-; simpl; lia);
    destruct (Nat.leb_spec (Nat.min batchSize (maxItems - count)) 0)
      as [Hz | Hpos];
    try (intro H; injection H as <-; simpl; lia);
    [discriminate |].
  rewrite fetchUserFollowers_error.
  destruct answer as [body | err];
    [| intro H; injection H as <-; simpl; lia].
  destruct (fetchUserFollowers_page body) as [-> ->].
  destruct (Js.truthy (cursorOf body)) eqn:Hcur; cbn [negb];
    [| intro H; injection H as <-; simpl; lia].
  destruct (Nat.leb_spec maxItems (count + List.length (followersOf body)))
    as [Hcap | Hroom]; [intro H; injection H as <-; simpl; lia |].
  intros H Hall. apply logged_Some_followers in H.
  destruct H as [c' [H [_ [_ [_ Hx]]]]]. rewrite Hx in Hall |- *.
  inversion Hall as [| x xs Hhead Htail]; subst.
  unfold fullFollowersPage in Hhead. simpl in Hhead. specialize (Hhead Hcur).
  specialize (IH _ _ _ _ (Nat.lt_le_incl _ _ Hroom) H Htail).
  simpl. lia.
Qed.

(** The same for the follower pagination, whose cap counts the followers
    served, pushed or not. *)
Lemma followerLoop_stops_at pages final rest fids count cur :
  0 < batchSize ->
  Forall (fun b => Js.truthy (cursorOf b) = true) pages ->
  lastFollowersAnswer final = true ->
  count + List.length (List.concat (map followersOf pages))
        + List.length (lastFollowers final) < maxItems ->
  exists c,
    followerLoop maxItems batchSize fid (map Resolved pages ++ final :: rest)
      fids count cur = Some c
    /\ allFollowerFids c =
         fids ++ qualifyingFids pages ++ pushedFids (lastFollowers final)
    /\ fetchError c = lastFollowersError final
    /\ map snd (FollowerAnalyst.exchanges c) = map Resolved pages ++ [final].
Proof.
  intros Hbatch Hpages Hfinal. revert fids count cur.
  unfold qualifyingFids.
  induction Hpages as [| page pages Hcur _ IH]; intros fids count cur Hroom;
    cbn [map app List.concat] in *; cbn [followerLoop]; cbv zeta;
    (destruct (Nat.ltb_spec count maxItems); [| rewrite ?length_app in *; lia]);
    (destruct (Nat.leb_spec (Nat.min batchSize (maxItems - count)) 0);
     [lia |]);
    rewrite fetchUserFollowers_error.
  - destruct final as [body | err].
    + destruct (fetchUserFollowers_page body) as [-> ->].
      cbn [lastFollowers lastFollowersAnswer] in *. rewrite Hfinal.
      eexists. repeat split.
    + eexists. split; [reflexivity |].
      cbn [lastFollowers allFollowerFids pushedFids filter map].
      rewrite app_nil_r. repeat split.
  - destruct (fetchUserFollowers_page page) as [-> ->].
    rewrite Hcur. cbn [negb]. rewrite length_app in Hroom.
    destruct (Nat.leb_spec maxItems (count + List.length (followersOf page)));
      [lia |].
    destruct (IH (fids ++ pushedFids (followersOf page))
                 (count + List.length (followersOf page)) (cursorOf page))
      as [c [Hc [Hf [He Hx]]]]; [lia |].
    rewrite Hc. cbn [FollowerAnalyst.logged option_map].
    eexists. split; [reflexivity |].
    cbn [allFollowerFids fetchError FollowerAnalyst.exchanges map snd].
    rewrite Hf, He, Hx. rewrite <- !app_assoc. repeat split.
Qed.

End FollowerCollector.

(** X24.  [fetchAllUserCasts] never returns more cast-add messages than its
    cap, 500, whatever pages the hub serves.  The follower pagination ends
    with at most 150 FIDs, its cap, when every page it received holds no
    more followers than the limit of its request.  Both loops return
    whenever the server, at some point, fails or serves a page without a
    continuation token. *)
Theorem collected_length_bounded :
  (forall maxItems pageSize fid script r,
      CastTiming.collect maxItems pageSize fid script = Some r ->
      List.length (CastTiming.casts r) <= maxItems)
  /\ (forall fid script r,
         CastTiming.fetchAllUserCasts fid script = Some r ->
         List.length (CastTiming.casts r)
         <= CastTiming.MAX_CASTS_TO_FETCH_FOR_POST_TIME_ANALYSIS)
  /\ (forall maxItems batchSize fid script c,
         FollowerAnalyst.collect maxItems batchSize fid script = Some c ->
         Forall Reference.withinLimit (FollowerAnalyst.exchanges c) ->
         List.length (FollowerAnalyst.allFollowerFids c) <= maxItems)
  /\ (forall fid script c,
         FollowerAnalyst.collectFollowers fid script = Some c ->
         Forall Reference.withinLimit (FollowerAnalyst.exchanges c) ->
         List.length (FollowerAnalyst.allFollowerFids c)
         <= FollowerAnalyst.MAX_FOLLOWERS_TO_PROCESS)
  /\ (forall maxItems pageSize fid script,
         existsb Reference.lastCastsAnswer script = true ->
         CastTiming.collect maxItems pageSize fid script <> None)
  /\ (forall maxItems batchSize fid script,
         existsb Reference.lastFollowersAnswer script = true ->
         FollowerAnalyst.collect maxItems batchSize fid script <> None).
Proof.
  assert (Hcasts : forall maxItems pageSize fid script r,
             CastTiming.collect maxItems pageSize fid script = Some r ->
             List.length (CastTiming.casts r) <= maxItems).
  { intros maxItems pageSize fid script r H.
    eapply fetchLoop_bounded; [| exact H]. apply Nat.le_0_l. }
  assert (Hfollowers : forall maxItems batchSize fid script c,
             FollowerAnalyst.collect maxItems batchSize fid script = Some c ->
             Forall Reference.withinLimit (FollowerAnalyst.exchanges c) ->
             List.length (FollowerAnalyst.allFollowerFids c) <= maxItems).
  { intros maxItems batchSize fid script c H Hall.
    destruct (@followerLoop_bounded maxItems batchSize fid script [] 0 None c
                (Nat.le_0_l 0) (Nat.le_0_l maxItems) H Hall). lia. }
  split; [exact Hcasts |]. split; [intros; eapply Hcasts; eassumption |].
  split; [exact Hfollowers |].
  split; [intros; eapply Hfollowers; eassumption |].
  split.
  - intros. now apply fetchLoop_returns.
  - intros. now apply followerLoop_returns.
Qed.

Lemma collected_length_bounded_witness :
  exists c,
    FollowerAnalyst.collectFollowers "942471"
      [Examples.followersPage (Examples.followers 1 50) (Some "next");
       Examples.followersPage (Examples.followers 51 20) None] = Some c
    /\ List.length (FollowerAnalyst.allFollowerFids c)
       <= FollowerAnalyst.MAX_FOLLOWERS_TO_PROCESS.
Proof.
  eexists. split; [reflexivity |].
  apply (proj1 (proj2 (proj2 (proj2 collected_length_bounded))) "942471"
           [Examples.followersPage (Examples.followers 1 50) (Some "next");
            Examples.followersPage (Examples.followers 51 20) None]).
  - reflexivity.
  - repeat constructor; unfold Reference.withinLimit; simpl; lia.
Defined.

(** C1.  The follower pagination never cuts what it has collected down to
    its cap.  A page of 151 followers in answer to a request that allowed
    50: the pagination keeps the 151 FIDs, one more than
    [MAX_FOLLOWERS_TO_PROCESS], and they are still 151 after
    de-duplication. *)
Lemma follower_overlong_page_exceeds_cap :
  exists c,
    FollowerAnalyst.collectFollowers "942471" Examples.overlongPage = Some c
    /\ map FollowerAnalyst.req_limit (map fst (FollowerAnalyst.exchanges c))
       = [50]
    /\ List.length (FollowerAnalyst.allFollowerFids c) = 151
    /\ List.length (FollowerAnalyst.dedupe (FollowerAnalyst.allFollowerFids c))
       = 151
    /\ ~ List.length (FollowerAnalyst.allFollowerFids c)
         <= FollowerAnalyst.MAX_FOLLOWERS_TO_PROCESS.
Proof.
  eexists. split; [reflexivity |]. split; [reflexivity |].
  split; [reflexivity |]. split; [vm_compute; reflexivity |].
  vm_compute. intro H. repeat (apply le_S_n in H). inversion H.
Qed.

(** C2, as the code has it.  The loops go on for as long as the server hands
    out continuation tokens and the cap is not reached, so the number of
    requests is bounded only when the pages make progress: if every page
    that comes with a continuation token brings at least as many qualifying
    items as were asked for, a collector makes at most
    [ceil(maxItems / pageSize) + 1] requests; for [fetchAllUserCasts] that is
    at most 6, for the follower pagination at most 4. *)
Theorem requests_bounded_on_full_pages :
  (forall maxItems pageSize fid script r,
      0 < pageSize ->
      CastTiming.collect maxItems pageSize fid script = Some r ->
      Forall Reference.fullCastsPage (CastTiming.exchanges r) ->
      List.length (CastTiming.exchanges r)
      <= Reference.ceilDiv maxItems pageSize + 1)
  /\ (forall fid script r,
         CastTiming.fetchAllUserCasts fid script = Some r ->
         Forall Reference.fullCastsPage (CastTiming.exchanges r) ->
         List.length (CastTiming.exchanges r) <= 6)
  /\ (forall maxItems batchSize fid script c,
         0 < batchSize ->
         FollowerAnalyst.collect maxItems batchSize fid script = Some c ->
         Forall Reference.fullFollowersPage (FollowerAnalyst.exchanges c) ->
         List.length (FollowerAnalyst.exchanges c)
         <= Reference.ceilDiv maxItems batchSize + 1)
  /\ (forall fid script c,
         FollowerAnalyst.collectFollowers fid script = Some c ->
         Forall Reference.fullFollowersPage (FollowerAnalyst.exchanges c) ->
         List.length (FollowerAnalyst.exchanges c) <= 4).
Proof.
  assert (Hcasts : forall maxItems pageSize fid script r,
      0 < pageSize ->
      CastTiming.collect maxItems pageSize fid script = Some r ->
      Forall Reference.fullCastsPage (CastTiming.exchanges r) ->
      List.length (CastTiming.exchanges r)
      <= Reference.ceilDiv maxItems pageSize + 1).
  { intros maxItems pageSize fid script r Hp H Hall.
    apply requests_le_ceilDiv; [exact Hp |].
    pose proof (@fetchLoop_requests maxItems pageSize fid script [] None r
                  (Nat.le_0_l maxItems) H Hall) as Hn.
    simpl in Hn. lia. }
  assert (Hfollowers : forall maxItems batchSize fid script c,
      0 < batchSize ->
      FollowerAnalyst.collect maxItems batchSize fid script = Some c ->
      Forall Reference.fullFollowersPage (FollowerAnalyst.exchanges c) ->
      List.length (FollowerAnalyst.exchanges c)
      <= Reference.ceilDiv maxItems batchSize + 1).
  { intros maxItems batchSize fid script c Hp H Hall.
    apply requests_le_ceilDiv; [exact Hp |].
    pose proof (@followerLoop_requests maxItems batchSize fid script [] 0 None
                  c (Nat.le_0_l maxItems) H Hall) as Hn.
    lia. }
  split; [exact Hcasts |]. split.
  - intros fid script r H Hall.
    apply (Hcasts _ _ _ _ _ (Nat.lt_0_succ 99) H Hall).
  - split; [exact Hfollowers |].
    intros fid script c H Hall.
    apply (Hfollowers _ _ _ _ _ (Nat.lt_0_succ 49) H Hall).
Qed.

Lemma requests_bounded_on_full_pages_witness :
  exists c,
    FollowerAnalyst.collectFollowers "942471"
      [Examples.followersPage (Examples.followers 1 50) (Some "next");
       Examples.followersPage (Examples.followers 51 20) None] = Some c
    /\ List.length (FollowerAnalyst.exchanges c) <= 4.
Proof.
  eexists. split; [reflexivity |].
  apply (proj2 (proj2 (proj2 requests_bounded_on_full_pages)) "942471"
           [Examples.followersPage (Examples.followers 1 50) (Some "next");
            Examples.followersPage (Examples.followers 51 20) None]).
  - reflexivity.
  - repeat constructor; unfold Reference.fullFollowersPage; simpl;
      try discriminate; intros _; apply Nat.le_refl.
Defined.

(** Six pages of messages that are all filtered out, each with a
    continuation token, and a last page: [fetchAllUserCasts] makes seven
    requests, one more than [ceil(500 / 100) + 1].  One follower per page:
    the follower pagination makes six requests, two more than
    [ceil(150 / 50) + 1]. *)
Lemma filtered_pages_exceed_request_bound :
  (exists r,
      CastTiming.fetchAllUserCasts "942471" Examples.filteredPages = Some r
      /\ CastTiming.casts r = []
      /\ List.length (CastTiming.exchanges r) = 7
      /\ ~ List.length (CastTiming.exchanges r)
           <= Reference.ceilDiv CastTiming.MAX_CASTS_TO_FETCH_FOR_POST_TIME_ANALYSIS
                CastTiming.CAST_FETCH_PAGE_SIZE + 1)
  /\ (exists c,
         FollowerAnalyst.collectFollowers "942471" Examples.thinPages = Some c
         /\ List.length (FollowerAnalyst.exchanges c) = 6
         /\ ~ List.length (FollowerAnalyst.exchanges c)
              <= Reference.ceilDiv FollowerAnalyst.MAX_FOLLOWERS_TO_PROCESS
                   FollowerAnalyst.FOLLOWER_FETCH_BATCH_SIZE + 1).
Proof.
  split; eexists; (split; [reflexivity |]); repeat (split; [reflexivity |]);
    vm_compute; intro H; repeat (apply le_S_n in H); inversion H.
Qed.

(** C6, as the code has it.  A hub serves pages that all carry a
    continuation token, then one that carries none, and no request fails: if
    the cast-add messages of these pages are fewer than the cap,
    [fetchAllUserCasts] returns exactly these messages, in the order served,
    and no error.  The follower pagination counts against its cap every
    follower served, pushed or not: if the followers of the pages are fewer
    than the cap, it ends with exactly the qualifying FIDs of these pages, in
    the order served, and no error.  Both make one request for each of
    these pages and none after. *)
Theorem collect_returns_everything :
  (forall maxItems pageSize fid pages last rest,
      Forall (fun p => Js.truthy (CastTiming.nextPageToken p) = true) pages ->
      Js.truthy (CastTiming.nextPageToken last) = false ->
      List.length
        (List.concat (map CastTiming.castAddMessages (pages ++ [last])))
      < maxItems ->
      exists r,
        CastTiming.collect maxItems pageSize fid
          (map Http.Resolved (pages ++ [last]) ++ rest) = Some r
        /\ CastTiming.casts r =
             List.concat (map CastTiming.castAddMessages (pages ++ [last]))
        /\ CastTiming.error r = None
        /\ map snd (CastTiming.exchanges r) =
             map Http.Resolved (pages ++ [last]))
  /\ (forall maxItems batchSize fid pages last rest,
         0 < batchSize ->
         Forall (fun b => Js.truthy (Reference.cursorOf b) = true) pages ->
         Js.truthy (Reference.cursorOf last) = false ->
         List.length
           (List.concat (map Reference.followersOf (pages ++ [last])))
         < maxItems ->
         exists c,
           FollowerAnalyst.collect maxItems batchSize fid
             (map Http.Resolved (pages ++ [last]) ++ rest) = Some c
           /\ FollowerAnalyst.allFollowerFids c =
                Reference.qualifyingFids (pages ++ [last])
           /\ FollowerAnalyst.fetchError c = None
           /\ map snd (FollowerAnalyst.exchanges c) =
                map Http.Resolved (pages ++ [last])).
Proof.
  split.
  - intros maxItems pageSize fid pages last rest Hpages Hlast Hroom.
    assert (E : List.concat (map CastTiming.castAddMessages (pages ++ [last]))
                = List.concat (map CastTiming.castAddMessages pages)
                  ++ CastTiming.castAddMessages last).
    { rewrite map_app, concat_app. cbn [map List.concat].
      now rewrite app_nil_r. }
    rewrite E in *.
    replace (map Http.Resolved (pages ++ [last]) ++ rest)
      with (map Http.Resolved pages ++ Http.Resolved last :: rest)
      by (rewrite map_app, <- app_assoc; reflexivity).
    destruct (@fetchLoop_stops_at maxItems pageSize fid pages
                (Http.Resolved last) rest [] None Hpages)
      as [r [Hr [Hc [He Hx]]]].
    + cbn [Reference.lastCastsAnswer]. now rewrite Hlast.
    + exact Hroom.
    + exists r. split; [exact Hr |]. split; [exact Hc |].
      split; [exact He |]. rewrite Hx, map_app. reflexivity.
  - intros maxItems batchSize fid pages last rest Hbatch Hpages Hlast Hroom.
    assert (E : Reference.qualifyingFids (pages ++ [last])
                = Reference.qualifyingFids pages
                  ++ FollowerAnalyst.pushedFids (Reference.followersOf last)).
    { unfold Reference.qualifyingFids. rewrite map_app, concat_app.
      cbn [map List.concat]. now rewrite app_nil_r. }
    rewrite E.
    replace (map Http.Resolved (pages ++ [last]) ++ rest)
      with (map Http.Resolved pages ++ Http.Resolved last :: rest)
      by (rewrite map_app, <- app_assoc; reflexivity).
    destruct (@followerLoop_stops_at maxItems batchSize fid pages
                (Http.Resolved last) rest [] 0 None Hbatch Hpages)
      as [c [Hc [Hf [He Hx]]]].
    + cbn [Reference.lastFollowersAnswer]. now rewrite Hlast.
    + cbn [Reference.lastFollowers].
      rewrite map_app, concat_app, !length_app in Hroom.
      cbn [map List.concat] in Hroom. rewrite app_nil_r in Hroom. lia.
    + exists c. split; [exact Hc |]. split; [exact Hf |].
      split; [exact He |]. rewrite Hx, map_app. reflexivity.
Qed.

Lemma collect_returns_everything_witness :
  exists c,
    FollowerAnalyst.collect 150 50 "942471"
      (map Http.Resolved
         ([{| FollowerAnalyst.body_users := Some (Examples.followers 1 50);
              FollowerAnalyst.body_next :=
                Some {| FollowerAnalyst.cursor := Some "next" |} |}]
          ++ [{| FollowerAnalyst.body_users := Some (Examples.followers 51 20);
                 FollowerAnalyst.body_next := None |}])
       ++ []) = Some c
    /\ FollowerAnalyst.allFollowerFids c =
         Reference.qualifyingFids
           ([{| FollowerAnalyst.body_users := Some (Examples.followers 1 50);
                FollowerAnalyst.body_next :=
                  Some {| FollowerAnalyst.cursor := Some "next" |} |}]
            ++ [{| FollowerAnalyst.body_users := Some (Examples.followers 51 20);
                   FollowerAnalyst.body_next := None |}])
    /\ FollowerAnalyst.fetchError c = None
    /\ map snd (FollowerAnalyst.exchanges c) =
         map Http.Resolved
           ([{| FollowerAnalyst.body_users := Some (Examples.followers 1 50);
                FollowerAnalyst.body_next :=
                  Some {| FollowerAnalyst.cursor := Some "next" |} |}]
            ++ [{| FollowerAnalyst.body_users := Some (Examples.followers 51 20);
                   FollowerAnalyst.body_next := None |}]).
Proof.
  apply (proj2 collect_returns_everything).
  - apply Nat.lt_0_succ.
  - repeat constructor.
  - reflexivity.
  - vm_compute. repeat constructor.
Defined.

(** Three pages of 50 entries whose FID is 0, each with a cursor, then a
    page with the follower of FID 7 and no cursor: the pages hold one
    qualifying FID, and no request fails, but the pagination stops after the
    third page, its count at the cap, with no FID at all. *)
Lemma follower_unqualified_items_consume_cap :
  Reference.qualifyingFids (Reference.servedPages Examples.zeroFidPages) = [7%Z]
  /\ List.length (Reference.servedPages Examples.zeroFidPages)
     = List.length Examples.zeroFidPages
  /\ existsb Reference.lastFollowersAnswer Examples.zeroFidPages = true
  /\ List.length
       (Reference.qualifyingFids (Reference.servedPages Examples.zeroFidPages))
     < FollowerAnalyst.MAX_FOLLOWERS_TO_PROCESS
  /\ exists c,
       FollowerAnalyst.collectFollowers "942471" Examples.zeroFidPages = Some c
       /\ FollowerAnalyst.allFollowerFids c = []
       /\ FollowerAnalyst.fetchError c = None
       /\ List.length (FollowerAnalyst.exchanges c) = 3
       /\ FollowerAnalyst.allFollowerFids c <>
          Reference.qualifyingFids (Reference.servedPages Examples.zeroFidPages).
Proof.
  split; [reflexivity |]. split; [reflexivity |]. split; [reflexivity |].
  split; [vm_compute; repeat constructor |].
  eexists. split; [reflexivity |]. repeat (split; [reflexivity |]).
  discriminate.
Qed.

(** C7.  When a request fails after pages that all carried a continuation
    token and left room under the cap, the collector returns at once: its
    result holds what these pages brought, nothing dropped, together with
    the error of the failure, and the failed request is the last it made,
    however many answers the server had left. *)
Theorem failure_stops_collection :
  (forall maxItems pageSize fid pages err rest,
      Forall (fun p => Js.truthy (CastTiming.nextPageToken p) = true) pages ->
      List.length (List.concat (map CastTiming.castAddMessages pages))
      < maxItems ->
      exists r,
        CastTiming.collect maxItems pageSize fid
          (map Http.Resolved pages ++ Http.Rejected err :: rest) = Some r
        /\ CastTiming.casts r =
             List.concat (map CastTiming.castAddMessages pages)
        /\ CastTiming.error r =
             Some ("Neynar Hub API error (castsByFid): " +++ Http.errorText err)
        /\ map snd (CastTiming.exchanges r) =
             map Http.Resolved pages ++ [Http.Rejected err])
  /\ (forall maxItems batchSize fid pages err rest,
         0 < batchSize ->
         Forall (fun b => Js.truthy (Reference.cursorOf b) = true) pages ->
         List.length (List.concat (map Reference.followersOf pages))
         < maxItems ->
         exists c,
           FollowerAnalyst.collect maxItems batchSize fid
             (map Http.Resolved pages ++ Http.Rejected err :: rest) = Some c
           /\ FollowerAnalyst.allFollowerFids c = Reference.qualifyingFids pages
           /\ FollowerAnalyst.fetchError c =
                Some ("Neynar API error (followers): " +++ Http.errorText err)
           /\ map snd (FollowerAnalyst.exchanges c) =
                map Http.Resolved pages ++ [Http.Rejected err])
  /\ (forall fid pages err rest,
         Forall (fun b => Js.truthy (Reference.cursorOf b) = true) pages ->
         List.length (List.concat (map Reference.followersOf pages))
         < FollowerAnalyst.MAX_FOLLOWERS_TO_PROCESS ->
         FollowerAnalyst.uniqueFollowerFids fid
           (map Http.Resolved pages ++ Http.Rejected err :: rest) =
         Some (FollowerAnalyst.dedupe (Reference.qualifyingFids pages),
               Some ("Neynar API error (followers): " +++ Http.errorText err))).
Proof.
  assert (Hfollowers :
    forall maxItems batchSize fid pages err rest,
      0 < batchSize ->
      Forall (fun b => Js.truthy (Reference.cursorOf b) = true) pages ->
      List.length (List.concat (map Reference.followersOf pages))
      < maxItems ->
      exists c,
        FollowerAnalyst.collect maxItems batchSize fid
          (map Http.Resolved pages ++ Http.Rejected err :: rest) = Some c
        /\ FollowerAnalyst.allFollowerFids c = Reference.qualifyingFids pages
        /\ FollowerAnalyst.fetchError c =
             Some ("Neynar API error (followers): " +++ Http.errorText err)
        /\ map snd (FollowerAnalyst.exchanges c) =
             map Http.Resolved pages ++ [Http.Rejected err]);
    [| split; [| split; [exact Hfollowers |]]].
  - intros maxItems batchSize fid pages err rest Hbatch Hpages Hroom.
    destruct (@followerLoop_stops_at maxItems batchSize fid pages
                (Http.Rejected err) rest [] 0 None Hbatch Hpages eq_refl)
      as [c [Hc [Hf [He Hx]]]].
    + cbn [Reference.lastFollowers List.length]. lia.
    + exists c. cbn [Reference.lastFollowers app] in Hf.
      change (FollowerAnalyst.pushedFids []) with (@nil Z) in Hf.
      rewrite app_nil_r in Hf. repeat split; assumption.
  - intros maxItems pageSize fid pages err rest Hpages Hroom.
    destruct (@fetchLoop_stops_at maxItems pageSize fid pages
                (Http.Rejected err) rest [] None Hpages eq_refl)
      as [r [Hr [Hc [He Hx]]]].
    + cbn [Reference.lastCasts app]. now rewrite app_nil_r.
    + exists r. cbn [Reference.lastCasts app] in Hc.
      rewrite app_nil_r in Hc. repeat split; assumption.
  - intros fid pages err rest Hpages Hroom.
    destruct (Hfollowers FollowerAnalyst.MAX_FOLLOWERS_TO_PROCESS
                FollowerAnalyst.FOLLOWER_FETCH_BATCH_SIZE fid pages err rest
                (Nat.lt_0_succ 49) Hpages Hroom) as [c [Hc [Hf [He _]]]].
    unfold FollowerAnalyst.uniqueFollowerFids, FollowerAnalyst.collectFollowers.
    rewrite Hc. cbn [option_map]. rewrite Hf, He. reflexivity.
Qed.

Lemma failure_stops_collection_witness :
  exists r,
    CastTiming.collect 500 100 "942471"
      (map Http.Resolved
         [{| CastTiming.messages :=
               Some [Examples.castAt 0; Examples.castRemove; Examples.castAt 60];
             CastTiming.nextPageToken := Some "next" |}]
       ++ Http.Rejected
            {| Http.response_data_error_message := None;
               Http.response_data_message := None;
               Http.message := "Request failed with status code 500" |}
          :: [Examples.castsPage [Examples.castAt 120] None]) = Some r
    /\ CastTiming.casts r = [Examples.castAt 0; Examples.castAt 60]
    /\ CastTiming.error r =
         Some "Neynar Hub API error (castsByFid): Request failed with status code 500"
    /\ List.length (CastTiming.exchanges r) = 2.
Proof.
  destruct (proj1 failure_stops_collection 500 100 "942471"
              [{| CastTiming.messages :=
                    Some [Examples.castAt 0; Examples.castRemove;
                          Examples.castAt 60];
                  CastTiming.nextPageToken := Some "next" |}]
              {| Http.response_data_error_message := None;
                 Http.response_data_message := None;
                 Http.message := "Request failed with status code 500" |}
              [Examples.castsPage [Examples.castAt 120] None])
    as [r [Hr [Hc [He Hx]]]].
  - repeat constructor.
  - vm_compute. repeat constructor.
  - exists r. split; [exact Hr |]. split; [exact Hc |]. split; [exact He |].
    apply (f_equal (@List.length _)) in Hx. rewrite length_map in Hx.
    exact Hx.
Defined.

(** ** The fallback of the pulse analyzer *)

Section Includes.

Lemma prefix_append (n s : string) : String.prefix n (n +++ s) = true.
Proof.
  induction n as [| c n IH]; simpl; [destruct s; reflexivity |].
  destruct (ascii_dec c c) as [_ | N]; [exact IH | contradiction].
Qed.

Lemma includes_prefix (s n : string) :
  String.prefix n s = true -> Js.includes s n = true.
Proof.
  intro H. destruct s; cbn [Js.includes]; rewrite H; reflexivity.
Qed.

Lemma includes_append_r (a b n : string) :
  Js.includes b n = true -> Js.includes (a +++ b) n = true.
Proof.
  intro H. induction a as [| c a IH]; [exact H |].
  cbn [String.append Js.includes]. rewrite IH. apply orb_true_r.
Qed.

End Includes.

(** C5.  [summarizeFarcasterDiscussionOrXReactions] posts exactly one request
    to xAI, whatever xAI answers.  With no direct reply, the state
    LOCAL_SPARSE, it is the external search on X, the request that carries
    the search parameters, and no summary of replies is asked for; with at
    least one direct reply, the state LOCAL_SUFFICIENT, it is the summary of
    the replies, which carries no search parameters, and no external search
    is made. *)
Theorem fallback_branch_exclusive
  (xai : Pulse.Payload -> Http.Axios Pulse.XaiSearchResponse)
  (catalystCast : Pulse.NeynarCast) (directReplies : list Pulse.NeynarCast) :
  (directReplies = [] ->
   Pulse.fallbackState directReplies = Pulse.LOCAL_SPARSE
   /\ List.length
        (filter Pulse.isExternalSearch
           (snd (Pulse.summarizeFarcasterDiscussionOrXReactions
                   xai catalystCast directReplies))) = 1
   /\ filter Pulse.isLocalSummary
        (snd (Pulse.summarizeFarcasterDiscussionOrXReactions
                xai catalystCast directReplies)) = []
   /\ map Pulse.search_parameters
        (snd (Pulse.summarizeFarcasterDiscussionOrXReactions
                xai catalystCast directReplies)) = [Some Pulse.xSearch])
  /\ (directReplies <> [] ->
      Pulse.fallbackState directReplies = Pulse.LOCAL_SUFFICIENT
      /\ filter Pulse.isExternalSearch
           (snd (Pulse.summarizeFarcasterDiscussionOrXReactions
                   xai catalystCast directReplies)) = []
      /\ List.length
           (filter Pulse.isLocalSummary
              (snd (Pulse.summarizeFarcasterDiscussionOrXReactions
                      xai catalystCast directReplies))) = 1
      /\ map Pulse.search_parameters
           (snd (Pulse.summarizeFarcasterDiscussionOrXReactions
                   xai catalystCast directReplies)) = [None]).
Proof.
  destruct directReplies as [| r replies]; split; intro H;
    try discriminate H; try (exfalso; apply H; reflexivity).
  - unfold Pulse.summarizeFarcasterDiscussionOrXReactions, Pulse.makeXaiRequest.
    cbn [List.length Nat.ltb Nat.leb snd filter map Pulse.isExternalSearch
         Pulse.isLocalSummary Pulse.search_parameters Pulse.fallbackState].
    repeat split.
  - unfold Pulse.summarizeFarcasterDiscussionOrXReactions, Pulse.makeXaiRequest.
    cbn [List.length Nat.ltb Nat.leb snd filter Pulse.isExternalSearch
         Pulse.isLocalSummary Pulse.search_parameters Pulse.messages
         Pulse.content existsb Pulse.fallbackState].
    split; [reflexivity |]. split; [reflexivity |].
    rewrite orb_false_r.
    assert (Hquoted :
      forall a b c d e f g h i j rest : string,
        Js.includes
          (a +++ b +++ c +++ d +++ e +++ f +++ g +++ h +++ i +++ j +++
           "Recent Replies on Farcaster (sample):" +++ rest)
          "Recent Replies on Farcaster (sample):" = true).
    { intros. do 10 apply includes_append_r.
      apply includes_prefix, prefix_append. }
    rewrite Hquoted.
    split; reflexivity.
Qed.

Lemma fallback_branch_exclusive_witness :
  (Pulse.fallbackState [] = Pulse.LOCAL_SPARSE
   /\ List.length
        (filter Pulse.isExternalSearch
           (snd (Pulse.summarizeFarcasterDiscussionOrXReactions
                   Examples.xaiDown Examples.catalyst []))) = 1
   /\ filter Pulse.isLocalSummary
        (snd (Pulse.summarizeFarcasterDiscussionOrXReactions
                Examples.xaiDown Examples.catalyst [])) = []
   /\ map Pulse.search_parameters
        (snd (Pulse.summarizeFarcasterDiscussionOrXReactions
                Examples.xaiDown Examples.catalyst [])) = [Some Pulse.xSearch])
  /\ (Pulse.fallbackState [Examples.reply] = Pulse.LOCAL_SUFFICIENT
      /\ filter Pulse.isExternalSearch
           (snd (Pulse.summarizeFarcasterDiscussionOrXReactions
                   Examples.xaiDown Examples.catalyst [Examples.reply])) = []
      /\ List.length
           (filter Pulse.isLocalSummary
              (snd (Pulse.summarizeFarcasterDiscussionOrXReactions
                      Examples.xaiDown Examples.catalyst [Examples.reply]))) = 1
      /\ map Pulse.search_parameters
           (snd (Pulse.summarizeFarcasterDiscussionOrXReactions
                   Examples.xaiDown Examples.catalyst [Examples.reply]))
         = [None]).
Proof.
  split.
  - apply (proj1 (fallback_branch_exclusive Examples.xaiDown
                    Examples.catalyst [])).
    reflexivity.
  - apply (proj2 (fallback_branch_exclusive Examples.xaiDown Examples.catalyst
                    [Examples.reply])).
    discriminate.
Defined.


(** * Further properties *)

(** ** The runs of the collectors *)

Section CastRuns.

Import Http CastTiming Reference.

Variables (maxItems pageSize : nat) (fid : string).

Lemma fetchLoop_casts script allCasts token r :
  List.length allCasts <= maxItems ->
  fetchLoop maxItems pageSize fid script allCasts token = Some r ->
  casts r =
  firstn maxItems
    (allCasts ++ List.concat (map lastCasts (map snd (exchanges r)))).
Proof.
  revert allCasts token r.
  induction script as [| answer script IH]; intros allCasts token r Hacc;
    cbn [fetchLoop]; [discriminate |].
  destruct answer as [response | err].
  - destruct (Nat.leb_spec maxItems
                (List.length (allCasts ++ castAddMessages response)))
      as [Hfull | Hroom].
    + intro H. injection H as <-. cbn. now rewrite app_nil_r.
    + destruct (Js.truthy (nextPageToken response)).
      * intro H. apply logged_Some in H.
        destruct H as [r' [H [Hc [_ Hx]]]]. rewrite Hc, Hx.
        rewrite (IH _ _ _ (Nat.lt_le_incl _ _ Hroom) H).
        cbn. now rewrite <- app_assoc.
      * intro H. injection H as <-. cbn. rewrite app_nil_r.
        symmetry. apply firstn_all2. lia.
  - intro H. injection H as <-. cbn. rewrite app_nil_r.
    symmetry. now apply firstn_all2.
Qed.

Lemma fetchLoop_followsTokens script allCasts token r :
  fetchLoop maxItems pageSize fid script allCasts token = Some r ->
  exchanges r <> []
  /\ Traces.followsTokens fid pageSize token (exchanges r).
Proof.
  revert allCasts token r.
  induction script as [| answer script IH]; intros allCasts token r;
    cbn [fetchLoop]; [discriminate |].
  destruct answer as [response | err].
  - destruct (maxItems <=? List.length (allCasts ++ castAddMessages response)).
    + intro H. injection H as <-. cbn.
      split; [discriminate |]. repeat split. intro N. now contradiction N.
    + destruct (Js.truthy (nextPageToken response)) eqn:Htok.
      * intro H. apply logged_Some in H.
        destruct H as [r' [H [_ [_ Hx]]]]. rewrite Hx.
        destruct (IH _ _ _ H) as [Hne Hfollow].
        split; [discriminate |]. cbn [Traces.followsTokens].
        split; [reflexivity |]. split; [intros _; exact Htok | exact Hfollow].
      * intro H. injection H as <-. cbn.
        split; [discriminate |]. repeat split. intro N. now contradiction N.
  - intro H. injection H as <-. cbn. split; [discriminate |]. repeat split.
Qed.

End CastRuns.

Lemma firstn_Forall (A : Type) (P : A -> Prop) (n : nat) (l : list A) :
  Forall P l -> Forall P (firstn n l).
Proof.
  intro H. revert n. induction H as [| x l Hx _ IH]; intros [| n]; cbn;
    constructor; [exact Hx | apply IH].
Qed.

Lemma lastCasts_all_castAdd
  (answers : list (Http.Axios CastTiming.FetchCastsByFidResponse)) :
  Forall (fun m => CastTiming.isCastAdd m = true)
    (List.concat (map Reference.lastCasts answers)).
Proof.
  apply Forall_concat. apply Forall_forall. intros l Hl.
  apply in_map_iff in Hl. destruct Hl as [a [<- _]].
  destruct a as [response | err]; cbn; [| constructor].
  apply Forall_forall. intros m Hm. unfold CastTiming.castAddMessages in Hm.
  now apply filter_In in Hm.
Qed.

(** X1.  Whatever the hub serves, what [fetchAllUserCasts] returns is the
    cast-add messages of the pages it received, in the order received, cut
    after the first [maxItems]; nothing else gets in, and nothing is
    reordered. *)
Theorem collected_casts_are_served_prefix maxItems pageSize fid script r :
  CastTiming.collect maxItems pageSize fid script = Some r ->
  CastTiming.casts r =
    firstn maxItems
      (List.concat
         (map Reference.lastCasts (map snd (CastTiming.exchanges r))))
  /\ Forall (fun m => CastTiming.isCastAdd m = true) (CastTiming.casts r).
Proof.
  intro H.
  pose proof (@fetchLoop_casts maxItems pageSize fid script [] None r
                (Nat.le_0_l maxItems) H) as Hc.
  cbn [app] in Hc. split; [exact Hc |].
  rewrite Hc. apply firstn_Forall, lastCasts_all_castAdd.
Qed.

Lemma collected_casts_are_served_prefix_witness :
  exists r,
    CastTiming.collect 2 100 "942471"
      [Examples.castsPage
         [Examples.castAt 0; Examples.castRemove; Examples.castAt 60]
         (Some "next");
       Examples.castsPage [Examples.castAt 120; Examples.castAt 180] None]
    = Some r
    /\ CastTiming.casts r = [Examples.castAt 0; Examples.castAt 60].
Proof.
  eexists. split; [reflexivity |].
  apply (proj1 (@collected_casts_are_served_prefix 2 100 "942471"
                  [Examples.castsPage
                     [Examples.castAt 0; Examples.castRemove;
                      Examples.castAt 60]
                     (Some "next");
                   Examples.castsPage
                     [Examples.castAt 120; Examples.castAt 180] None]
                  _ eq_refl)).
Defined.

(** X2.  [fetchAllUserCasts] makes at least one request, and its requests
    follow the continuation tokens: each asks for the same FID and page
    size, the first without a token and every later one with the token of
    the page just received; after a failure, or a page without a truthy
    token, no request follows. *)
Theorem collect_follows_tokens maxItems pageSize fid script r :
  CastTiming.collect maxItems pageSize fid script = Some r ->
  CastTiming.exchanges r <> []
  /\ Traces.followsTokens fid pageSize None (CastTiming.exchanges r).
Proof.
  intro H. exact (@fetchLoop_followsTokens maxItems pageSize fid script [] None r H).
Qed.

Lemma collect_follows_tokens_witness :
  exists r,
    CastTiming.fetchAllUserCasts "942471" Examples.filteredPages = Some r
    /\ map (fun x => CastTiming.req_pageToken (fst x)) (CastTiming.exchanges r)
       = [None; Some "next"; Some "next"; Some "next"; Some "next";
          Some "next"; Some "next"]
    /\ Traces.followsTokens "942471" 100 None (CastTiming.exchanges r).
Proof.
  eexists. split; [reflexivity |]. split; [reflexivity |].
  apply (@collect_follows_tokens 500 100 "942471" Examples.filteredPages).
  reflexivity.
Defined.

Section FollowerRuns.

Import Http FollowerAnalyst Reference.

Variables (maxItems batchSize : nat) (fid : string).

Lemma followerLoop_fids script fids count cur c :
  followerLoop maxItems batchSize fid script fids count cur = Some c ->
  allFollowerFids c =
    fids ++ qualifyingFids (servedPages (map snd (FollowerAnalyst.exchanges c)))
  /\ fetchedFollowersCount c =
     count + List.length
               (List.concat
                  (map followersOf
                     (servedPages (map snd (FollowerAnalyst.exchanges c))))).
Proof.
  revert fids count cur c. unfold qualifyingFids.
  assert (Hstop : forall fids count err xs c,
    servedPages (map snd xs) = [] ->
    Some {| allFollowerFids := fids; fetchedFollowersCount := count;
            fetchError := err; FollowerAnalyst.exchanges := xs |} = Some c ->
    allFollowerFids c =
      fids ++ List.concat
                (map (fun b => pushedFids (followersOf b))
                   (servedPages (map snd (FollowerAnalyst.exchanges c))))
    /\ fetchedFollowersCount c =
       count + List.length
                 (List.concat
                    (map followersOf
                       (servedPages (map snd (FollowerAnalyst.exchanges c)))))).
  { intros fids count err xs c Hxs H. injection H as <-.
    cbn [allFollowerFids fetchedFollowersCount FollowerAnalyst.exchanges].
    rewrite Hxs. cbn. rewrite app_nil_r. split; [reflexivity | lia]. }
  induction script as [| answer script IH]; intros fids count cur c;
    cbn [followerLoop]; cbv zeta;
    (destruct (count <? maxItems); [| now apply Hstop]);
    (destruct (Nat.min batchSize (maxItems - count) <=? 0);
     [now apply Hstop |]);
    [discriminate |].
  rewrite fetchUserFollowers_error.
  destruct answer as [body | err]; [| now apply Hstop].
  destruct (fetchUserFollowers_page body) as [-> ->].
  assert (Hlast : forall c,
    Some {| allFollowerFids := fids ++ pushedFids (followersOf body);
            fetchedFollowersCount := count + List.length (followersOf body);
            fetchError := None;
            FollowerAnalyst.exchanges :=
              [(requestOf fid (Nat.min batchSize (maxItems - count)) cur,
                Resolved body)] |} = Some c ->
    allFollowerFids c =
      fids ++ List.concat
                (map (fun b => pushedFids (followersOf b))
                   (servedPages (map snd (FollowerAnalyst.exchanges c))))
    /\ fetchedFollowersCount c =
       count + List.length
                 (List.concat
                    (map followersOf
                       (servedPages (map snd (FollowerAnalyst.exchanges c)))))).
  { intros c0 H. injection H as <-. cbn. rewrite !app_nil_r.
    split; reflexivity. }
  destruct (Js.truthy (cursorOf body)); cbn [negb]; [| apply Hlast].
  destruct (maxItems <=? count + List.length (followersOf body));
    [apply Hlast |].
  intro H. apply logged_Some_followers in H.
  destruct H as [c' [H [E1 [E2 [_ Hx]]]]]. rewrite E1, E2, Hx.
  destruct (IH _ _ _ _ H) as [F1 F2]. rewrite F1, F2.
  cbn [map snd servedPages flat_map app List.concat].
  rewrite length_app, <- app_assoc. unfold servedPages.
  split; [reflexivity | lia].
Qed.

Lemma followerLoop_followsCursors script fids count cur c :
  followerLoop maxItems batchSize fid script fids count cur = Some c ->
  Traces.followsCursors maxItems batchSize fid count cur
    (FollowerAnalyst.exchanges c).
Proof.
  revert fids count cur c.
  induction script as [| answer script IH]; intros fids count cur c;
    cbn [followerLoop]; cbv zeta;
    (destruct (count <? maxItems);
     [| intro H; injection H as <-; exact I]);
    (destruct (Nat.leb_spec (Nat.min batchSize (maxItems - count)) 0)
       as [Hz | Hpos];
     [intro H; injection H as <-; exact I |]);
    [discriminate |].
  rewrite fetchUserFollowers_error.
  destruct answer as [body | err];
    [| intro H; injection H as <-; cbn; repeat split; assumption].
  destruct (fetchUserFollowers_page body) as [-> ->].
  destruct (Js.truthy (cursorOf body)) eqn:Hcur; cbn [negb];
    [| intro H; injection H as <-; cbn; repeat split; try assumption;
       intro N; now contradiction N].
  destruct (maxItems <=? count + List.length (followersOf body));
    [intro H; injection H as <-; cbn; repeat split; try assumption;
     intro N; now contradiction N |].
  intro H. apply logged_Some_followers in H.
  destruct H as [c' [H [_ [_ [_ Hx]]]]]. rewrite Hx.
  cbn [Traces.followsCursors]. split; [reflexivity |].
  split; [assumption |]. split; [intros _; exact Hcur |].
  apply (IH _ _ _ _ H).
Qed.

Lemma followsCursors_limits count cur xs :
  Traces.followsCursors maxItems batchSize fid count cur xs ->
  Forall (fun x => req_fid (fst x) = fid
                   /\ 0 < req_limit (fst x)
                   /\ req_limit (fst x) <= batchSize
                   /\ req_limit (fst x) <= maxItems) xs.
Proof.
  revert count cur.
  induction xs as [| [request answer] xs IH]; intros count cur H;
    [constructor |].
  cbn in H. destruct H as [-> [Hpos Hrest]]. constructor.
  - cbn. repeat split; lia.
  - destruct answer as [body | err].
    + destruct Hrest as [_ Hrest]. apply (IH _ _ Hrest).
    + subst xs. constructor.
Qed.

End FollowerRuns.

Lemma pushedFids_nonzero (page : list FollowerAnalyst.NeynarFollower) :
  Forall (fun f => f <> 0%Z) (FollowerAnalyst.pushedFids page).
Proof.
  unfold FollowerAnalyst.pushedFids. apply Forall_forall. intros f Hf.
  apply in_map_iff in Hf. destruct Hf as [follow [<- Hin]].
  apply filter_In in Hin. destruct Hin as [_ Hnz].
  apply negb_true_iff in Hnz. now apply Z.eqb_neq in Hnz.
Qed.

Lemma qualifyingFids_nonzero (pages : list FollowerAnalyst.FollowersBody) :
  Forall (fun f => f <> 0%Z) (Reference.qualifyingFids pages).
Proof.
  unfold Reference.qualifyingFids. apply Forall_concat, Forall_forall.
  intros l Hl. apply in_map_iff in Hl. destruct Hl as [b [<- _]].
  apply pushedFids_nonzero.
Qed.

(** X3.  Whatever the server serves, the follower pagination ends with the
    FIDs of the followers of the pages it received, in the order received
    and without the zero FIDs; it never drops a page it has read and never
    cuts one short, and its count is the number of followers those pages
    held. *)
Theorem collected_fids_are_served maxItems batchSize fid script c :
  FollowerAnalyst.collect maxItems batchSize fid script = Some c ->
  FollowerAnalyst.allFollowerFids c =
    Reference.qualifyingFids
      (Reference.servedPages (map snd (FollowerAnalyst.exchanges c)))
  /\ FollowerAnalyst.fetchedFollowersCount c =
       List.length
         (List.concat
            (map Reference.followersOf
               (Reference.servedPages
                  (map snd (FollowerAnalyst.exchanges c)))))
  /\ Forall (fun f => f <> 0%Z) (FollowerAnalyst.allFollowerFids c).
Proof.
  intro H.
  destruct (@followerLoop_fids maxItems batchSize fid script [] 0 None c H)
    as [Hf Hc].
  cbn [app Nat.add] in Hf, Hc. split; [exact Hf |]. split; [exact Hc |].
  rewrite Hf. apply qualifyingFids_nonzero.
Qed.

Lemma collected_fids_are_served_witness :
  exists c,
    FollowerAnalyst.collectFollowers "942471" Examples.zeroFidPages = Some c
    /\ FollowerAnalyst.allFollowerFids c = []
    /\ FollowerAnalyst.fetchedFollowersCount c = 150.
Proof.
  eexists. split; [reflexivity |].
  destruct (@collected_fids_are_served 150 50 "942471" Examples.zeroFidPages
              _ eq_refl) as [Hf [Hc _]].
  split; [exact Hf | exact Hc].
Defined.

(** X4.  The requests of the follower pagination follow the cursors: each
    asks for the smaller of the batch size and the room left under the cap,
    with the cursor of the page just received, the first without a cursor.
    So no request asks for zero followers, for more than the batch size or
    for more than the cap, and after a failure or a page without a truthy
    cursor no request follows. *)
Theorem collect_follows_cursors maxItems batchSize fid script c :
  FollowerAnalyst.collect maxItems batchSize fid script = Some c ->
  Traces.followsCursors maxItems batchSize fid 0 None
    (FollowerAnalyst.exchanges c)
  /\ Forall (fun x => FollowerAnalyst.req_fid (fst x) = fid
                      /\ 0 < FollowerAnalyst.req_limit (fst x)
                      /\ FollowerAnalyst.req_limit (fst x) <= batchSize
                      /\ FollowerAnalyst.req_limit (fst x) <= maxItems)
            (FollowerAnalyst.exchanges c).
Proof.
  intro H.
  pose proof (@followerLoop_followsCursors maxItems batchSize fid script
                [] 0 None c H) as Hf.
  split; [exact Hf |]. exact (followsCursors_limits _ _ _ _ _ _ Hf).
Qed.

Lemma collect_follows_cursors_witness :
  exists c,
    FollowerAnalyst.collect 120 50 "942471"
      [Examples.followersPage (Examples.followers 1 50) (Some "a");
       Examples.followersPage (Examples.followers 51 50) (Some "b");
       Examples.followersPage (Examples.followers 101 20) (Some "c")] = Some c
    /\ map (fun x => (FollowerAnalyst.req_limit (fst x),
                      FollowerAnalyst.req_cursor (fst x)))
           (FollowerAnalyst.exchanges c)
       = [(50, None); (50, Some "a"); (20, Some "b")]
    /\ Forall (fun x => FollowerAnalyst.req_fid (fst x) = "942471"
                        /\ 0 < FollowerAnalyst.req_limit (fst x)
                        /\ FollowerAnalyst.req_limit (fst x) <= 50
                        /\ FollowerAnalyst.req_limit (fst x) <= 120)
              (FollowerAnalyst.exchanges c).
Proof.
  eexists. split; [reflexivity |]. split; [reflexivity |].
  apply (@collect_follows_cursors 120 50 "942471"
           [Examples.followersPage (Examples.followers 1 50) (Some "a");
            Examples.followersPage (Examples.followers 51 50) (Some "b");
            Examples.followersPage (Examples.followers 101 20) (Some "c")]).
  reflexivity.
Defined.

(** ** Lookup in objects *)

Section ObjectLookup.

Import JsObject.

Variable V : Type.

Lemma get_update_same (o : t V) (k : string) (v : V) :
  get o k <> None -> get (update o k v) k = Some v.
Proof.
  induction o as [| [k' v'] o IH]; cbn; [congruence |].
  destruct (String.eqb_spec k k') as [E | E]; cbn.
  - intros _. subst. now rewrite String.eqb_refl.
  - intro H. destruct (String.eqb_spec k k'); [contradiction | now apply IH].
Qed.

Lemma get_update_other (o : t V) (k k' : string) (v : V) :
  k <> k' -> get (update o k' v) k = get o k.
Proof.
  intro N. induction o as [| [k0 v0] o IH]; cbn; [reflexivity |].
  destruct (String.eqb_spec k' k0) as [E | E]; cbn.
  - subst. destruct (String.eqb_spec k k0); [contradiction | reflexivity].
  - now rewrite IH.
Qed.

Lemma get_insertIndex_same (o : t V) (i : N) (k : string) (v : V) :
  get o k = None -> get (insertIndex o i k v) k = Some v.
Proof.
  induction o as [| [k' v'] o IH]; cbn.
  - intros _. now rewrite String.eqb_refl.
  - destruct (String.eqb_spec k k') as [E | E]; [discriminate |]. intro H.
    destruct (arrayIndex k') as [j |]; [destruct (j <? i)%N |]; cbn;
      try (now rewrite String.eqb_refl).
    destruct (String.eqb_spec k k'); [contradiction | now apply IH].
Qed.

Lemma get_insertIndex_other (o : t V) (i : N) (k k' : string) (v : V) :
  k <> k' -> get (insertIndex o i k' v) k = get o k.
Proof.
  intro N. induction o as [| [k0 v0] o IH]; cbn.
  - destruct (String.eqb_spec k k'); [contradiction | reflexivity].
  - destruct (arrayIndex k0) as [j |]; [destruct (j <? i)%N |]; cbn;
      try (destruct (String.eqb_spec k k'); [contradiction | reflexivity]).
    now rewrite IH.
Qed.

Lemma get_app_same (o : t V) (k : string) (v : V) :
  get o k = None -> get (o ++ [(k, v)]) k = Some v.
Proof.
  induction o as [| [k' v'] o IH]; cbn.
  - intros _. now rewrite String.eqb_refl.
  - destruct (k =? k')%string; [discriminate | exact IH].
Qed.

Lemma get_app_other (o : t V) (k k' : string) (v : V) :
  k <> k' -> get (o ++ [(k', v)]) k = get o k.
Proof.
  intro N. induction o as [| [k0 v0] o IH]; cbn.
  - destruct (String.eqb_spec k k'); [contradiction | reflexivity].
  - now rewrite IH.
Qed.

(** Reading a property after writing it gives the value written, and
    writing a property leaves the others as they were. *)
Lemma get_set_same (o : t V) (k : string) (v : V) :
  get (set o k v) k = Some v.
Proof.
  unfold set. destruct (get o k) eqn:G.
  - apply get_update_same. congruence.
  - destruct (arrayIndex k).
    + now apply get_insertIndex_same.
    + now apply get_app_same.
Qed.

Lemma get_set_other (o : t V) (k k' : string) (v : V) :
  k <> k' -> get (set o k' v) k = get o k.
Proof.
  intro N. unfold set. destruct (get o k').
  - now apply get_update_other.
  - destruct (arrayIndex k').
    + now apply get_insertIndex_other.
    + now apply get_app_other.
Qed.

End ObjectLookup.

(** ** What the tallies count *)

Section BucketCounts.

Import CastTiming Reference Buckets.

Lemma countOf_bump (tally : Tally) (k key : string) :
  countOf (bump tally k) key =
  countOf tally key + (if (k =? key)%string then 1 else 0).
Proof.
  unfold countOf, bump. destruct (String.eqb_spec k key) as [E | E].
  - subst. rewrite get_set_same. reflexivity.
  - rewrite get_set_other by congruence. lia.
Qed.

Lemma fold_tallyCast_counts (casts : list FarcasterMessage)
  (acc : Tally * Tally) (key : string) :
  countOf (fst (fold_left tallyCast casts acc)) key =
    countOf (fst acc) key + List.length (filter (inHourBucket key) casts)
  /\ countOf (snd (fold_left tallyCast casts acc)) key =
    countOf (snd acc) key + List.length (filter (inDayBucket key) casts).
Proof.
  revert acc. induction casts as [| cast casts IH]; intro acc; cbn [fold_left].
  - cbn. split; lia.
  - destruct (IH (tallyCast acc cast)) as [H1 H2]. rewrite H1, H2.
    unfold tallyCast, inHourBucket, inDayBucket, hasCastAddType.
    cbn [filter].
    destruct (type (data cast) =? "MESSAGE_TYPE_CAST_ADD")%string;
      cbn [fst snd andb].
    + rewrite !countOf_bump.
      destruct (hourKeyOf cast =? key)%string;
        destruct (dayKeyOf cast =? key)%string; cbn [List.length]; split; lia.
    + split; lia.
Qed.

(** Every entry of a tally built by bumping has counted at least once. *)
Lemma fold_tallyCast_positive (casts : list FarcasterMessage)
  (acc : Tally * Tally) :
  Forall (fun e => 0 < cast_count (snd e)) (fst acc) ->
  Forall (fun e => 0 < cast_count (snd e)) (snd acc) ->
  Forall (fun e => 0 < cast_count (snd e)) (fst (fold_left tallyCast casts acc))
  /\ Forall (fun e => 0 < cast_count (snd e))
            (snd (fold_left tallyCast casts acc)).
Proof.
  assert (Hbump : forall tally k,
             Forall (fun e => 0 < cast_count (snd e)) tally ->
             Forall (fun e => 0 < cast_count (snd e)) (bump tally k)).
  { intros tally k H. unfold bump, JsObject.set.
    set (v := {| cast_count := _ |}).
    assert (Hv : 0 < cast_count v) by (cbn; lia). clearbody v.
    destruct (JsObject.get tally k).
    - clear -H Hv. induction H as [| [k' v'] o Hx Ho IH]; cbn;
        [constructor |].
      destruct (k =? k')%string; constructor; cbn; assumption.
    - destruct (JsObject.arrayIndex k) as [i |].
      + clear -H Hv. induction H as [| [k' v'] o Hx Ho IH]; cbn;
          [repeat constructor; exact Hv |].
        destruct (JsObject.arrayIndex k') as [j |];
          [destruct (j <? i)%N |]; repeat constructor; cbn; assumption.
      + apply Forall_app. split; [exact H | repeat constructor; exact Hv]. }
  revert acc. induction casts as [| cast casts IH]; intros acc H1 H2;
    cbn [fold_left]; [split; assumption |].
  apply IH; unfold tallyCast;
    destruct (type (data cast) =? "MESSAGE_TYPE_CAST_ADD")%string;
    cbn [fst snd]; try assumption; now apply Hbump.
Qed.

Lemma get_In (tally : Tally) (key : string) (a : Activity) :
  JsObject.get tally key = Some a -> In (key, a) tally.
Proof.
  induction tally as [| [k' v'] tally IH]; cbn; [discriminate |].
  destruct (String.eqb_spec key k') as [E | E].
  - intro H. injection H as ->. subst. now left.
  - intro H. right. now apply IH.
Qed.

End BucketCounts.

(** X5.  After the tallying loop, the count under an hour key is the number
    of cast-add messages whose hour key it is, and the tally has an entry
    for a key exactly when at least one message fell under it; the same
    holds for the daily tally. *)
Theorem bucket_counts (casts : list CastTiming.FarcasterMessage)
  (key : string) :
  match JsObject.get (fst (CastTiming.bucketize casts)) key with
  | Some a =>
      CastTiming.cast_count a =
        List.length (filter (Buckets.inHourBucket key) casts)
      /\ 0 < CastTiming.cast_count a
  | None => filter (Buckets.inHourBucket key) casts = []
  end
  /\ match JsObject.get (snd (CastTiming.bucketize casts)) key with
     | Some a =>
         CastTiming.cast_count a =
           List.length (filter (Buckets.inDayBucket key) casts)
         /\ 0 < CastTiming.cast_count a
     | None => filter (Buckets.inDayBucket key) casts = []
     end.
Proof.
  unfold CastTiming.bucketize.
  destruct (fold_tallyCast_counts casts (JsObject.empty, JsObject.empty) key)
    as [H1 H2].
  destruct (@fold_tallyCast_positive casts (JsObject.empty, JsObject.empty)
              (Forall_nil _) (Forall_nil _)) as [P1 P2].
  unfold Buckets.countOf in H1, H2. cbn [fst snd JsObject.get JsObject.empty]
    in H1, H2. cbn [Nat.add] in H1, H2.
  set (tallies := fold_left CastTiming.tallyCast casts
                    (JsObject.empty, JsObject.empty)) in *.
  split.
  - destruct (JsObject.get (fst tallies) key) as [a |] eqn:G.
    + split; [exact H1 |]. apply get_In in G.
      apply (proj1 (Forall_forall _ _) P1 _ G).
    + now apply length_zero_iff_nil.
  - destruct (JsObject.get (snd tallies) key) as [a |] eqn:G.
    + split; [exact H2 |]. apply get_In in G.
      apply (proj1 (Forall_forall _ _) P2 _ G).
    + now apply length_zero_iff_nil.
Qed.

(** X6.  The buckets depend on the time of day and on the day of the week
    only: where [Date] can hold both instants, a timestamp a whole number of
    days later falls in the same hour bucket, and in the day bucket that
    many days further round the week, so a whole number of weeks later in
    the same day bucket too. *)
Theorem buckets_periodic (t days : Z) :
  Reference.representable t ->
  Reference.representable (t + 86400 * days) ->
  JsDate.getUTCHours (CastTiming.farcasterEpochToDate (t + 86400 * days)) =
    JsDate.getUTCHours (CastTiming.farcasterEpochToDate t)
  /\ JsDate.getUTCDay (CastTiming.farcasterEpochToDate (t + 86400 * days)) =
       Some ((JsDate.WeekDay (Reference.instant t) + days) mod 7)%Z
  /\ ((days mod 7 = 0)%Z ->
      JsDate.getUTCDay (CastTiming.farcasterEpochToDate (t + 86400 * days)) =
        JsDate.getUTCDay (CastTiming.farcasterEpochToDate t)).
Proof.
  intros H1 H2.
  rewrite (farcasterEpochToDate_representable H1),
          (farcasterEpochToDate_representable H2).
  cbn [JsDate.getUTCHours JsDate.getUTCDay option_map].
  assert (E : Reference.instant (t + 86400 * days)
              = (Reference.instant t + days * 86400000)%Z)
    by (unfold Reference.instant; lia).
  rewrite E. clear E.
  assert (Hh : JsDate.HourFromTime (Reference.instant t + days * 86400000)
               = JsDate.HourFromTime (Reference.instant t)).
  { unfold JsDate.HourFromTime, JsDate.msPerHour.
    replace (days * 86400000)%Z with (days * 24 * 3600000)%Z by lia.
    rewrite Z.div_add by lia. apply Z.mod_add. lia. }
  assert (Hd : JsDate.WeekDay (Reference.instant t + days * 86400000)
               = ((JsDate.WeekDay (Reference.instant t) + days) mod 7)%Z).
  { unfold JsDate.WeekDay, JsDate.Day, JsDate.msPerDay.
    rewrite Z.div_add by lia. rewrite Zplus_mod_idemp_l. f_equal. lia. }
  rewrite Hh, Hd. split; [reflexivity |]. split; [reflexivity |].
  intro Hw. f_equal.
  rewrite Z.add_mod, Hw, Z.add_0_r, Z.mod_mod by lia.
  unfold JsDate.WeekDay. apply Z.mod_mod. lia.
Qed.

Lemma buckets_periodic_witness :
  JsDate.getUTCHours (CastTiming.farcasterEpochToDate (277207 + 86400 * 14)) =
    JsDate.getUTCHours (CastTiming.farcasterEpochToDate 277207)
  /\ JsDate.getUTCDay (CastTiming.farcasterEpochToDate (277207 + 86400 * 14)) =
       JsDate.getUTCDay (CastTiming.farcasterEpochToDate 277207).
Proof.
  assert (H1 : Reference.representable 277207)
    by (unfold Reference.representable; vm_compute; discriminate).
  assert (H2 : Reference.representable (277207 + 86400 * 14))
    by (unfold Reference.representable; vm_compute; discriminate).
  destruct (buckets_periodic 14 H1 H2) as [Hh [_ Hd]].
  split; [exact Hh | apply Hd; reflexivity].
Defined.

(** ** The formatted tallies *)

Section Formatting.

Import CastTiming Reference Buckets.

Lemma string_length_append (a b : string) :
  String.length (a +++ b) = String.length a + String.length b.
Proof.
  induction a as [| c a IH]; cbn; [reflexivity | now rewrite IH].
Qed.

Lemma append_inj_l (a1 a2 b1 b2 : string) :
  String.length a1 = String.length a2 ->
  a1 +++ b1 = a2 +++ b2 -> a1 = a2.
Proof.
  revert a2. induction a1 as [| c a1 IH]; intros [| c2 a2]; cbn;
    try discriminate; [reflexivity |].
  intros Hl H. injection Hl as Hl. injection H as -> H.
  f_equal. now apply IH.
Qed.

Lemma hourLabel_inj (a b : string) : hourLabel a = hourLabel b -> a = b.
Proof.
  intro H. apply (append_inj_l _ _ _ _) with (2 := H).
  apply (f_equal String.length) in H. unfold hourLabel in H.
  rewrite !string_length_append in H. cbn in H. lia.
Qed.

Lemma digitsFrom_nondigit (a b : string) (c : ascii) (acc : N) :
  Js.digit c = None -> Js.digitsFrom acc (a +++ String c b) = None.
Proof.
  intro Hc. revert acc. induction a as [| d a IH]; intro acc; cbn.
  - now rewrite Hc.
  - destruct (Js.digit d); [apply IH | reflexivity].
Qed.

Lemma arrayIndex_nondigit (a b : string) (c : ascii) :
  Js.digit c = None -> JsObject.arrayIndex (a +++ String c b) = None.
Proof.
  intro Hc. unfold JsObject.arrayIndex, Js.digits.
  rewrite digitsFrom_nondigit by exact Hc.
  destruct (a +++ String c b); reflexivity.
Qed.

(** Entries whose keys are new, different from each other and no array
    indices are appended in their order. *)
Lemma fold_set_fresh (V : Type) (l acc : JsObject.t V) :
  NoDup (JsObject.keys (acc ++ l)) ->
  Forall (fun e => JsObject.arrayIndex (fst e) = None) l ->
  fold_left (fun o kv => JsObject.set o (fst kv) (snd kv)) l acc = acc ++ l.
Proof.
  revert acc. induction l as [| [k v] l IH]; intros acc Hnd Hidx;
    cbn [fold_left]; [now rewrite app_nil_r |].
  inversion Hidx as [| e l' Hk Hl]; subst. cbn [fst snd] in *.
  assert (Hget : JsObject.get acc k = None).
  { apply get_None_keys. unfold JsObject.keys in Hnd.
    rewrite map_app in Hnd. cbn in Hnd. apply NoDup_remove_2 in Hnd.
    intro Hin. apply Hnd. apply in_app_iff. now left. }
  unfold JsObject.set at 2. rewrite Hget, Hk.
  replace (acc ++ (k, v) :: l) with ((acc ++ [(k, v)]) ++ l) in *
    by (rewrite <- app_assoc; reflexivity).
  now apply IH.
Qed.

Lemma fromEntries_fresh (V : Type) (l : JsObject.t V) :
  NoDup (JsObject.keys l) ->
  Forall (fun e => JsObject.arrayIndex (fst e) = None) l ->
  JsObject.fromEntries l = l.
Proof.
  intros Hnd Hidx. unfold JsObject.fromEntries, JsObject.empty.
  now rewrite fold_set_fresh.
Qed.

Lemma dayKeyOf_possible (cast : FarcasterMessage) :
  In (dayKeyOf cast) possibleDayKeys.
Proof.
  unfold dayKeyOf, possibleDayKeys. apply in_app_iff.
  destruct (farcasterEpochToDate (timestamp (data cast))) as [tv |]; cbn.
  - left. apply (dayKey_In (WeekDay_range tv)).
  - right. now left.
Qed.

Lemma fold_tallyCast_possible (casts : list FarcasterMessage)
  (acc : Tally * Tally) :
  Forall (fun k => In k possibleDayKeys) (JsObject.keys (snd acc)) ->
  Forall (fun k => In k possibleDayKeys)
         (JsObject.keys (snd (fold_left tallyCast casts acc))).
Proof.
  revert acc. induction casts as [| cast casts IH]; intros acc H;
    cbn [fold_left]; [exact H |].
  apply IH. unfold tallyCast.
  destruct (type (data cast) =? "MESSAGE_TYPE_CAST_ADD")%string;
    cbn [snd]; [| exact H].
  apply Forall_forall. intros k Hk. unfold bump in Hk.
  apply keys_set_In in Hk. destruct Hk as [-> | Hk].
  - apply dayKeyOf_possible.
  - revert k Hk. now apply Forall_forall.
Qed.

Lemma dayLabel_NoDup (keys : list string) :
  NoDup keys -> Forall (fun k => In k possibleDayKeys) keys ->
  NoDup (map dayLabel keys).
Proof.
  intros Hnd Hin. apply NoDup_map_NoDup_ForallPairs; [| exact Hnd].
  intros a b Ha Hb.
  apply (proj1 (Forall_forall _ _) Hin) in Ha.
  apply (proj1 (Forall_forall _ _) Hin) in Hb.
  revert Ha Hb. vm_compute.
  intros Ha Hb;
    repeat (destruct Ha as [<- | Ha]; [| try contradiction]);
    repeat (destruct Hb as [<- | Hb]; [| try contradiction]);
    intro H; try reflexivity; discriminate H.
Qed.

End Formatting.

Lemma formatted_bucketize (casts : list CastTiming.FarcasterMessage) :
  CastTiming.formatHourly (fst (CastTiming.bucketize casts)) =
    map (fun e => (Buckets.hourLabel (fst e), snd e))
        (fst (CastTiming.bucketize casts))
  /\ CastTiming.formatDaily (snd (CastTiming.bucketize casts)) =
       map (fun e => (Buckets.dayLabel (fst e), snd e))
           (snd (CastTiming.bucketize casts)).
Proof.
  assert (N : NoDup (@JsObject.keys CastTiming.Activity JsObject.empty))
    by constructor.
  destruct (@fold_tallyCast_NoDup casts (JsObject.empty, JsObject.empty) N N)
    as [N1 N2].
  fold (CastTiming.bucketize casts) in N1, N2.
  split.
  - unfold CastTiming.formatHourly, JsObject.entries.
    apply fromEntries_fresh.
    + unfold JsObject.keys in *. rewrite map_map. cbn [fst].
      rewrite <- (map_map fst Buckets.hourLabel).
      apply NoDup_map_NoDup_ForallPairs; [| exact N1].
      intros a b _ _. apply hourLabel_inj.
    + apply Forall_map, Forall_forall. intros e _. cbn [fst].
      apply (arrayIndex_nondigit (fst e) ("00-" +++ fst e +++ ":59 UTC") ":").
      reflexivity.
  - unfold CastTiming.formatDaily, JsObject.entries.
    apply fromEntries_fresh.
    + unfold JsObject.keys in *. rewrite map_map. cbn [fst].
      rewrite <- (map_map fst Buckets.dayLabel).
      apply dayLabel_NoDup; [exact N2 |].
      apply (@fold_tallyCast_possible casts (JsObject.empty, JsObject.empty)).
      constructor.
    + apply Forall_map, Forall_forall. intros e _. cbn [fst].
      apply (arrayIndex_nondigit
               (Js.show (CastTiming.dayName (fst e))) "(UTC)" " ").
      reflexivity.
Qed.

(** X7.  The formatted tallies of the report list the buckets of the raw
    tallies, in the same order and with the same counts, under their
    labels: no bucket is lost and no two buckets fall under one label. *)
Theorem formatted_tallies_keep_buckets
  (casts : list CastTiming.FarcasterMessage) :
  CastTiming.formatHourly (fst (CastTiming.bucketize casts)) =
    map (fun e => (Buckets.hourLabel (fst e), snd e))
        (fst (CastTiming.bucketize casts))
  /\ CastTiming.formatDaily (snd (CastTiming.bucketize casts)) =
       map (fun e => (Buckets.dayLabel (fst e), snd e))
           (snd (CastTiming.bucketize casts)).
Proof.
  exact (formatted_bucketize casts).
Qed.

(** ** What the analysis reports *)

Section Analysis.

Import CastTiming Reference Buckets.

Lemma maxCount_attained (tally : Tally) :
  tally <> [] ->
  exists e, In e tally /\ cast_count (snd e) = maxCount tally.
Proof.
  induction tally as [| e tally IH]; [congruence |]. intros _.
  change (maxCount (e :: tally))
    with (Nat.max (cast_count (snd e)) (maxCount tally)).
  destruct (Nat.max_spec (cast_count (snd e)) (maxCount tally))
    as [[Hlt ->] | [Hge ->]].
  - destruct tally as [| e' tally]; [cbn in Hlt; lia |].
    destruct IH as [x [Hx Hc]]; [discriminate |].
    exists x. split; [now right | exact Hc].
  - exists e. split; [now left | reflexivity].
Qed.

Lemma labelsAt_nonempty (L : Type) (label : string -> L) (tally : Tally) :
  tally <> [] -> labelsAt label (maxCount tally) tally <> [].
Proof.
  intro H. destruct (maxCount_attained H) as [e [He Hc]]. intro Hnil.
  assert (Hin : In (label (fst e)) (labelsAt label (maxCount tally) tally)).
  { unfold labelsAt. apply (in_map (fun e => label (fst e))).
    apply filter_In. split; [exact He | now apply Nat.eqb_eq]. }
  rewrite Hnil in Hin. exact Hin.
Qed.

Lemma total_nil_iff (tally : Tally) :
  Forall (fun e => 0 < cast_count (snd e)) tally ->
  total tally = 0 -> tally = [].
Proof.
  intros Hpos H. destruct tally as [| e tally]; [reflexivity |].
  inversion Hpos; subst. unfold total in H. cbn in H. lia.
Qed.

(** Without a message of type cast-add both tallies stay empty. *)
Lemma fold_tallyCast_none (casts : list FarcasterMessage) (acc : Tally * Tally) :
  existsb hasCastAddType casts = false -> fold_left tallyCast casts acc = acc.
Proof.
  revert acc. induction casts as [| cast casts IH]; intros acc H;
    cbn [fold_left]; [reflexivity |].
  cbn [existsb] in H. apply orb_false_elim in H. destruct H as [Hc Hr].
  unfold tallyCast at 2. unfold hasCastAddType in Hc. rewrite Hc.
  now apply IH.
Qed.

Lemma bucketize_none (casts : list FarcasterMessage) :
  existsb hasCastAddType casts = false -> bucketize casts = ([], []).
Proof.
  intro H. unfold bucketize. now rewrite fold_tallyCast_none.
Qed.

(** With one at least, neither is. *)
Lemma bucketize_some (casts : list FarcasterMessage) :
  existsb hasCastAddType casts = true ->
  fst (bucketize casts) <> [] /\ snd (bucketize casts) <> [].
Proof.
  intro H.
  destruct (fold_tallyCast_total casts (JsObject.empty, JsObject.empty))
    as [T1 T2].
  fold (bucketize casts) in T1, T2.
  assert (Hn : 0 < List.length (filter hasCastAddType casts)).
  { apply existsb_exists in H. destruct H as [c [Hin Hc]].
    assert (Hf : In c (filter hasCastAddType casts))
      by (apply filter_In; now split).
    destruct (filter hasCastAddType casts); [contradiction | cbn; lia]. }
  split; intro E; rewrite E in *; cbn in *; lia.
Qed.

Lemma labelsAt_Forall (L : Type) (label : string -> L) (P : L -> Prop)
  (m : nat) (tally : Tally) :
  Forall (fun key => P (label key)) (JsObject.keys tally) ->
  Forall P (labelsAt label m tally).
Proof.
  intro H. unfold labelsAt. apply Forall_forall. intros x Hx.
  apply in_map_iff in Hx. destruct Hx as [e [<- He]].
  apply filter_In in He. destruct He as [He _].
  apply (proj1 (Forall_forall _ _) H). unfold JsObject.keys.
  now apply in_map.
Qed.

Lemma dayKeys_dayName (key : string) :
  In key dayKeys -> In (dayName key) dayPeaks.
Proof.
  intro H. vm_compute in H.
  repeat (destruct H as [<- | H]; [vm_compute; tauto |]).
  contradiction.
Qed.

(** Where every date is valid, the peaks name hours and days. *)
Lemma peaks_well_formed (casts : list FarcasterMessage) (m m' : nat) :
  validDates casts ->
  Forall (fun h => In h hourPeaks)
    (map (fun h => h +++ ":00 UTC")
       (labelsAt (fun h => h) m (fst (bucketize casts))))
  /\ Forall (fun d => In d dayPeaks)
       (labelsAt dayName m' (snd (bucketize casts))).
Proof.
  intro Hv.
  destruct (@fold_tallyCast_keys casts (JsObject.empty, JsObject.empty) Hv
              (Forall_nil _) (Forall_nil _)) as [K1 K2].
  fold (bucketize casts) in K1, K2. split.
  - apply Forall_map. apply labelsAt_Forall.
    apply Forall_forall. intros key Hkey. unfold hourPeaks.
    apply (in_map (fun h => h +++ ":00 UTC")).
    revert key Hkey. now apply Forall_forall.
  - apply labelsAt_Forall. apply Forall_forall. intros key Hkey.
    apply dayKeys_dayName. revert key Hkey. now apply Forall_forall.
Qed.

Lemma prefix_append_l (n a b : string) :
  String.prefix n a = true -> String.prefix n (a +++ b) = true.
Proof.
  revert a. induction n as [| c n IH]; intros a H.
  - destruct (a +++ b); reflexivity.
  - destruct a as [| c' a]; [discriminate H |]. cbn in *.
    destruct (ascii_dec c c'); [now apply IH | discriminate H].
Qed.

Lemma includes_append_l (a b n : string) :
  Js.includes a n = true -> Js.includes (a +++ b) n = true.
Proof.
  induction a as [| c a IH]; cbn [Js.includes String.append].
  - rewrite orb_false_r. intro H. destruct n; [| discriminate H].
    destruct b; reflexivity.
  - intro H. apply orb_true_iff in H. destruct H as [H | H].
    + change (String c (a +++ b)) with (String c a +++ b).
      rewrite (prefix_append_l _ _ b H). reflexivity.
    + rewrite (IH H). apply orb_true_r.
Qed.

End Analysis.

(** X8.  Of casts none of which has the type cast-add, the analysis says
    that no peak could be determined: its peaks and its tallies are empty.
    As soon as one cast has that type, its summary says when the user most
    frequently posts, and neither list of peaks is empty: the peak hours
    are the hour buckets with the greatest count and no others, each
    followed by [:00 UTC], and the peak days are what [daysOfWeek] holds for
    the day buckets with the greatest count.  When [Date] can hold the
    instant of every cast-add message, each peak hour is one of [00:00 UTC]
    to [23:00 UTC] and each peak day is the name of a day of the week;
    beyond that range a peak can be [NaN:00 UTC] or an undefined day. *)
Theorem analysis_reports_peaks (casts : list CastTiming.FarcasterMessage) :
  (casts <> [] -> existsb Reference.hasCastAddType casts = false ->
   CastTiming.analyzeOptimalPostingTimesUTC casts =
     CastTiming.Report
       ((("Based on " +++ Js.natToString (List.length casts) +++
          " of their recent casts (up to 500 analyzed), times reported in UTC: ")
         +++ "Could not determine clear peak posting times from the available cast data.")
        +++ CastTiming.summaryNote)
       "UTC" [] [] [] [] (List.length casts))
  /\ (existsb Reference.hasCastAddType casts = true ->
      exists summary hours days hourly daily,
        CastTiming.analyzeOptimalPostingTimesUTC casts =
          CastTiming.Report summary "UTC" hours days hourly daily
            (List.length casts)
        /\ hours <> [] /\ days <> []
        /\ Js.includes summary "This user most frequently posts on " = true
        /\ hours =
             map (fun key => key +++ ":00 UTC")
               (Reference.labelsAt (fun key => key)
                  (Reference.maxCount (fst (CastTiming.bucketize casts)))
                  (fst (CastTiming.bucketize casts)))
        /\ days =
             Reference.labelsAt CastTiming.dayName
               (Reference.maxCount (snd (CastTiming.bucketize casts)))
               (snd (CastTiming.bucketize casts))
        /\ (Buckets.validDates casts ->
            Forall (fun h => In h Buckets.hourPeaks) hours
            /\ Forall (fun d => In d Buckets.dayPeaks) days)).
Proof.
  split.
  - intros Hne Hnone. unfold CastTiming.analyzeOptimalPostingTimesUTC.
    destruct casts as [| c casts]; [congruence |].
    cbn [List.length Nat.eqb].
    rewrite (bucketize_none _ Hnone). reflexivity.
  - intro Hsome. unfold CastTiming.analyzeOptimalPostingTimesUTC.
    destruct (bucketize_some _ Hsome) as [Hh Hd].
    destruct casts as [| c casts]; [discriminate Hsome |].
    remember (c :: casts) as cs eqn:Hcs.
    replace (List.length cs =? 0) with false by (subst cs; reflexivity).
    pose proof (@peaks_well_formed cs
                  (Reference.maxCount (fst (CastTiming.bucketize cs)))
                  (Reference.maxCount (snd (CastTiming.bucketize cs))))
      as Hwf.
    destruct (CastTiming.bucketize cs) as [hourly daily]. cbn [fst snd] in *.
    rewrite !findPeaks_spec.
    pose proof (labelsAt_nonempty (fun h : string => h) Hh) as Ph.
    pose proof (labelsAt_nonempty CastTiming.dayName Hd) as Pd.
    destruct (Reference.labelsAt (fun h : string => h)
                (Reference.maxCount hourly) hourly) as [| h hs] eqn:Eh;
      [congruence |].
    destruct (Reference.labelsAt CastTiming.dayName
                (Reference.maxCount daily) daily) as [| d ds] eqn:Ed;
      [congruence |].
    cbn [List.length Nat.ltb Nat.leb andb].
    eexists _, _, _, _, _. split; [reflexivity |].
    split; [discriminate |]. split; [discriminate |].
    split; [| split; [reflexivity | split; [reflexivity |]]].
    + apply includes_append_l, includes_append_r.
      apply includes_prefix, prefix_append.
    + intro Hv. exact (Hwf Hv).
Qed.

Lemma analysis_reports_peaks_witness :
  exists summary hours days hourly daily,
    CastTiming.analyzeOptimalPostingTimesUTC
      [Examples.castAt 0; Examples.castRemove; Examples.castAt 277207;
       Examples.castAt 60] =
      CastTiming.Report summary "UTC" hours days hourly daily 4
    /\ hours = ["00:00 UTC"]
    /\ days = [Some "Friday"].
Proof.
  destruct (proj2 (analysis_reports_peaks
                     [Examples.castAt 0; Examples.castRemove;
                      Examples.castAt 277207; Examples.castAt 60]) eq_refl)
    as [summary [hours [days [hourly [daily [H _]]]]]].
  exists summary, hours, days, hourly, daily.
  split; [exact H |]. vm_compute in H. injection H as _ <- <- _ _.
  split; reflexivity.
Defined.

(** ** The capability of the cast-timing analyst *)

Section CastTimingRun.

Import Http CastTiming Reference.

Lemma isCastAdd_hasCastAddType (casts : list FarcasterMessage) :
  Forall (fun m => isCastAdd m = true) casts ->
  forallb hasCastAddType casts = true.
Proof.
  intro H. apply forallb_forall. intros m Hm.
  apply (proj1 (Forall_forall _ _) H) in Hm. unfold isCastAdd in Hm.
  apply andb_prop in Hm. exact (proj1 Hm).
Qed.

Lemma forallb_filter_id (A : Type) (f : A -> bool) (l : list A) :
  forallb f l = true -> filter f l = l.
Proof.
  induction l as [| x l IH]; cbn; [reflexivity |].
  intro H. apply andb_prop in H. destruct H as [Hx Hl].
  rewrite Hx. f_equal. now apply IH.
Qed.

Lemma total_relabel (label : string -> string) (tally : Tally) :
  total (map (fun e => (label (fst e), snd e)) tally) = total tally.
Proof.
  unfold total. rewrite map_map. reflexivity.
Qed.

(** The error of a fetch is truthy exactly when it is there: the message
    starts with the name of the API. *)
Lemma fetchLoop_error script maxItems pageSize fid allCasts token r :
  fetchLoop maxItems pageSize fid script allCasts token = Some r ->
  Js.truthy (error r) = match error r with Some _ => true | None => false end.
Proof.
  revert allCasts token r.
  induction script as [| answer script IH]; intros allCasts token r;
    cbn [fetchLoop]; [discriminate |].
  destruct answer as [response | err].
  - destruct (maxItems <=? List.length (allCasts ++ castAddMessages response));
      [intro H; injection H as <-; reflexivity |].
    destruct (Js.truthy (nextPageToken response));
      [| intro H; injection H as <-; reflexivity].
    intro H. apply logged_Some in H. destruct H as [r' [H [_ [He _]]]].
    rewrite He. apply (IH _ _ _ H).
  - intro H. injection H as <-. reflexivity.
Qed.

(** The casts returned are among those of the pages served. *)
Lemma fetchLoop_validDates maxItems pageSize fid script allCasts token r :
  Buckets.validPages script -> Buckets.validDates allCasts ->
  fetchLoop maxItems pageSize fid script allCasts token = Some r ->
  Buckets.validDates (casts r).
Proof.
  revert allCasts token r.
  induction script as [| answer script IH]; intros allCasts token r Hs Hacc;
    cbn [fetchLoop]; [discriminate |].
  assert (Hs' : Buckets.validPages script)
    by (intros page Hpage; apply Hs; now right).
  destruct answer as [response | err].
  - assert (Hall : Buckets.validDates (allCasts ++ castAddMessages response)).
    { intros cast Hin. apply in_app_or in Hin. destruct Hin as [Hin | Hin].
      - now apply Hacc.
      - apply (Hs response); [now left | exact Hin]. }
    destruct (maxItems <=? List.length (allCasts ++ castAddMessages response)).
    + intro H. injection H as <-. cbn [casts].
      intros cast Hin. apply Hall.
      revert cast Hin. apply Forall_forall, firstn_Forall.
      apply Forall_forall. auto.
    + destruct (Js.truthy (nextPageToken response)).
      * intro H. apply logged_Some in H.
        destruct H as [r' [H [Hc _]]]. rewrite Hc.
        exact (IH _ _ _ Hs' Hall H).
      * intro H. injection H as <-. exact Hall.
  - intro H. injection H as <-. exact Hacc.
Qed.

(** What an analysis of collected casts holds. *)
Lemma analysis_of_collected (casts : list FarcasterMessage) :
  casts <> [] -> Forall (fun m => isCastAdd m = true) casts ->
  exists summary hours days hourly daily,
    analyzeOptimalPostingTimesUTC casts =
      Report summary "UTC" hours days hourly daily (List.length casts)
    /\ hours <> [] /\ days <> []
    /\ total hourly = List.length casts
    /\ total daily = List.length casts
    /\ (Buckets.validDates casts ->
        Forall (fun h => In h Buckets.hourPeaks) hours
        /\ Forall (fun d => In d Buckets.dayPeaks) days).
Proof.
  intros Hne Hall.
  pose proof (isCastAdd_hasCastAddType Hall) as Hforall.
  assert (Hsome : existsb hasCastAddType casts = true).
  { destruct casts as [| c casts]; [congruence |]. cbn in Hforall |- *.
    apply andb_prop in Hforall. now rewrite (proj1 Hforall). }
  destruct (bucketize_some _ Hsome) as [Hh Hd].
  destruct (fold_tallyCast_total casts (JsObject.empty, JsObject.empty))
    as [T1 T2].
  fold (bucketize casts) in T1, T2.
  rewrite (forallb_filter_id _ _ Hforall) in T1, T2. cbn in T1, T2.
  destruct (formatted_bucketize casts) as [F1 F2].
  unfold analyzeOptimalPostingTimesUTC.
  destruct casts as [| c casts]; [congruence |].
  remember (c :: casts) as cs eqn:Hcs.
  replace (List.length cs =? 0) with false by (subst cs; reflexivity).
  pose proof (@peaks_well_formed cs (maxCount (fst (bucketize cs)))
                (maxCount (snd (bucketize cs)))) as Hwf.
  destruct (bucketize cs) as [hourly daily]. cbn [fst snd] in *.
  rewrite !findPeaks_spec.
  pose proof (labelsAt_nonempty (fun h : string => h) Hh) as Ph.
  pose proof (labelsAt_nonempty dayName Hd) as Pd.
  destruct (labelsAt (fun h : string => h) (maxCount hourly) hourly)
    as [| h hs]; [congruence |].
  destruct (labelsAt dayName (maxCount daily) daily) as [| d ds];
    [congruence |].
  eexists _, _, _, _, _. split; [reflexivity |].
  split; [discriminate |]. split; [discriminate |].
  rewrite F1, F2, !total_relabel.
  split; [assumption |]. split; [assumption |].
  intro Hv. exact (Hwf Hv).
Qed.

End CastTimingRun.

(** X9.  When a request for casts fails, the capability reports the
    failure and nothing else: whatever the pages before the failure
    brought, no analysis of it is made. *)
Theorem run_reports_failure_without_analysis fid pages err rest :
  Forall (fun p => Js.truthy (CastTiming.nextPageToken p) = true) pages ->
  List.length (List.concat (map CastTiming.castAddMessages pages))
  < CastTiming.MAX_CASTS_TO_FETCH_FOR_POST_TIME_ANALYSIS ->
  CastTimingAgent.run fid
    (map Http.Resolved pages ++ Http.Rejected err :: rest) =
  Some (CastTimingAgent.FetchFailed
          ("Failed to fetch casts: Neynar Hub API error (castsByFid): "
           +++ Http.errorText err)
          fid "UTC").
Proof.
  intros Hpages Hroom.
  destruct (@fetchLoop_stops_at
              CastTiming.MAX_CASTS_TO_FETCH_FOR_POST_TIME_ANALYSIS
              CastTiming.CAST_FETCH_PAGE_SIZE fid pages
              (Http.Rejected err) rest [] None Hpages eq_refl)
    as [r [Hr [_ [He _]]]].
  - cbn [Reference.lastCasts app]. now rewrite app_nil_r.
  - unfold CastTimingAgent.run, CastTiming.fetchAllUserCasts,
      CastTiming.collect.
    rewrite Hr, He. reflexivity.
Qed.

Lemma run_reports_failure_without_analysis_witness :
  CastTimingAgent.run "942471"
    (map Http.Resolved
       [{| CastTiming.messages := Some [Examples.castAt 0; Examples.castAt 60];
           CastTiming.nextPageToken := Some "next" |}]
     ++ Http.Rejected
          {| Http.response_data_error_message := None;
             Http.response_data_message := Some "Too many requests";
             Http.message := "Request failed with status code 429" |}
        :: []) =
  Some (CastTimingAgent.FetchFailed
          "Failed to fetch casts: Neynar Hub API error (castsByFid): Too many requests"
          "942471" "UTC").
Proof.
  apply (@run_reports_failure_without_analysis "942471"
           [{| CastTiming.messages :=
                 Some [Examples.castAt 0; Examples.castAt 60];
               CastTiming.nextPageToken := Some "next" |}]).
  - repeat constructor.
  - vm_compute. repeat constructor.
Defined.

(** X10.  When the capability answers with an analysis, the analysis is for
    the requested FID and of between 1 and 500 casts, all of them cast-add
    messages: neither list of peaks is empty, and the counts of its hourly
    table and of its daily table each add up to the number of casts
    analyzed.  When [Date] can hold the instant of every cast-add message
    the hub served, each peak hour is one of [00:00 UTC] to [23:00 UTC] and
    each peak day is the name of a day of the week; beyond that range a
    peak can be [NaN:00 UTC] or an undefined day. *)
Theorem run_analysis_is_consistent fid script target analysis :
  CastTimingAgent.run fid script =
    Some (CastTimingAgent.Analyzed target analysis) ->
  target = fid
  /\ exists summary hours days hourly daily n,
       analysis = CastTiming.Report summary "UTC" hours days hourly daily n
       /\ 1 <= n <= CastTiming.MAX_CASTS_TO_FETCH_FOR_POST_TIME_ANALYSIS
       /\ hours <> [] /\ days <> []
       /\ Reference.total hourly = n
       /\ Reference.total daily = n
       /\ (Buckets.validPages script ->
           Forall (fun h => In h Buckets.hourPeaks) hours
           /\ Forall (fun d => In d Buckets.dayPeaks) days).
Proof.
  unfold CastTimingAgent.run, CastTiming.fetchAllUserCasts, CastTiming.collect.
  destruct (CastTiming.fetchLoop _ _ fid script [] None) as [r |] eqn:Hr;
    [| discriminate].
  destruct (Js.truthy (CastTiming.error r)); [discriminate |].
  destruct (List.length (CastTiming.casts r) =? 0) eqn:Hlen; [discriminate |].
  intro H. injection H as <- <-. split; [reflexivity |].
  apply Nat.eqb_neq in Hlen.
  pose proof (@fetchLoop_bounded _ _ _ _ [] _ _ (Nat.le_0_l _) Hr) as Hmax.
  pose proof (@fetchLoop_casts _ _ _ _ [] _ _ (Nat.le_0_l _) Hr) as Hc.
  cbn [app] in Hc.
  assert (Hall : Forall (fun m => CastTiming.isCastAdd m = true)
                   (CastTiming.casts r)).
  { rewrite Hc. apply firstn_Forall, lastCasts_all_castAdd. }
  assert (Hne : CastTiming.casts r <> []).
  { intro E. rewrite E in Hlen. now apply Hlen. }
  destruct (analysis_of_collected Hne Hall)
    as [summary [hours [days [hourly [daily [Ha [Hh [Hd [T1 [T2 Hwf]]]]]]]]]].
  exists summary, hours, days, hourly, daily, (List.length (CastTiming.casts r)).
  split; [exact Ha |]. split; [lia |].
  split; [exact Hh |]. split; [exact Hd |].
  split; [exact T1 |]. split; [exact T2 |].
  intro Hv. apply Hwf.
  refine (@fetchLoop_validDates _ _ _ _ [] None r Hv _ Hr).
  intros cast Hin. destruct Hin.
Qed.

Lemma run_analysis_is_consistent_witness :
  exists analysis,
    CastTimingAgent.run "942471"
      [Examples.castsPage
         [Examples.castAt 0; Examples.castRemove; Examples.castAt 277207]
         None]
    = Some (CastTimingAgent.Analyzed "942471" analysis)
    /\ exists summary hours days hourly daily,
         analysis = CastTiming.Report summary "UTC" hours days hourly daily 2
         /\ Reference.total hourly = 2 /\ Reference.total daily = 2
         /\ Forall (fun h => In h Buckets.hourPeaks) hours
         /\ Forall (fun d => In d Buckets.dayPeaks) days.
Proof.
  eexists. split; [reflexivity |].
  destruct (@run_analysis_is_consistent "942471"
              [Examples.castsPage
                 [Examples.castAt 0; Examples.castRemove;
                  Examples.castAt 277207] None] _ _ eq_refl)
    as [_ [summary [hours [days [hourly [daily
          [n [Ha [_ [_ [_ [T1 [T2 Hwf]]]]]]]]]]]]].
  exists summary, hours, days, hourly, daily.
  assert (En : n = 2) by (vm_compute in Ha; now injection Ha).
  rewrite En in Ha, T1, T2. split; [exact Ha |].
  split; [exact T1 |]. split; [exact T2 |].
  apply Hwf. intros page [Hpage | []] cast Hin _.
  injection Hpage as <-.
  destruct Hin as [<- | [<- | []]]; unfold Reference.representable;
    vm_compute; discriminate.
Defined.

(** ** The hydration of the follower profiles *)

Section Hydration.

Import Http FollowerAnalyst FollowerAgent Reference.

Lemma append_assoc (a b c : string) : (a +++ b) +++ c = a +++ b +++ c.
Proof.
  induction a as [| x a IH]; cbn; [reflexivity | now rewrite IH].
Qed.

Lemma append_nil_r (a : string) : a +++ "" = a.
Proof.
  induction a as [| x a IH]; cbn; [reflexivity | now rewrite IH].
Qed.

Lemma orElse_empty (a : option string) :
  Js.orElse a "" = match a with Some s => s | None => "" end.
Proof.
  destruct a as [s |]; cbn; [| reflexivity].
  destruct (String.eqb_spec s ""); congruence.
Qed.

Lemma truthy_append_nonempty (a : string) (c : ascii) (b : string) :
  Js.truthy (Some (a +++ String c b)) = true.
Proof.
  destruct a; reflexivity.
Qed.

Lemma ceilDiv_step (n c : nat) :
  0 < c -> 0 < n -> ceilDiv n c = S (ceilDiv (n - c) c).
Proof.
  intros Hc Hn. unfold ceilDiv.
  destruct (Nat.le_gt_cases n c) as [Hle | Hgt].
  - replace (n - c) with 0 by lia. cbn [Nat.add].
    rewrite (Nat.div_small (c - 1) c) by lia.
    symmetry. apply Nat.div_unique with (r := n - 1); lia.
  - replace (n + c - 1) with ((n - c + c - 1) + 1 * c) by lia.
    rewrite Nat.div_add by lia. lia.
Qed.

Lemma chunks_spec (chunkSize : nat) (fuel : nat) (l : list Z) :
  0 < chunkSize -> List.length l <= fuel ->
  List.concat (chunks fuel chunkSize l) = l
  /\ Forall (fun c => 0 < List.length c <= chunkSize) (chunks fuel chunkSize l)
  /\ List.length (chunks fuel chunkSize l) = ceilDiv (List.length l) chunkSize.
Proof.
  intro Hc. revert l. induction fuel as [| fuel IH]; intros l Hl.
  - destruct l; [| cbn in Hl; lia]. cbn. repeat split; [constructor |].
    unfold ceilDiv. cbn. symmetry. apply Nat.div_small. lia.
  - destruct l as [| x l].
    + cbn. repeat split; [constructor |].
      unfold ceilDiv. cbn. symmetry. apply Nat.div_small. lia.
    + cbn [chunks]. remember (x :: l) as xs eqn:Hxs.
      assert (Hlen : 0 < List.length xs) by (subst xs; cbn; lia).
      destruct (IH (skipn chunkSize xs)) as [H1 [H2 H3]].
      { rewrite length_skipn. subst xs. cbn [List.length] in *. lia. }
      cbn [List.concat List.length]. rewrite H1, H3, length_skipn.
      split; [apply firstn_skipn |]. split.
      * constructor; [| exact H2]. rewrite length_firstn. lia.
      * symmetry. now apply ceilDiv_step.
Qed.

(** The errors of the chunks, as the loop accumulates them. *)
Lemma accumulated_errors (msgs : list string) (acc : option string) :
  fold_left (fun a m => Some (Js.orElse a "" +++ m)) msgs acc =
  match msgs with
  | [] => acc
  | _ => Some (match acc with Some s => s | None => "" end
               +++ String.concat "" msgs)
  end.
Proof.
  revert acc. induction msgs as [| m msgs IH]; intro acc; [reflexivity |].
  cbn [fold_left]. rewrite IH, orElse_empty.
  destruct msgs as [| m' msgs]; [reflexivity |].
  cbn [String.concat]. now rewrite append_assoc.
Qed.

Lemma hydrateLoop_run (chunkSize : nat) (all : list Z) :
  0 < chunkSize ->
  forall fuel i script profiles err made,
    List.length all - i <= fuel ->
    List.length (chunks fuel chunkSize (skipn i all)) <= List.length script ->
    hydrateLoop fuel chunkSize all i script profiles err made =
    Some {| followerProfilesToAnalyze :=
              profiles ++
              List.concat
                (map bulkUsersOf
                   (firstn (List.length (chunks fuel chunkSize (skipn i all)))
                      script));
            bulkFetchError :=
              fold_left (fun a m => Some (Js.orElse a "" +++ m))
                (chunkErrors (i / chunkSize + 1)
                   (firstn (List.length (chunks fuel chunkSize (skipn i all)))
                      script))
                err;
            requests := made ++ chunks fuel chunkSize (skipn i all) |}.
Proof.
  intros Hc fuel. induction fuel as [| fuel IH];
    intros i script profiles err made Hfuel Hscript; cbn [hydrateLoop].
  - destruct (Nat.ltb_spec i (List.length all)); [lia |].
    cbn. now rewrite !app_nil_r.
  - destruct (Nat.ltb_spec i (List.length all)) as [Hlt | Hge].
    + assert (Hrest : skipn i all <> []).
      { intro E. apply (f_equal (@List.length Z)) in E.
        rewrite length_skipn in E. cbn in E. lia. }
      cbn [chunks] in *. destruct (skipn i all) as [| x rest] eqn:Hskip;
        [congruence |].
      rewrite <- Hskip in *. clear Hrest.
      assert (Hchunk : 0 < List.length (firstn chunkSize (skipn i all))).
      { rewrite length_firstn, Hskip. cbn. lia. }
      destruct (Nat.ltb_spec 0 (List.length (firstn chunkSize (skipn i all))));
        [| lia].
      unfold fetchBulkUsers.
      destruct (Nat.eqb_spec (List.length (firstn chunkSize (skipn i all))) 0);
        [lia |].
      cbn [List.length] in Hscript.
      destruct script as [| answer script]; [cbn in Hscript; lia |].
      rewrite skipn_skipn in *. rewrite (Nat.add_comm chunkSize i) in *.
      assert (Hdiv : (i + chunkSize) / chunkSize + 1 = S (i / chunkSize + 1)).
      { replace (i + chunkSize) with (i + 1 * chunkSize) by lia.
        rewrite Nat.div_add by lia. lia. }
      cbn [List.length firstn map List.concat] in *.
      destruct answer as [body | e].
      * cbn [users error Js.truthy]. rewrite IH; [| lia | lia].
        rewrite Hdiv. cbn [chunkErrors bulkUsersOf].
        destruct (bulk_users body) as [us |];
          rewrite <- ?app_assoc; cbn [app]; reflexivity.
      * cbn [users error].
        change (Js.truthy
                  (Some ("Neynar API error (bulk users): " +++ errorText e)))
          with true. cbv iota.
        rewrite IH; [| lia | lia]. rewrite Hdiv.
        cbn [chunkErrors bulkUsersOf fold_left Js.show app].
        rewrite <- !app_assoc. cbn [app].
        rewrite !append_assoc. reflexivity.
    + assert (E : skipn i all = []) by (apply skipn_all2; lia).
      rewrite E. cbn. now rewrite !app_nil_r.
Qed.

End Hydration.

Section HydrationFacts.

Import Http FollowerAnalyst FollowerAgent Reference.

Lemma hydrate_run (chunkSize : nat) (fids : list Z)
  (script : list (Axios BulkBody)) :
  0 < chunkSize ->
  ceilDiv (List.length fids) chunkSize <= List.length script ->
  hydrate chunkSize fids script =
  Some {| followerProfilesToAnalyze :=
            List.concat
              (map bulkUsersOf
                 (firstn (ceilDiv (List.length fids) chunkSize) script));
          bulkFetchError :=
            match chunkErrors 1
                    (firstn (ceilDiv (List.length fids) chunkSize) script) with
            | [] => None
            | msgs => Some (String.concat "" msgs)
            end;
          requests := chunks (List.length fids) chunkSize fids |}.
Proof.
  intros Hc Hscript. unfold hydrate.
  destruct (@chunks_spec chunkSize (List.length fids) fids Hc (Nat.le_refl _))
    as [_ [_ Hlen]].
  rewrite (@hydrateLoop_run chunkSize fids Hc); cbn [skipn]; rewrite ?Hlen;
    [| lia | exact Hscript].
  rewrite accumulated_errors. rewrite (Nat.div_small 0 chunkSize Hc).
  cbn [Nat.add app].
  destruct (chunkErrors 1 _); reflexivity.
Qed.

Lemma chunkErrors_resolved (n : nat) (answers : list (Axios BulkBody)) :
  chunkErrors n answers = [] <->
  Forall (fun a => match a with Resolved _ => True | Rejected _ => False end)
         answers.
Proof.
  revert n. induction answers as [| a answers IH]; intro n; cbn.
  - split; [constructor | reflexivity].
  - destruct a as [body | err].
    + rewrite IH. split; [now constructor | now inversion 1].
    + split; [discriminate | inversion 1; contradiction].
Qed.

(** An accumulated error is never the empty string. *)
Lemma hydrateLoop_error fuel chunkSize all i script profiles err made h :
  Js.truthy err = match err with Some _ => true | None => false end ->
  hydrateLoop fuel chunkSize all i script profiles err made = Some h ->
  Js.truthy (bulkFetchError h) =
  match bulkFetchError h with Some _ => true | None => false end.
Proof.
  revert i script profiles err made.
  induction fuel as [| fuel IH]; intros i script profiles err made Herr;
    cbn [hydrateLoop]; destruct (i <? List.length all);
    try discriminate; try (intro H; injection H as <-; exact Herr).
  destruct (0 <? List.length (firstn chunkSize (skipn i all)));
    [| now apply IH].
  unfold fetchBulkUsers.
  destruct (List.length (firstn chunkSize (skipn i all)) =? 0).
  - cbn [error Js.truthy]. now apply IH.
  - destruct script as [| [body | e] script]; [discriminate | |].
    + cbn [error Js.truthy]. now apply IH.
    + cbn [error].
      change (Js.truthy
                (Some ("Neynar API error (bulk users): " +++ errorText e)))
        with true. cbv iota. apply IH.
      rewrite orElse_empty. destruct err as [s |]; [| reflexivity].
      apply (truthy_append_nonempty s "C"%char).
Qed.

Lemma followerLoop_error maxItems batchSize fid script fids count cur c :
  followerLoop maxItems batchSize fid script fids count cur = Some c ->
  Js.truthy (fetchError c) =
  match fetchError c with Some _ => true | None => false end.
Proof.
  revert fids count cur c.
  induction script as [| answer script IH]; intros fids count cur c;
    cbn [followerLoop]; cbv zeta;
    (destruct (count <? maxItems);
     [| intro H; injection H as <-; reflexivity]);
    (destruct (Nat.min batchSize (maxItems - count) <=? 0);
     [intro H; injection H as <-; reflexivity |]);
    [discriminate |].
  rewrite fetchUserFollowers_error.
  destruct answer as [body | err];
    [| intro H; injection H as <-; reflexivity].
  destruct (fetchUserFollowers_page body) as [-> ->].
  destruct (Js.truthy (cursorOf body)); cbn [negb];
    [| intro H; injection H as <-; reflexivity].
  destruct (maxItems <=? count + List.length (followersOf body));
    [intro H; injection H as <-; reflexivity |].
  intro H. apply logged_Some_followers in H.
  destruct H as [c' [H [_ [_ [He _]]]]]. rewrite He. apply (IH _ _ _ _ H).
Qed.

End HydrationFacts.

(** X11.  The hydration asks for every collected FID once: its requests are
    the FIDs in order, cut into chunks of [chunkSize] (100) with the last
    one holding what is left, so no request is empty or longer than a
    chunk, and there are [ceil(n / chunkSize)] of them; for no FID it makes
    no request. *)
Theorem hydration_requests_are_chunks (chunkSize : nat) (fids : list Z)
  (script : list (Http.Axios FollowerAgent.BulkBody)) :
  0 < chunkSize ->
  Reference.ceilDiv (List.length fids) chunkSize <= List.length script ->
  exists h,
    FollowerAgent.hydrate chunkSize fids script = Some h
    /\ List.concat (FollowerAgent.requests h) = fids
    /\ Forall (fun r => 0 < List.length r <= chunkSize)
              (FollowerAgent.requests h)
    /\ List.length (FollowerAgent.requests h) =
         Reference.ceilDiv (List.length fids) chunkSize.
Proof.
  intros Hc Hscript. eexists. split; [now apply hydrate_run |].
  cbn [FollowerAgent.requests].
  exact (@chunks_spec chunkSize (List.length fids) fids Hc (Nat.le_refl _)).
Qed.

Lemma hydration_requests_are_chunks_witness :
  exists h,
    FollowerAgent.hydrate 2 [11; 12; 13; 14; 15]%Z
      [Http.Resolved {| FollowerAgent.bulk_users := Some [] |};
       Http.Resolved {| FollowerAgent.bulk_users := None |};
       Http.Resolved {| FollowerAgent.bulk_users := Some [] |}] = Some h
    /\ List.concat (FollowerAgent.requests h) = [11; 12; 13; 14; 15]%Z
    /\ Forall (fun r => 0 < List.length r <= 2) (FollowerAgent.requests h)
    /\ List.length (FollowerAgent.requests h) = 3.
Proof.
  apply (@hydration_requests_are_chunks 2 [11; 12; 13; 14; 15]%Z).
  - apply Nat.lt_0_succ.
  - vm_compute. repeat constructor.
Defined.

(** X12.  A chunk that fails does not stop the hydration: every chunk is
    still requested, the profiles are those of the chunks that succeeded,
    in order, and the error is absent exactly when no chunk failed;
    otherwise it names each failed chunk by its number, with the message of
    its failure, in order. *)
Theorem hydration_survives_failures (chunkSize : nat) (fids : list Z)
  (script : list (Http.Axios FollowerAgent.BulkBody)) :
  0 < chunkSize ->
  Reference.ceilDiv (List.length fids) chunkSize <= List.length script ->
  exists h,
    FollowerAgent.hydrate chunkSize fids script = Some h
    /\ FollowerAgent.followerProfilesToAnalyze h =
         List.concat
           (map FollowerAgent.bulkUsersOf
              (firstn (Reference.ceilDiv (List.length fids) chunkSize) script))
    /\ (FollowerAgent.bulkFetchError h = None <->
        Forall (fun a => match a with
                         | Http.Resolved _ => True
                         | Http.Rejected _ => False
                         end)
               (firstn (Reference.ceilDiv (List.length fids) chunkSize) script))
    /\ (FollowerAgent.bulkFetchError h <> None ->
        FollowerAgent.bulkFetchError h =
          Some (String.concat ""
                  (FollowerAgent.chunkErrors 1
                     (firstn (Reference.ceilDiv (List.length fids) chunkSize)
                        script)))).
Proof.
  intros Hc Hscript. eexists. split; [now apply hydrate_run |].
  cbn [FollowerAgent.followerProfilesToAnalyze FollowerAgent.bulkFetchError].
  split; [reflexivity |].
  rewrite <- (chunkErrors_resolved 1).
  destruct (FollowerAgent.chunkErrors 1 _) as [| m msgs].
  - split; [tauto | congruence].
  - split; [split; discriminate | reflexivity].
Qed.

Lemma hydration_survives_failures_witness :
  exists h,
    FollowerAgent.hydrate 2 [11; 12; 13; 14; 15]%Z
      [Http.Resolved
         {| FollowerAgent.bulk_users :=
              Some [FollowerAnalyst.user (Examples.follower 11)] |};
       Http.Rejected
         {| Http.response_data_error_message := None;
            Http.response_data_message := None;
            Http.message := "timeout" |};
       Http.Resolved
         {| FollowerAgent.bulk_users :=
              Some [FollowerAnalyst.user (Examples.follower 15)] |}] = Some h
    /\ FollowerAgent.followerProfilesToAnalyze h =
         [FollowerAnalyst.user (Examples.follower 11);
          FollowerAnalyst.user (Examples.follower 15)]
    /\ FollowerAgent.bulkFetchError h =
         Some "Chunk 2 error: Neynar API error (bulk users): timeout; ".
Proof.
  destruct (@hydration_survives_failures 2 [11; 12; 13; 14; 15]%Z
              [Http.Resolved
                 {| FollowerAgent.bulk_users :=
                      Some [FollowerAnalyst.user (Examples.follower 11)] |};
               Http.Rejected
                 {| Http.response_data_error_message := None;
                    Http.response_data_message := None;
                    Http.message := "timeout" |};
               Http.Resolved
                 {| FollowerAgent.bulk_users :=
                      Some [FollowerAnalyst.user (Examples.follower 15)] |}]
              (Nat.lt_0_succ 1))
    as [h [Hh [Hp [_ He]]]].
  - vm_compute. repeat constructor.
  - exists h. split; [exact Hh |]. split; [exact Hp |].
    apply He. vm_compute in Hh. injection Hh as <-. discriminate.
Defined.

(** ** The capability of the follower analyst *)

(** X13.  A completed report of [getTrueAudienceProfile] is for the
    requested FID; it carries the error notice exactly when the pagination
    or the hydration reported an error, and the notice is always the same
    sentence; and it analyses no profile at all only when the hydration
    reported an error. *)
Theorem completed_report_flags_errors fid followers bulk report :
  FollowerAgent.run fid followers bulk =
    Some (FollowerAgent.Completed report) ->
  FollowerAgent.target_fid report = fid
  /\ (FollowerAgent.report_error report = None <->
      FollowerAgent.initial_follower_fetch_error report = None
      /\ FollowerAgent.bulk_profile_fetch_error report = None)
  /\ (FollowerAgent.report_error report <> None ->
      FollowerAgent.report_error report =
        Some "There were errors during data fetching. Results might be incomplete.")
  /\ (FollowerAgent.analyzed report = [] ->
      FollowerAgent.bulk_profile_fetch_error report <> None).
Proof.
  unfold FollowerAgent.run, FollowerAnalyst.collectFollowers,
    FollowerAnalyst.collect.
  destruct (FollowerAnalyst.followerLoop _ _ fid followers [] 0 None)
    as [c |] eqn:Hc; [| discriminate].
  destruct (List.length (FollowerAnalyst.dedupe _) =? 0); [discriminate |].
  unfold FollowerAgent.hydrate.
  destruct (FollowerAgent.hydrateLoop _ _ _ 0 bulk [] None [])
    as [h |] eqn:Hh; [| discriminate].
  pose proof (followerLoop_error _ _ _ _ _ _ _ Hc) as Ef.
  pose proof (hydrateLoop_error _ _ _ _ _ _ None _ eq_refl Hh) as Eb.
  destruct ((List.length (FollowerAgent.followerProfilesToAnalyze h) =? 0)
            && negb (Js.truthy (FollowerAgent.bulkFetchError h))) eqn:Hguard;
    [discriminate |].
  intro H. injection H as <-.
  cbn [FollowerAgent.target_fid FollowerAgent.report_error
       FollowerAgent.initial_follower_fetch_error
       FollowerAgent.bulk_profile_fetch_error FollowerAgent.analyzed].
  split; [reflexivity |]. split; [| split].
  - rewrite Ef, Eb.
    destruct (FollowerAnalyst.fetchError c), (FollowerAgent.bulkFetchError h);
      cbn [orb]; split; try discriminate;
      try (intros [H1 H2]; discriminate); auto.
  - destruct (Js.truthy (FollowerAnalyst.fetchError c)
              || Js.truthy (FollowerAgent.bulkFetchError h));
      [reflexivity | intro N; now contradiction N].
  - intro E. rewrite E in Hguard. cbn [List.length Nat.eqb andb] in Hguard.
    rewrite Eb in Hguard.
    destruct (FollowerAgent.bulkFetchError h); [discriminate | discriminate Hguard].
Qed.

Lemma completed_report_flags_errors_witness :
  exists report,
    FollowerAgent.run "942471"
      [Examples.followersPage (Examples.followers 1 3) None]
      [Http.Rejected
         {| Http.response_data_error_message := None;
            Http.response_data_message := None;
            Http.message := "timeout" |}]
    = Some (FollowerAgent.Completed report)
    /\ FollowerAgent.analyzed report = []
    /\ FollowerAgent.report_error report =
         Some "There were errors during data fetching. Results might be incomplete.".
Proof.
  eexists. split; [reflexivity |]. split; [reflexivity |].
  apply (proj1 (proj2 (proj2
           (@completed_report_flags_errors "942471"
              [Examples.followersPage (Examples.followers 1 3) None]
              [Http.Rejected
                 {| Http.response_data_error_message := None;
                    Http.response_data_message := None;
                    Http.message := "timeout" |}] _ eq_refl)))).
  discriminate.
Defined.

(** X14.  When the pagination ends without a single FID, the capability
    answers at once, whatever the profile server would say: with the error
    of the pagination if it failed, and otherwise with the notice that the
    user has no followers.  In particular a failure of the first request
    gives the first answer, and an empty first page the second. *)
Theorem run_aborts_without_followers fid followers bulk collected :
  FollowerAnalyst.collectFollowers fid followers = Some collected ->
  FollowerAnalyst.allFollowerFids collected = [] ->
  FollowerAgent.run fid followers bulk =
  Some (FollowerAgent.Aborted fid
          match FollowerAnalyst.fetchError collected with
          | Some e => "Could not fetch followers: " +++ e
          | None => "No followers found for FID " +++ fid +++ "."
          end
          "Analysis cannot proceed without follower data.").
Proof.
  intros Hc Hnil. unfold FollowerAgent.run. rewrite Hc, Hnil.
  cbn [FollowerAnalyst.dedupe JsSet.ofArray JsSet.toArray fold_left
       List.length Nat.eqb].
  unfold FollowerAnalyst.collectFollowers, FollowerAnalyst.collect in Hc.
  rewrite (followerLoop_error _ _ _ _ _ _ _ Hc).
  destruct (FollowerAnalyst.fetchError collected); reflexivity.
Qed.

Lemma run_aborts_without_followers_witness :
  FollowerAgent.run "942471"
    [Http.Rejected
       {| Http.response_data_error_message := None;
          Http.response_data_message := Some "Invalid API key";
          Http.message := "Request failed with status code 401" |}]
    [] =
  Some (FollowerAgent.Aborted "942471"
          "Could not fetch followers: Neynar API error (followers): Invalid API key"
          "Analysis cannot proceed without follower data.")
  /\ FollowerAgent.run "942471" [Examples.followersPage [] None] [] =
     Some (FollowerAgent.Aborted "942471"
             "No followers found for FID 942471."
             "Analysis cannot proceed without follower data.").
Proof.
  split.
  - apply (@run_aborts_without_followers "942471"
             [Http.Rejected
                {| Http.response_data_error_message := None;
                   Http.response_data_message := Some "Invalid API key";
                   Http.message := "Request failed with status code 401" |}]
             [] _ eq_refl eq_refl).
  - apply (@run_aborts_without_followers "942471"
             [Examples.followersPage [] None] [] _ eq_refl eq_refl).
Defined.

(** X15.  End to end, with no failure: the pages carry cursors until one
    carries none and hold fewer followers than the cap, and the profile
    server answers every chunk.  If at least one FID qualifies and at
    least one profile comes back, the capability completes without error
    notice; it analyses the profiles of the answers to the
    [ceil(n / 100)] chunks of the [n] unique FIDs, and says so in its
    summary. *)
Theorem run_completes_without_error fid pages last rest bulk :
  Forall (fun b => Js.truthy (Reference.cursorOf b) = true) pages ->
  Js.truthy (Reference.cursorOf last) = false ->
  List.length (List.concat (map Reference.followersOf (pages ++ [last])))
  < FollowerAnalyst.MAX_FOLLOWERS_TO_PROCESS ->
  let fids :=
    FollowerAnalyst.dedupe (Reference.qualifyingFids (pages ++ [last])) in
  let answers :=
    firstn (Reference.ceilDiv (List.length fids)
              FollowerAgent.BULK_USER_FETCH_CHUNK_SIZE) bulk in
  fids <> [] ->
  Reference.ceilDiv (List.length fids) FollowerAgent.BULK_USER_FETCH_CHUNK_SIZE
  <= List.length bulk ->
  Forall (fun a => match a with
                   | Http.Resolved _ => True
                   | Http.Rejected _ => False
                   end) answers ->
  List.concat (map FollowerAgent.bulkUsersOf answers) <> [] ->
  FollowerAgent.run fid (map Http.Resolved (pages ++ [last]) ++ rest) bulk =
  Some (FollowerAgent.Completed
          {| FollowerAgent.target_fid := fid;
             FollowerAgent.analysis_summary :=
               "Analyzed " +++
               Js.natToString
                 (List.length
                    (List.concat (map FollowerAgent.bulkUsersOf answers))) +++
               " followers (from " +++
               Js.natToString (List.length fids) +++
               " collected FIDs, up to 150 processed).";
             FollowerAgent.analyzed :=
               List.concat (map FollowerAgent.bulkUsersOf answers);
             FollowerAgent.initial_follower_fetch_error := None;
             FollowerAgent.bulk_profile_fetch_error := None;
             FollowerAgent.report_error := None |}).
Proof.
  intros Hpages Hlast Hroom fids answers Hfids Hbulk Hok Hprofiles.
  assert (Hq : Reference.qualifyingFids (pages ++ [last])
               = Reference.qualifyingFids pages
                 ++ FollowerAnalyst.pushedFids (Reference.followersOf last)).
  { unfold Reference.qualifyingFids. rewrite map_app, concat_app.
    cbn [map List.concat]. now rewrite app_nil_r. }
  destruct (@followerLoop_stops_at
              FollowerAnalyst.MAX_FOLLOWERS_TO_PROCESS
              FollowerAnalyst.FOLLOWER_FETCH_BATCH_SIZE fid pages
              (Http.Resolved last) rest [] 0 None (Nat.lt_0_succ 49) Hpages)
    as [c [Hc [Hf [He _]]]].
  { cbn [Reference.lastFollowersAnswer]. now rewrite Hlast. }
  { cbn [Reference.lastFollowers].
    rewrite map_app, concat_app, !length_app in Hroom.
    cbn [map List.concat] in Hroom. rewrite app_nil_r in Hroom. lia. }
  cbn [Reference.lastFollowers app] in Hf. rewrite <- Hq in Hf.
  cbn [Reference.lastFollowersError] in He.
  unfold FollowerAgent.run, FollowerAnalyst.collectFollowers,
    FollowerAnalyst.collect.
  replace (map Http.Resolved (pages ++ [last]) ++ rest)
    with (map Http.Resolved pages ++ Http.Resolved last :: rest)
    by (rewrite map_app, <- app_assoc; reflexivity).
  rewrite Hc, Hf, He. fold fids.
  destruct (Nat.eqb_spec (List.length fids) 0) as [E | _].
  { apply length_zero_iff_nil in E. contradiction. }
  rewrite (@hydrate_run FollowerAgent.BULK_USER_FETCH_CHUNK_SIZE fids bulk
             (Nat.lt_0_succ 99) Hbulk).
  fold answers.
  cbn [FollowerAgent.followerProfilesToAnalyze FollowerAgent.bulkFetchError].
  rewrite (proj2 (chunkErrors_resolved 1 answers) Hok).
  destruct (Nat.eqb_spec
              (List.length
                 (List.concat (map FollowerAgent.bulkUsersOf answers))) 0)
    as [E | _].
  { apply length_zero_iff_nil in E. contradiction. }
  reflexivity.
Qed.

Lemma run_completes_without_error_witness :
  exists report,
    FollowerAgent.run "942471"
      (map Http.Resolved
         ([{| FollowerAnalyst.body_users := Some (Examples.followers 1 2);
              FollowerAnalyst.body_next :=
                Some {| FollowerAnalyst.cursor := Some "next" |} |}]
          ++ [{| FollowerAnalyst.body_users := Some (Examples.followers 2 2);
                 FollowerAnalyst.body_next := None |}])
       ++ [])
      [Http.Resolved
         {| FollowerAgent.bulk_users :=
              Some [FollowerAnalyst.user (Examples.follower 1);
                    FollowerAnalyst.user (Examples.follower 2);
                    FollowerAnalyst.user (Examples.follower 3)] |}]
    = Some (FollowerAgent.Completed report)
    /\ FollowerAgent.analysis_summary report =
         "Analyzed 3 followers (from 3 collected FIDs, up to 150 processed)."
    /\ FollowerAgent.report_error report = None.
Proof.
  eexists. split.
  - apply run_completes_without_error.
    + repeat constructor.
    + reflexivity.
    + vm_compute. repeat constructor.
    + discriminate.
    + vm_compute. repeat constructor.
    + repeat constructor.
    + discriminate.
  - split; reflexivity.
Defined.

(** ** The pulse analyzer *)

Section PulseFacts.

Import Http Pulse PulseAgent.

Lemma orElse_nonempty (a : option string) (b : string) :
  b <> "" -> Js.orElse a b <> "".
Proof.
  intro Hb. destruct a as [s |]; cbn; [| exact Hb].
  destruct (String.eqb_spec s ""); assumption.
Qed.

(** The one request [summarizeFarcasterDiscussionOrXReactions] posts. *)
Lemma summarize_posted xai catalystCast directReplies :
  exists p,
    snd (summarizeFarcasterDiscussionOrXReactions xai catalystCast
           directReplies) = [p]
    /\ model p = "grok-3-latest"
    /\ max_tokens p = XAI_SUMMARY_MAX_TOKENS
    /\ search_parameters p =
         match directReplies with
         | [] => Some xSearch
         | _ :: _ => None
         end.
Proof.
  unfold summarizeFarcasterDiscussionOrXReactions, makeXaiRequest.
  destruct directReplies as [| r rs]; cbn [List.length Nat.ltb Nat.leb snd];
    eexists; repeat split.
Qed.

Lemma getRecentXEventsContext_posted xai topic :
  exists p,
    snd (getRecentXEventsContext xai topic) = [p]
    /\ model p = "grok-3-latest"
    /\ max_tokens p = XAI_X_SEARCH_MAX_TOKENS
    /\ search_parameters p = Some xSearch.
Proof.
  unfold getRecentXEventsContext, makeXaiRequest. cbn [snd].
  eexists. repeat split.
Qed.

End PulseFacts.

(** X16.  Of the direct replies, [summarizeFarcasterDiscussionOrXReactions]
    reads the first seven only: the request it posts and the summary it
    returns are those it would give for these seven alone. *)
Theorem summary_reads_seven_replies
  (xai : Pulse.Payload -> Http.Axios Pulse.XaiSearchResponse)
  (catalystCast : Pulse.NeynarCast) (directReplies : list Pulse.NeynarCast) :
  Pulse.summarizeFarcasterDiscussionOrXReactions xai catalystCast directReplies
  = Pulse.summarizeFarcasterDiscussionOrXReactions xai catalystCast
      (firstn 7 directReplies).
Proof.
  unfold Pulse.summarizeFarcasterDiscussionOrXReactions.
  destruct directReplies as [| r rs]; [reflexivity |].
  rewrite !firstn_map, firstn_firstn.
  reflexivity.
Qed.

(** X17.  The summary of the discussion is never empty, whatever xAI
    answers.  Without direct replies it always starts by saying that no
    direct replies were available, and when xAI fails it goes on with the
    notice that no related discussion could be fetched: for a cast with an
    ASCII text the summary is then that notice around the first 50
    characters of the text, and the error of xAI is dropped.  With direct
    replies a failure of xAI is returned as the text of its error. *)
Theorem summary_never_empty
  (xai : Pulse.Payload -> Http.Axios Pulse.XaiSearchResponse)
  (catalystCast : Pulse.NeynarCast) (directReplies : list Pulse.NeynarCast) :
  fst (Pulse.summarizeFarcasterDiscussionOrXReactions xai catalystCast
         directReplies) <> ""
  /\ (directReplies = [] ->
      String.prefix "No direct Farcaster replies were available for analysis"
        (fst (Pulse.summarizeFarcasterDiscussionOrXReactions xai catalystCast
                directReplies)) = true)
  /\ (forall err, (forall p, xai p = Http.Rejected err) ->
      match directReplies with
      | [] =>
          String.prefix
            "No direct Farcaster replies were available for analysis, and could not fetch significant related X discussions for "
            (fst (Pulse.summarizeFarcasterDiscussionOrXReactions xai
                    catalystCast directReplies)) = true
          /\ (Js.isAscii
                (Js.orElse (Pulse.text catalystCast) "a cast with no text")
              = true ->
              fst (Pulse.summarizeFarcasterDiscussionOrXReactions xai
                     catalystCast directReplies) =
              "No direct Farcaster replies were available for analysis, and could not fetch significant related X discussions for "
              +++ Js.dquote +++
              Js.prefix 50
                (Js.orElse (Pulse.text catalystCast) "a cast with no text")
              +++ "..." +++ Js.dquote +++
              ". The catalyst cast's topic itself is the primary focus.")
      | _ :: _ =>
          fst (Pulse.summarizeFarcasterDiscussionOrXReactions xai catalystCast
                 directReplies) =
          "Error summarizing Farcaster replies: xAI API error: "
          +++ Pulse.xaiErrorText err
      end).
Proof.
  unfold Pulse.summarizeFarcasterDiscussionOrXReactions, Pulse.makeXaiRequest.
  destruct directReplies as [| r rs]; cbn [List.length Nat.ltb Nat.leb fst].
  - split; [| split].
    + match goal with |- (if ?c then _ else _) <> _ => destruct c end;
        discriminate.
    + intros _.
      match goal with |- String.prefix _ (if ?c then _ else _) = _ =>
        destruct c end; reflexivity.
    + intros err Hxai. rewrite Hxai. split; [reflexivity |].
      intros _. reflexivity.
  - split; [| split].
    + apply orElse_nonempty. discriminate.
    + discriminate.
    + intros err Hxai. rewrite Hxai. reflexivity.
Qed.

Lemma summary_never_empty_witness :
  fst (Pulse.summarizeFarcasterDiscussionOrXReactions Examples.xaiDown
         Examples.catalyst [Examples.reply])
  = "Error summarizing Farcaster replies: xAI API error: connect ECONNREFUSED"
  /\ String.prefix "No direct Farcaster replies were available for analysis"
       (fst (Pulse.summarizeFarcasterDiscussionOrXReactions Examples.xaiDown
               Examples.catalyst [])) = true
  /\ fst (Pulse.summarizeFarcasterDiscussionOrXReactions Examples.xaiDown
            Examples.catalyst [])
     = "No direct Farcaster replies were available for analysis, and could not fetch significant related X discussions for "
       +++ Js.dquote +++ "Frames are live..." +++ Js.dquote +++
       ". The catalyst cast's topic itself is the primary focus.".
Proof.
  split; [| split].
  - apply (proj2 (proj2 (summary_never_empty Examples.xaiDown Examples.catalyst
                           [Examples.reply]))
             {| Http.response_data_error_message := None;
                Http.response_data_message := None;
                Http.message := "connect ECONNREFUSED" |}).
    reflexivity.
  - apply (proj1 (proj2 (summary_never_empty Examples.xaiDown Examples.catalyst
                           []))).
    reflexivity.
  - apply (proj2
             (proj2 (proj2 (summary_never_empty Examples.xaiDown
                              Examples.catalyst []))
                {| Http.response_data_error_message := None;
                   Http.response_data_message := None;
                   Http.message := "connect ECONNREFUSED" |}
                (fun _ => eq_refl))).
    reflexivity.
Defined.

(** X18.  The replies to a cast are asked for only if its author has a
    username and the cast a hash: otherwise
    [fetchCastRepliesUsingParentUrl] reports an error without any request.
    When both are there it makes one request, to [/feed], for the replies
    under [https://warpcast.com/<username>/<hash>], ten at most, and a
    failure of that request comes back as the error of the result. *)
Theorem replies_need_username_and_hash
  (neynar : PulseAgent.NeynarRequest -> Http.Axios PulseAgent.FeedBody)
  (parentCast : Pulse.NeynarCast) (viewerFid : string) :
  (Js.truthy (Pulse.username (Pulse.author parentCast)) = false
   \/ Pulse.hash parentCast = "" ->
   PulseAgent.fetchCastRepliesUsingParentUrl neynar parentCast viewerFid =
   ({| PulseAgent.data := None;
       PulseAgent.error :=
         Some "Parent cast author username or hash is missing, cannot construct parent_url for replies." |},
    []))
  /\ (forall name,
        Pulse.username (Pulse.author parentCast) = Some name ->
        name <> "" -> Pulse.hash parentCast <> "" ->
        exists request,
          snd (PulseAgent.fetchCastRepliesUsingParentUrl neynar parentCast
                 viewerFid) = [request]
          /\ PulseAgent.endpoint request = "/feed"
          /\ In ("parent_url",
                 "https://warpcast.com/" +++ name +++ "/"
                 +++ Pulse.hash parentCast)
                (PulseAgent.params request)
          /\ In ("limit", "10") (PulseAgent.params request)
          /\ In ("viewer_fid", viewerFid) (PulseAgent.params request)
          /\ match neynar request with
             | Http.Resolved body =>
                 fst (PulseAgent.fetchCastRepliesUsingParentUrl neynar
                        parentCast viewerFid) =
                 {| PulseAgent.data := Some body; PulseAgent.error := None |}
             | Http.Rejected err =>
                 fst (PulseAgent.fetchCastRepliesUsingParentUrl neynar
                        parentCast viewerFid) =
                 {| PulseAgent.data := None;
                    PulseAgent.error :=
                      Some ("Neynar API error for /v2/farcaster/feed: "
                            +++ Http.errorText err) |}
             end).
Proof.
  unfold PulseAgent.fetchCastRepliesUsingParentUrl. split.
  - intros [Hu | Hh].
    + rewrite Hu. reflexivity.
    + rewrite Hh. cbn. now rewrite orb_true_r.
  - intros name Hname Hne Hhash. rewrite Hname.
    cbn [Js.truthy Js.show].
    destruct (String.eqb_spec name ""); [contradiction |].
    destruct (String.eqb_spec (Pulse.hash parentCast) ""); [contradiction |].
    cbn [negb orb]. unfold PulseAgent.makeNeynarRequest. cbn [snd fst].
    eexists. split; [reflexivity |].
    cbn [PulseAgent.endpoint PulseAgent.params].
    split; [reflexivity |].
    split; [cbn; tauto |]. split; [cbn; tauto |]. split; [cbn; tauto |].
    match goal with |- match ?a with _ => _ end => destruct a end;
      reflexivity.
Qed.

Lemma replies_need_username_and_hash_witness :
  PulseAgent.fetchCastRepliesUsingParentUrl
    (fun _ => Http.Resolved {| PulseAgent.casts := None |})
    Examples.reply "3" =
  ({| PulseAgent.data := None;
      PulseAgent.error :=
        Some "Parent cast author username or hash is missing, cannot construct parent_url for replies." |},
   []).
Proof.
  apply (proj1 (replies_need_username_and_hash
                  (fun _ => Http.Resolved {| PulseAgent.casts := None |})
                  Examples.reply "3")).
  left. reflexivity.
Defined.

Section PulseRuns.

Import Http Pulse PulseAgent PulseTrace.

Variables (now : string) (neynar : nat -> NeynarRequest -> Axios FeedBody).
Variables (xai : nat -> Payload -> Axios XaiSearchResponse).
Variable viewerFid : string.

(** A run that finds no trending cast. *)
Lemma run_early :
  trendingCasts (neynar 0 (trendingRequest viewerFid)) = [] ->
  run now neynar xai viewerFid =
  {| result :=
       NoConversation viewerFid now
         ["TrendingFeed: "
          +++ trendingFailure (neynar 0 (trendingRequest viewerFid))]
         "Could not identify a strong trending Farcaster conversation at this moment.";
     neynarRequests := [trendingRequest viewerFid];
     xaiPayloads := [] |}.
Proof.
  intro Hcasts. unfold run, makeNeynarRequest.
  change {| endpoint := "/feed/trending";
            params := [("limit", Js.natToString TRENDING_FEED_LIMIT);
                       ("time_window", TRENDING_TIME_WINDOW);
                       ("provider", "neynar"); ("viewer_fid", viewerFid)] |}
    with (trendingRequest viewerFid).
  destruct (neynar 0 (trendingRequest viewerFid)) as [body | err];
    cbn in Hcasts |- *.
  - rewrite Hcasts. reflexivity.
  - reflexivity.
Qed.

(** The steps of a run that finds one, by what each step returns. *)
Lemma run_analysed catalyst rest :
  trendingCasts (neynar 0 (trendingRequest viewerFid)) = catalyst :: rest ->
  let catalystCast := cast catalyst in
  let fetched :=
    fetchCastRepliesUsingParentUrl (neynar 1) catalystCast viewerFid in
  let replies :=
    match data (fst fetched) with
    | Some body =>
        match casts body with
        | Some cs => map cast cs
        | None => []
        end
    | None => []
    end in
  let summarized :=
    summarizeFarcasterDiscussionOrXReactions (xai 0) catalystCast replies in
  let mainTopicForSearch :=
    Js.orElse
      (option_map (fun t => replaceNewlines (Js.prefix 70 t))
         (text catalystCast))
      "current Farcaster topics" in
  let searched := getRecentXEventsContext (xai 1) mainTopicForSearch in
  let details :=
    {| details_hash := hash catalystCast;
       author_fid := fid (author catalystCast);
       author_username := displayName (author catalystCast);
       details_text := text catalystCast;
       details_channel :=
         Js.orElse (option_map channel_name (channel catalyst)) "N/A";
       likes :=
         match reactions catalyst with
         | Some r => likes_count r
         | None => None
         end;
       recasts :=
         match reactions catalyst with
         | Some r => recasts_count r
         | None => None
         end;
       details_timestamp := timestamp catalystCast |} in
  let synthesis :=
    makeXaiRequest (xai 2)
      (synthesisPrompt details (fst summarized) mainTopicForSearch
         (fst searched))
      None XAI_FINAL_SYNTHESIS_MAX_TOKENS (QArith_base.Qmake 6 10) in
  run now neynar xai viewerFid =
  {| result :=
       Analysed
         {| requesting_fid := viewerFid;
            analysis_timestamp := now;
            errors :=
              if Js.truthy (error (fst fetched))
              then ["CatalystReplies: " +++ Js.show (error (fst fetched))]
              else [];
            trending_casts_overview_sample :=
              map (fun c =>
                     {| overview_hash := hash (cast c);
                        overview_author := displayName (author (cast c));
                        text_snippet :=
                          Js.show (option_map (Js.prefix 70) (text (cast c)))
                          +++ "..." |})
                  (firstn 3 (catalyst :: rest));
            catalyst_cast_details := details;
            replies_sample :=
              if Js.truthy (error (fst fetched)) then []
              else
                firstn 5
                  (map (fun r =>
                          {| sample_author := displayName (author r);
                             sample_text := text r |})
                       replies);
            discussion_summary := fst summarized;
            derived_main_topic_for_search := mainTopicForSearch;
            recent_x_events_context := fst searched;
            final_summary :=
              Js.orElse (result_content (fst synthesis))
                ("Error in final synthesis: "
                 +++ Js.show (result_error (fst synthesis))) |};
     neynarRequests := trendingRequest viewerFid :: snd fetched;
     xaiPayloads := snd summarized ++ snd searched ++ snd synthesis |}.
Proof.
  intro Hcasts. unfold run, makeNeynarRequest at 1.
  change {| endpoint := "/feed/trending";
            params := [("limit", Js.natToString TRENDING_FEED_LIMIT);
                       ("time_window", TRENDING_TIME_WINDOW);
                       ("provider", "neynar"); ("viewer_fid", viewerFid)] |}
    with (trendingRequest viewerFid).
  destruct (neynar 0 (trendingRequest viewerFid)) as [body | err];
    cbn [trendingCasts] in Hcasts; [| discriminate].
  cbn [data error Js.truthy].
  destruct (casts body) as [cs |]; [| discriminate].
  subst cs. cbv zeta.
  destruct (fetchCastRepliesUsingParentUrl (neynar 1) (cast catalyst)
              viewerFid) as [repliesData sent2].
  cbn [fst snd].
  destruct (summarizeFarcasterDiscussionOrXReactions (xai 0) (cast catalyst) _)
    as [discussionSummary posted1].
  destruct (getRecentXEventsContext (xai 1) _) as [xEventsContext posted2].
  cbn [fst snd].
  destruct (makeXaiRequest (xai 2) _ None XAI_FINAL_SYNTHESIS_MAX_TOKENS _)
    as [finalSummaryResult posted3].
  reflexivity.
Qed.

End PulseRuns.

Section PulseHelpers.

Import Http Pulse PulseAgent PulseTrace.

(** A failure of [fetchCastRepliesUsingParentUrl] has a text and no data. *)
Lemma fetchCastReplies_error neynar parentCast viewerFid e :
  error (fst (fetchCastRepliesUsingParentUrl neynar parentCast viewerFid))
  = Some e ->
  Js.truthy (Some e) = true
  /\ data (fst (fetchCastRepliesUsingParentUrl neynar parentCast viewerFid))
     = None.
Proof.
  unfold fetchCastRepliesUsingParentUrl, makeNeynarRequest.
  destruct (negb (Js.truthy (username (author parentCast)))
            || (hash parentCast =? "")%string).
  - cbn [fst error data]. intro He. injection He as <-. split; reflexivity.
  - cbn [fst].
    match goal with |- error (match ?a with _ => _ end) = _ -> _ =>
      destruct a as [body | err] end; cbn [error data].
    + discriminate.
    + intro He. injection He as <-. split; reflexivity.
Qed.

(** The payload [makeXaiRequest] posts. *)
Lemma makeXaiRequest_posted xai prompt searchParams maxTokens temperature :
  snd (makeXaiRequest xai prompt searchParams maxTokens temperature) =
  [{| model := "grok-3-latest";
      messages := [{| role := "user"; content := prompt |}];
      max_tokens := maxTokens; temperature := temperature;
      search_parameters := searchParams |}].
Proof. reflexivity. Qed.

(** What [makeXaiRequest] returns when the request it posts fails. *)
Lemma makeXaiRequest_rejected_at xai prompt searchParams maxTokens temperature
  err payload :
  snd (makeXaiRequest xai prompt searchParams maxTokens temperature)
  = [payload] ->
  xai payload = Rejected err ->
  fst (makeXaiRequest xai prompt searchParams maxTokens temperature) =
  {| result_content := None; result_citations := None;
     result_error := Some ("xAI API error: " +++ xaiErrorText err) |}.
Proof.
  unfold makeXaiRequest. cbn [fst snd]. intros Hp Hxai.
  injection Hp as Hp. rewrite Hp, Hxai. reflexivity.
Qed.

Lemma getRecentXEventsContext_rejected xai topic err payload :
  snd (getRecentXEventsContext xai topic) = [payload] ->
  xai payload = Rejected err ->
  fst (getRecentXEventsContext xai topic) =
  "Error fetching recent X events context: xAI API error: "
  +++ xaiErrorText err.
Proof.
  unfold getRecentXEventsContext.
  match goal with |- snd (let (_, _) := ?r in _) = _ -> _ =>
    rewrite (surjective_pairing r) end.
  cbn [fst snd]. intros Hp Hxai.
  rewrite (@makeXaiRequest_rejected_at _ _ _ _ _ _ _ Hp Hxai). reflexivity.
Qed.

End PulseHelpers.

(** X19.  When the request for the trending feed fails, or brings no cast,
    the run ends there: it has made that one request to Neynar and none to
    xAI, and what it returns carries the one error [TrendingFeed: ...],
    with the failure of the request or [No trending casts found.], and the
    fixed final summary. *)
Theorem run_ends_without_trending_casts
  (now : string)
  (neynar : nat -> PulseAgent.NeynarRequest -> Http.Axios PulseAgent.FeedBody)
  (xai : nat -> Pulse.Payload -> Http.Axios Pulse.XaiSearchResponse)
  (viewerFid : string) :
  PulseTrace.trendingCasts (neynar 0 (PulseTrace.trendingRequest viewerFid))
  = [] ->
  PulseAgent.result (PulseAgent.run now neynar xai viewerFid) =
  PulseAgent.NoConversation viewerFid now
    ["TrendingFeed: "
     +++ PulseTrace.trendingFailure
           (neynar 0 (PulseTrace.trendingRequest viewerFid))]
    "Could not identify a strong trending Farcaster conversation at this moment."
  /\ PulseAgent.neynarRequests (PulseAgent.run now neynar xai viewerFid)
     = [PulseTrace.trendingRequest viewerFid]
  /\ PulseAgent.xaiPayloads (PulseAgent.run now neynar xai viewerFid) = [].
Proof.
  intro Hcasts. rewrite (@run_early now neynar xai viewerFid Hcasts).
  repeat split.
Qed.

Lemma run_ends_without_trending_casts_witness :
  PulseAgent.result
    (PulseAgent.run "2024-01-26T00:00:00.000Z" PulseTrace.neynarDown
       PulseTrace.xaiUp "3") =
  PulseAgent.NoConversation "3" "2024-01-26T00:00:00.000Z"
    ["TrendingFeed: Neynar API error for /v2/farcaster/feed/trending: timeout of 1000ms exceeded"]
    "Could not identify a strong trending Farcaster conversation at this moment."
  /\ PulseAgent.xaiPayloads
       (PulseAgent.run "2024-01-26T00:00:00.000Z" PulseTrace.neynarDown
          PulseTrace.xaiUp "3") = [].
Proof.
  destruct (@run_ends_without_trending_casts "2024-01-26T00:00:00.000Z"
              PulseTrace.neynarDown PulseTrace.xaiUp "3" eq_refl)
    as [Hresult [_ Hxai]].
  split; [exact Hresult | exact Hxai].
Defined.

(** X20.  A run that finds a trending cast posts exactly three prompts to
    xAI, in this order: the summary of the discussion, with at most 250
    tokens, which searches X exactly when the report shows no reply; the
    search of X for recent events, with at most 400; and the synthesis, with
    at most 500 and no search, whose prompt, for a catalyst with an ASCII
    text, is built from the details of the catalyst, the summary, the topic
    and the context that the report carries.  The catalyst is the first
    cast of the feed. *)
Theorem run_posts_three_prompts
  (now : string)
  (neynar : nat -> PulseAgent.NeynarRequest -> Http.Axios PulseAgent.FeedBody)
  (xai : nat -> Pulse.Payload -> Http.Axios Pulse.XaiSearchResponse)
  (viewerFid : string)
  (catalyst : PulseAgent.FeedCast) (rest : list PulseAgent.FeedCast) :
  PulseTrace.trendingCasts (neynar 0 (PulseTrace.trendingRequest viewerFid))
  = catalyst :: rest ->
  exists report summary search synthesis,
    PulseAgent.result (PulseAgent.run now neynar xai viewerFid)
    = PulseAgent.Analysed report
    /\ PulseAgent.xaiPayloads (PulseAgent.run now neynar xai viewerFid)
       = [summary; search; synthesis]
    /\ map Pulse.max_tokens [summary; search; synthesis] = [250; 400; 500]
    /\ Pulse.search_parameters summary =
       match PulseAgent.replies_sample report with
       | [] => Some Pulse.xSearch
       | _ :: _ => None
       end
    /\ Pulse.search_parameters search = Some Pulse.xSearch
    /\ Pulse.search_parameters synthesis = None
    /\ (Js.isAscii (Js.show (Pulse.text (PulseAgent.cast catalyst))) = true ->
        Pulse.messages synthesis =
        [{| Pulse.role := "user";
            Pulse.content :=
              PulseAgent.synthesisPrompt
                (PulseAgent.catalyst_cast_details report)
                (PulseAgent.discussion_summary report)
                (PulseAgent.derived_main_topic_for_search report)
                (PulseAgent.recent_x_events_context report) |}])
    /\ PulseAgent.details_hash (PulseAgent.catalyst_cast_details report)
       = Pulse.hash (PulseAgent.cast catalyst)
    /\ PulseAgent.details_text (PulseAgent.catalyst_cast_details report)
       = Pulse.text (PulseAgent.cast catalyst).
Proof.
  intro Hcasts.
  pose proof (@run_analysed now neynar xai viewerFid catalyst rest Hcasts)
    as Hrun.
  cbv zeta in Hrun. rewrite Hrun. clear Hrun.
  set (fetched := PulseAgent.fetchCastRepliesUsingParentUrl (neynar 1)
                    (PulseAgent.cast catalyst) viewerFid).
  set (replies := match PulseAgent.data (fst fetched) with
                  | Some body =>
                      match PulseAgent.casts body with
                      | Some cs => map PulseAgent.cast cs
                      | None => []
                      end
                  | None => []
                  end).
  assert (Hreplies : Js.truthy (PulseAgent.error (fst fetched)) = true ->
                     replies = []).
  { intro Herr. destruct (PulseAgent.error (fst fetched)) as [e |] eqn:He;
      [| discriminate].
    destruct (@fetchCastReplies_error (neynar 1) (PulseAgent.cast catalyst)
                viewerFid e He) as [_ Hdata].
    unfold replies. fold fetched in Hdata. now rewrite Hdata. }
  destruct (@summarize_posted (xai 0) (PulseAgent.cast catalyst) replies)
    as [p1 [Hp1 [_ [Htok1 Hsearch1]]]].
  destruct (@getRecentXEventsContext_posted (xai 1)
              (Js.orElse
                 (option_map
                    (fun t => PulseAgent.replaceNewlines (Js.prefix 70 t))
                    (Pulse.text (PulseAgent.cast catalyst)))
                 "current Farcaster topics"))
    as [p2 [Hp2 [_ [Htok2 Hsearch2]]]].
  cbn [PulseAgent.result PulseAgent.xaiPayloads].
  rewrite Hp1, Hp2, makeXaiRequest_posted.
  eexists. exists p1, p2. eexists.
  split; [reflexivity |]. split; [reflexivity |].
  split; [cbn [map Pulse.max_tokens]; rewrite Htok1, Htok2; reflexivity |].
  split.
  { cbn [PulseAgent.replies_sample]. rewrite Hsearch1.
    destruct (Js.truthy (PulseAgent.error (fst fetched))) eqn:Herr.
    - now rewrite (Hreplies eq_refl).
    - destruct replies; reflexivity. }
  split; [exact Hsearch2 |].
  split; [reflexivity |]. split; [intros _; reflexivity |].
  split; reflexivity.
Qed.

Lemma run_posts_three_prompts_witness :
  map Pulse.max_tokens
    (PulseAgent.xaiPayloads
       (PulseAgent.run "2024-01-26T00:00:00.000Z" PulseTrace.repliesDown
          PulseTrace.xaiUp "3")) = [250; 400; 500]
  /\ exists report,
       PulseAgent.result
         (PulseAgent.run "2024-01-26T00:00:00.000Z" PulseTrace.repliesDown
            PulseTrace.xaiUp "3") = PulseAgent.Analysed report
       /\ map Pulse.messages
            (skipn 2
               (PulseAgent.xaiPayloads
                  (PulseAgent.run "2024-01-26T00:00:00.000Z"
                     PulseTrace.repliesDown PulseTrace.xaiUp "3"))) =
          [[{| Pulse.role := "user";
               Pulse.content :=
                 PulseAgent.synthesisPrompt
                   (PulseAgent.catalyst_cast_details report)
                   (PulseAgent.discussion_summary report)
                   (PulseAgent.derived_main_topic_for_search report)
                   (PulseAgent.recent_x_events_context report) |}]].
Proof.
  destruct (@run_posts_three_prompts "2024-01-26T00:00:00.000Z"
              PulseTrace.repliesDown PulseTrace.xaiUp "3"
              {| PulseAgent.cast := Examples.catalyst;
                 PulseAgent.reactions := None;
                 PulseAgent.channel := None |} [] eq_refl)
    as [report [p1 [p2 [p3 [Hresult [Hposted [Htokens
          [_ [_ [_ [Hprompt _]]]]]]]]]]].
  rewrite Hposted. split; [exact Htokens |].
  exists report. split; [exact Hresult |].
  cbn [skipn map]. now rewrite (Hprompt eq_refl).
Defined.

(** X21.  In a run that finds a trending cast the replies are asked for
    after the trending feed, and a failure to get them does not stop the
    run: it is the one entry of the report's [errors], as
    [CatalystReplies: ...], the sample of replies is then empty and the
    summary of the discussion is asked of X; when the replies were fetched
    the report has no error. *)
Theorem replies_failure_is_reported
  (now : string)
  (neynar : nat -> PulseAgent.NeynarRequest -> Http.Axios PulseAgent.FeedBody)
  (xai : nat -> Pulse.Payload -> Http.Axios Pulse.XaiSearchResponse)
  (viewerFid : string)
  (catalyst : PulseAgent.FeedCast) (rest : list PulseAgent.FeedCast) :
  PulseTrace.trendingCasts (neynar 0 (PulseTrace.trendingRequest viewerFid))
  = catalyst :: rest ->
  exists report,
    PulseAgent.result (PulseAgent.run now neynar xai viewerFid)
    = PulseAgent.Analysed report
    /\ PulseAgent.neynarRequests (PulseAgent.run now neynar xai viewerFid)
       = PulseTrace.trendingRequest viewerFid
         :: snd (PulseAgent.fetchCastRepliesUsingParentUrl (neynar 1)
                   (PulseAgent.cast catalyst) viewerFid)
    /\ match PulseAgent.error
               (fst (PulseAgent.fetchCastRepliesUsingParentUrl (neynar 1)
                       (PulseAgent.cast catalyst) viewerFid)) with
       | Some e =>
           PulseAgent.errors report = ["CatalystReplies: " +++ e]
           /\ PulseAgent.replies_sample report = []
           /\ map Pulse.search_parameters
                (firstn 1
                   (PulseAgent.xaiPayloads
                      (PulseAgent.run now neynar xai viewerFid)))
              = [Some Pulse.xSearch]
       | None => PulseAgent.errors report = []
       end.
Proof.
  intro Hcasts.
  pose proof (@run_analysed now neynar xai viewerFid catalyst rest Hcasts)
    as Hrun.
  cbv zeta in Hrun. rewrite Hrun. clear Hrun.
  set (fetched := PulseAgent.fetchCastRepliesUsingParentUrl (neynar 1)
                    (PulseAgent.cast catalyst) viewerFid).
  eexists. split; [reflexivity |]. split; [reflexivity |].
  cbn [PulseAgent.errors PulseAgent.replies_sample PulseAgent.xaiPayloads].
  destruct (PulseAgent.error (fst fetched)) as [e |] eqn:He;
    [| reflexivity].
  destruct (@fetchCastReplies_error (neynar 1) (PulseAgent.cast catalyst)
              viewerFid e He) as [Htruthy Hdata].
  fold fetched in Hdata. rewrite Htruthy, Hdata.
  split; [reflexivity |]. split; [reflexivity |].
  reflexivity.
Qed.

Lemma replies_failure_is_reported_witness :
  exists report,
    PulseAgent.result
      (PulseAgent.run "2024-01-26T00:00:00.000Z" PulseTrace.repliesDown
         PulseTrace.xaiUp "3") = PulseAgent.Analysed report
    /\ PulseAgent.errors report =
       ["CatalystReplies: Neynar API error for /v2/farcaster/feed: Too Many Requests"].
Proof.
  destruct (@replies_failure_is_reported "2024-01-26T00:00:00.000Z"
              PulseTrace.repliesDown PulseTrace.xaiUp "3"
              {| PulseAgent.cast := Examples.catalyst;
                 PulseAgent.reactions := None;
                 PulseAgent.channel := None |} [] eq_refl)
    as [report [Hresult [_ Herrors]]].
  exists report. split; [exact Hresult |].
  exact (proj1 Herrors).
Defined.

(** X22.  What xAI answers changes neither the requests made to Neynar nor
    the [errors] of the result: only failures of Neynar are listed there. *)
Theorem errors_list_neynar_failures_only
  (now : string)
  (neynar : nat -> PulseAgent.NeynarRequest -> Http.Axios PulseAgent.FeedBody)
  (xai xai' : nat -> Pulse.Payload -> Http.Axios Pulse.XaiSearchResponse)
  (viewerFid : string) :
  PulseAgent.neynarRequests (PulseAgent.run now neynar xai viewerFid)
  = PulseAgent.neynarRequests (PulseAgent.run now neynar xai' viewerFid)
  /\ PulseTrace.errorsOf
       (PulseAgent.result (PulseAgent.run now neynar xai viewerFid))
     = PulseTrace.errorsOf
         (PulseAgent.result (PulseAgent.run now neynar xai' viewerFid)).
Proof.
  destruct (PulseTrace.trendingCasts
              (neynar 0 (PulseTrace.trendingRequest viewerFid)))
    as [| catalyst rest] eqn:Hcasts.
  - rewrite (@run_early now neynar xai viewerFid Hcasts),
      (@run_early now neynar xai' viewerFid Hcasts).
    split; reflexivity.
  - pose proof (@run_analysed now neynar xai viewerFid catalyst rest Hcasts)
      as Hrun.
    pose proof (@run_analysed now neynar xai' viewerFid catalyst rest Hcasts)
      as Hrun'.
    cbv zeta in Hrun, Hrun'. rewrite Hrun, Hrun'.
    split; reflexivity.
Qed.

(** X23.  A failure of xAI does not stop a run that found a trending cast.
    Of the three requests it posts, when the second, the search for recent
    events, fails, the error of that request stands in the report as the
    context from X; and when the third, the synthesis, fails, the error of
    that request stands as the final summary.  Either holds whatever
    becomes of the other requests. *)
Theorem xai_failures_stand_in_report
  (now : string)
  (neynar : nat -> PulseAgent.NeynarRequest -> Http.Axios PulseAgent.FeedBody)
  (xai : nat -> Pulse.Payload -> Http.Axios Pulse.XaiSearchResponse)
  (viewerFid : string)
  (catalyst : PulseAgent.FeedCast) (rest : list PulseAgent.FeedCast) :
  PulseTrace.trendingCasts (neynar 0 (PulseTrace.trendingRequest viewerFid))
  = catalyst :: rest ->
  exists report summary search synthesis,
    PulseAgent.result (PulseAgent.run now neynar xai viewerFid)
    = PulseAgent.Analysed report
    /\ PulseAgent.xaiPayloads (PulseAgent.run now neynar xai viewerFid)
       = [summary; search; synthesis]
    /\ (forall err, xai 1 search = Http.Rejected err ->
        PulseAgent.recent_x_events_context report
        = "Error fetching recent X events context: xAI API error: "
          +++ Pulse.xaiErrorText err)
    /\ (forall err, xai 2 synthesis = Http.Rejected err ->
        PulseAgent.final_summary report
        = "Error in final synthesis: xAI API error: "
          +++ Pulse.xaiErrorText err).
Proof.
  intros Hcasts.
  pose proof (@run_analysed now neynar xai viewerFid catalyst rest Hcasts)
    as Hrun.
  cbv zeta in Hrun. rewrite Hrun. clear Hrun.
  cbn [PulseAgent.result PulseAgent.xaiPayloads].
  match goal with
  | |- context [snd (Pulse.summarizeFarcasterDiscussionOrXReactions
                       ?x ?c ?rs)] =>
      destruct (@summarize_posted x c rs) as [p1 [Hp1 _]]
  end.
  match goal with
  | |- context [snd (PulseAgent.getRecentXEventsContext ?x ?topic)] =>
      destruct (@getRecentXEventsContext_posted x topic) as [p2 [Hp2 _]];
      pose proof (@getRecentXEventsContext_rejected x topic) as Hfail2
  end.
  match goal with
  | |- context [snd (Pulse.makeXaiRequest (xai 2) ?pr ?sp ?mt ?tp)] =>
      pose proof (@makeXaiRequest_rejected_at (xai 2) pr sp mt tp) as Hfail3;
      pose proof (@makeXaiRequest_posted (xai 2) pr sp mt tp) as Hp3
  end.
  rewrite Hp1, Hp2, Hp3.
  eexists. exists p1, p2. eexists.
  split; [reflexivity |]. split; [reflexivity |].
  cbn [PulseAgent.recent_x_events_context PulseAgent.final_summary].
  split.
  - intros err Herr. exact (Hfail2 err p2 Hp2 Herr).
  - intros err Herr. rewrite (Hfail3 err _ Hp3 Herr). reflexivity.
Qed.

Lemma xai_failures_stand_in_report_witness :
  exists report,
    PulseAgent.result
      (PulseAgent.run "2024-01-26T00:00:00.000Z" PulseTrace.repliesDown
         PulseTrace.synthesisDown "3") = PulseAgent.Analysed report
    /\ PulseAgent.recent_x_events_context report = "A summary."
    /\ PulseAgent.final_summary report
       = "Error in final synthesis: xAI API error: context length exceeded".
Proof.
  destruct (@xai_failures_stand_in_report "2024-01-26T00:00:00.000Z"
              PulseTrace.repliesDown PulseTrace.synthesisDown "3"
              {| PulseAgent.cast := Examples.catalyst;
                 PulseAgent.reactions := None;
                 PulseAgent.channel := None |} [] eq_refl)
    as [report [p1 [p2 [p3 [Hresult [_ [_ Hfinal]]]]]]].
  exists report. split; [exact Hresult |]. split.
  - vm_compute in Hresult. injection Hresult as <-. reflexivity.
  - apply (Hfinal {| Http.response_data_error_message :=
                       Some "context length exceeded";
                     Http.response_data_message := None;
                     Http.message := "Request failed with status code 400" |}).
    reflexivity.
Defined.
